(** * Transcript_to_hr: the candidate-information extractor
    (backend/services/nlp.py), the candidate store
    (backend/services/db.py), the transcription service
    (backend/services/transcription.py) and the audio workflow
    (backend/app.py)

    A shallow embedding of the rule-based field extractors and of the
    orchestrator [extract_candidate_info], with the properties of the
    extraction engine that the design document states; and of the code
    around the extractor: the validation and the sanitising of the
    store with [create_candidate], the loading of the two models,
    [transcribe_audio], and the route [process_audio] that chains
    transcription, extraction and storage.

    Modelling conventions.
    - A Python [str] is a [string]; its characters are the 7-bit ASCII
      characters, on which the character classes below ([isspace], [\d],
      [\w], case mapping) agree with CPython.  A character outside that
      range is treated as an opaque symbol: no space, no digit, no letter.
    - A Python [int] is a [Z].  [int(s)] is only ever applied to a group
      captured by [\d+] or by a four-digit year pattern (see
      [NumeralFacts]) and is the decimal value of the digits; the
      interpreter's optional limit on the length of a numeral is not
      modelled.
    - A compiled [re] pattern is a value of type [Re.regex], and the
      flags of the pattern are folded into its character classes.
      [Re.search], [Re.match_start], [Re.findall0], [Re.findall1] and
      [Re.sub_empty] follow the backtracking, leftmost, greedy semantics
      of the [re] module.
    - The spaCy annotation ([doc]) is a record with the entity spans and
      the sentence segmentation; the loaded model ([nlp]) is an optional
      function from text to annotation.
    - A Python [set] that is only tested for membership or whose
      iteration order cannot be observed is a list.
    - A function that raises returns a sum whose right side is the
      exception ([exn]); a [try] is a case analysis on that sum.
    - The module variables [_nlp] and [_model] and the upload directory
      are explicit state; a size in bytes is an [N].  What lies outside
      the code (the two model libraries, the [INSERT] of the database,
      writing and removing a file, the texts that format a set or a
      floating-point number) is a parameter that gives the answer of the
      outside.  The queries of the store that only run SQL
      ([get_candidate], [get_all_candidates], [delete_candidate],
      [init_db]) and the routes that only forward to them are not
      modelled.

    Layout: the embedding of the source comes first (string methods,
    matcher, patterns and lexicons, extractors, orchestrator, store,
    services, workflow), then the definitions that the statements need,
    then the facts and the theorems, and last some checks on concrete
    inputs. *)

From Stdlib Require Import String Ascii List ZArith NArith Lia Bool Arith PeanoNat.
From Stdlib Require Import Sorting.Sorted Sorting.Permutation.
From Stdlib Require OrderedTypeEx.
From stdpp Require Import gmap strings.

Import ListNotations.
Local Open Scope string_scope.
Local Open Scope list_scope.

(* ===================================================================== *)
(** * Python's [str] methods *)
(* ===================================================================== *)

Module Py.

Definition code (c : ascii) : nat := nat_of_ascii c.

Definition between (lo hi : nat) (c : ascii) : bool :=
  (lo <=? code c)%nat && (code c <=? hi)%nat.

(** [str.isspace] on one character: TAB..CR, FS..US and the blank. *)
Definition isspace (c : ascii) : bool :=
  between 9 13 c || between 28 32 c.

Definition isdigit_chr (c : ascii) : bool := between 48 57 c.
Definition isupper_chr (c : ascii) : bool := between 65 90 c.
Definition islower_chr (c : ascii) : bool := between 97 122 c.
Definition isalpha_chr (c : ascii) : bool := isupper_chr c || islower_chr c.

Definition lower_chr (c : ascii) : ascii :=
  if isupper_chr c then ascii_of_nat (code c + 32) else c.
Definition upper_chr (c : ascii) : ascii :=
  if islower_chr c then ascii_of_nat (code c - 32) else c.

Fixpoint lower (s : string) : string :=
  match s with
  | EmptyString => EmptyString
  | String c s' => String (lower_chr c) (lower s')
  end.

Definition len (s : string) : nat := String.length s.

(** [s.lstrip()], [s.rstrip()], [s.strip()] *)
Fixpoint lstrip (s : string) : string :=
  match s with
  | EmptyString => EmptyString
  | String c s' => if isspace c then lstrip s' else s
  end.

Fixpoint rstrip (s : string) : string :=
  match s with
  | EmptyString => EmptyString
  | String c s' =>
      match rstrip s' with
      | EmptyString => if isspace c then EmptyString else String c EmptyString
      | r => String c r
      end
  end.

Definition strip (s : string) : string := rstrip (lstrip s).

(** [sub in s] *)
Fixpoint contains (sub s : string) : bool :=
  String.prefix sub s ||
  match s with
  | EmptyString => false
  | String _ s' => contains sub s'
  end.

(** [s.find(sub)]: the lowest index, [None] for Python's -1. *)
Fixpoint find_from (i : nat) (sub s : string) : option nat :=
  if String.prefix sub s then Some i
  else match s with
       | EmptyString => None
       | String _ s' => find_from (S i) sub s'
       end.
Definition find (sub s : string) : option nat := find_from 0 sub s.

(** [s.rfind(sub)]: the highest index. *)
Fixpoint rfind_from (i : nat) (sub s : string) : option nat :=
  let here := if String.prefix sub s then Some i else None in
  match s with
  | EmptyString => here
  | String _ s' =>
      match rfind_from (S i) sub s' with
      | Some j => Some j
      | None => here
      end
  end.
Definition rfind (sub s : string) : option nat := rfind_from 0 sub s.

(** [s[a:b]] for [0 <= a], [0 <= b], and [s[:b]], [s[a:]] *)
Definition slice (a b : nat) (s : string) : string := String.substring a (b - a) s.
Definition slice_to (b : nat) (s : string) : string := String.substring 0 b s.
Definition slice_from (a : nat) (s : string) : string :=
  String.substring a (String.length s - a) s.

(** [s.split()]: the maximal runs of non-space characters. *)
Fixpoint split_ws_aux (cur : string) (s : string) : list string :=
  match s with
  | EmptyString => match cur with EmptyString => [] | _ => [cur] end
  | String c s' =>
      if isspace c
      then match cur with
           | EmptyString => split_ws_aux EmptyString s'
           | _ => cur :: split_ws_aux EmptyString s'
           end
      else split_ws_aux (cur ++ String c EmptyString) s'
  end.
Definition split (s : string) : list string := split_ws_aux EmptyString s.

(** [s.split(sep)] for a one-character separator: empty pieces are kept. *)
Fixpoint split_chr_aux (sep : ascii) (cur : string) (s : string) : list string :=
  match s with
  | EmptyString => [cur]
  | String c s' =>
      if Ascii.eqb c sep then cur :: split_chr_aux sep EmptyString s'
      else split_chr_aux sep (cur ++ String c EmptyString) s'
  end.
Definition split_on (sep : ascii) (s : string) : list string :=
  split_chr_aux sep EmptyString s.

(** [sep.join(l)] *)
Definition join (sep : string) (l : list string) : string := String.concat sep l.

(** [s.title()]: a cased character is upper-cased when the previous
    character is not cased, lower-cased otherwise. *)
Fixpoint title_aux (prev_cased : bool) (s : string) : string :=
  match s with
  | EmptyString => EmptyString
  | String c s' =>
      if isalpha_chr c
      then String (if prev_cased then lower_chr c else upper_chr c) (title_aux true s')
      else String c (title_aux false s')
  end.
Definition title (s : string) : string := title_aux false s.

(** [s.isdigit()] *)
Fixpoint all_chr (p : ascii -> bool) (s : string) : bool :=
  match s with
  | EmptyString => true
  | String c s' => p c && all_chr p s'
  end.
Fixpoint any_chr (p : ascii -> bool) (s : string) : bool :=
  match s with
  | EmptyString => false
  | String c s' => p c || any_chr p s'
  end.
Definition isdigit (s : string) : bool :=
  negb (String.eqb s EmptyString) && all_chr isdigit_chr s.

(** [int(s)] on a string of decimal digits. *)
Definition digit_val (c : ascii) : Z := Z.of_nat (code c - 48).
Fixpoint int_acc (acc : Z) (s : string) : Z :=
  match s with
  | EmptyString => acc
  | String c s' => int_acc (10 * acc + digit_val c) s'
  end.
Definition int (s : string) : Z := int_acc 0 s.

(** [str(n)] for [n >= 0]: the decimal digits, no leading zero. *)
Definition digit_chr (d : Z) : ascii := ascii_of_nat (48 + Z.to_nat d).
Fixpoint str_pos_fuel (fuel : nat) (n : Z) (acc : string) : string :=
  match fuel with
  | O => acc
  | S f =>
      let acc' := String (digit_chr (n mod 10)) acc in
      if (n / 10 =? 0)%Z then acc' else str_pos_fuel f (n / 10) acc'
  end.
Definition str_of_int (n : Z) : string :=
  if (n <? 0)%Z then String "-" (str_pos_fuel (S (Z.to_nat (Z.log2 (- n)))) (- n) EmptyString)
  else str_pos_fuel (S (Z.to_nat (Z.log2 n))) n EmptyString.

(** [x in l] for a list or a set of strings *)
Definition mem (x : string) (l : list string) : bool :=
  existsb (String.eqb x) l.

(** [any(k in s for k in ks)] *)
Definition any_in (ks : list string) (s : string) : bool :=
  existsb (fun k => contains k s) ks.

End Py.

(* ===================================================================== *)
(** * The [re] module: backtracking matcher *)
(* ===================================================================== *)

Module Re.

(** Pattern syntax.  A character class is a predicate; the flags of a
    compiled pattern ([re.IGNORECASE]) are resolved when the pattern
    is written down, see [lit_i] and [cls_i]. *)
Inductive regex : Type :=
| Eps
| Chr (p : ascii -> bool)
| Seq (a b : regex)
| Alt (a b : regex)
| Star (a : regex)              (* greedy [a*] *)
| Grp (i : nat) (a : regex)     (* capturing group number [i] *)
| WordB                         (* [\b] *)
| Bol.                          (* [^] under [re.MULTILINE] *)

(** The position of the matcher in the subject. *)
Record mstate : Type := MState {
  m_prev : option ascii;              (* the character before the position *)
  m_pos : nat;
  m_rest : list ascii;                (* the characters from the position on *)
  m_caps : list (nat * (nat * nat))   (* group number, (start, end); newest first *)
}.

(** [\w] *)
Definition is_word (c : ascii) : bool :=
  Py.isalpha_chr c || Py.isdigit_chr c || Ascii.eqb c "_".

Definition is_word_opt (o : option ascii) : bool :=
  match o with Some c => is_word c | None => false end.

Definition at_boundary (st : mstate) : bool :=
  xorb (is_word_opt (m_prev st)) (is_word_opt (head (m_rest st))).

Definition at_bol (st : mstate) : bool :=
  match m_prev st with
  | None => true
  | Some c => Ascii.eqb c "010"
  end.

Definition advance (c : ascii) (tl : list ascii) (st : mstate) : mstate :=
  MState (Some c) (S (m_pos st)) tl (m_caps st).

Definition set_cap (i : nat) (span : nat * nat) (st : mstate) : mstate :=
  MState (m_prev st) (m_pos st) (m_rest st) ((i, span) :: m_caps st).

Section Matcher.
Context {R : Type}.

(** The greedy loop of [a*]: one more iteration of the body first,
    which has to consume a character, and the continuation [k] when
    no further iteration leads to a match.  An iteration consumes at
    least one character, so that [fuel] above the number of remaining
    characters is never used up. *)
Fixpoint star_loop (body : mstate -> (mstate -> option R) -> option R)
    (k : mstate -> option R) (fuel : nat) (st : mstate) {struct fuel} : option R :=
  match fuel with
  | O => k st
  | S fuel' =>
      match body st (fun st' =>
              if (m_pos st <? m_pos st')%nat then star_loop body k fuel' st' else None) with
      | Some x => Some x
      | None => k st
      end
  end.

(** [rmatch r st k]: the first way, in the priority order of a
    backtracking matcher, to match [r] at [st] such that the
    continuation [k] succeeds on the state reached. *)
Fixpoint rmatch (r : regex) (st : mstate) (k : mstate -> option R) {struct r} : option R :=
  match r with
  | Eps => k st
  | Chr p =>
      match m_rest st with
      | c :: tl => if p c then k (advance c tl st) else None
      | [] => None
      end
  | Seq a b => rmatch a st (fun st' => rmatch b st' k)
  | Alt a b =>
      match rmatch a st k with
      | Some x => Some x
      | None => rmatch b st k
      end
  | Star a => star_loop (rmatch a) k (S (List.length (m_rest st))) st
  | Grp i a => rmatch a st (fun st' => k (set_cap i (m_pos st, m_pos st') st'))
  | WordB => if at_boundary st then k st else None
  | Bol => if at_bol st then k st else None
  end.
End Matcher.

(** A match object: the subject, the span of the whole match and the
    spans of the groups that took part. *)
Record match_obj : Type := MatchObj {
  mo_string : string;
  mo_start : nat;
  mo_end : nat;
  mo_caps : list (nat * (nat * nat))
}.

Definition try_at (r : regex) (prev : option ascii) (pos : nat) (rest : list ascii)
  : option mstate :=
  rmatch r (MState prev pos rest []) Some.

(** Leftmost match starting at or after the position. *)
Fixpoint search_from (r : regex) (prev : option ascii) (pos : nat) (rest : list ascii)
  : option (nat * mstate) :=
  match try_at r prev pos rest with
  | Some st' => Some (pos, st')
  | None =>
      match rest with
      | [] => None
      | c :: tl => search_from r (Some c) (S pos) tl
      end
  end.

Definition mk_match (s : string) (start : nat) (st' : mstate) : match_obj :=
  MatchObj s start (m_pos st') (m_caps st').

(** [pattern.search(s)] *)
Definition search (r : regex) (s : string) : option match_obj :=
  match search_from r None 0 (list_ascii_of_string s) with
  | Some (i, st') => Some (mk_match s i st')
  | None => None
  end.

(** [pattern.match(s)]: anchored at the start. *)
Definition match_start (r : regex) (s : string) : option match_obj :=
  match try_at r None 0 (list_ascii_of_string s) with
  | Some st' => Some (mk_match s 0 st')
  | None => None
  end.

Definition span_text (s : string) (sp : nat * nat) : string :=
  String.substring (fst sp) (snd sp - fst sp) s.

Fixpoint lookup_cap (i : nat) (caps : list (nat * (nat * nat))) : option (nat * nat) :=
  match caps with
  | [] => None
  | (j, sp) :: tl => if (i =? j)%nat then Some sp else lookup_cap i tl
  end.

(** [m.group(0)], [m.start()] and [m.group(i)] ([None] when the group
    did not take part in the match). *)
Definition group0 (m : match_obj) : string :=
  span_text (mo_string m) (mo_start m, mo_end m).

Definition group (i : nat) (m : match_obj) : option string :=
  match lookup_cap i (mo_caps m) with
  | Some sp => Some (span_text (mo_string m) sp)
  | None => None
  end.

(** Scanning for the successive non-overlapping matches.  [skip] counts
    the characters of the previous match still to be passed over.
    [scan] returns, for every position outside a match, either the
    match that starts there or the character itself. *)
Inductive piece : Type :=
| PMatch (start : nat) (st' : mstate)
| PChar (c : ascii).

Fixpoint scan (r : regex) (prev : option ascii) (pos : nat) (rest : list ascii)
    (skip : nat) {struct rest} : list piece :=
  match skip with
  | S skip' =>
      match rest with
      | [] => []
      | c :: tl => scan r (Some c) (S pos) tl skip'
      end
  | O =>
      match try_at r prev pos rest with
      | Some st' =>
          let n := (m_pos st' - pos)%nat in
          PMatch pos st' ::
          match rest with
          | [] => []
          | c :: tl =>
              match n with
              | O => PChar c :: scan r (Some c) (S pos) tl 0
              | S n' => scan r (Some c) (S pos) tl n'
              end
          end
      | None =>
          match rest with
          | [] => []
          | c :: tl => PChar c :: scan r (Some c) (S pos) tl 0
          end
      end
  end.

Definition pieces (r : regex) (s : string) : list piece :=
  scan r None 0 (list_ascii_of_string s) 0.

(** [pattern.finditer(s)] as a list *)
Definition finditer (r : regex) (s : string) : list match_obj :=
  flat_map (fun p => match p with
                     | PMatch i st' => [mk_match s i st']
                     | PChar _ => []
                     end) (pieces r s).

(** [pattern.findall(s)] for a pattern without group: the matched texts. *)
Definition findall0 (r : regex) (s : string) : list string :=
  map group0 (finditer r s).

(** [pattern.findall(s)] for a pattern with exactly one group. *)
Definition findall1 (r : regex) (s : string) : list string :=
  map (fun m => match group 1 m with Some g => g | None => EmptyString end)
      (finditer r s).

(** [re.sub(pattern, '', s)] *)
Definition sub_empty (r : regex) (s : string) : string :=
  string_of_list_ascii
    (flat_map (fun p => match p with
                        | PMatch _ _ => []
                        | PChar c => [c]
                        end) (pieces r s)).

(** ** Pattern combinators *)

Definition opt (a : regex) : regex := Alt a Eps.            (* [a?] *)
Definition plus (a : regex) : regex := Seq a (Star a).      (* [a+] *)

Fixpoint seqs (l : list regex) : regex :=
  match l with
  | [] => Eps
  | [a] => a
  | a :: tl => Seq a (seqs tl)
  end.

Fixpoint alts (l : list regex) : regex :=
  match l with
  | [] => Chr (fun _ => false)
  | [a] => a
  | a :: tl => Alt a (alts tl)
  end.

(** [a{n}] and [a{n,m}] (greedy) *)
Fixpoint rep (n : nat) (a : regex) : regex :=
  match n with
  | O => Eps
  | S n' => Seq a (rep n' a)
  end.
Fixpoint upto (n : nat) (a : regex) : regex :=
  match n with
  | O => Eps
  | S n' => opt (Seq a (upto n' a))
  end.
Definition rep_range (n m : nat) (a : regex) : regex :=
  Seq (rep n a) (upto (m - n) a).
Definition rep_min (n : nat) (a : regex) : regex :=
  Seq (rep n a) (Star a).

(** Character classes *)
Definition digit : regex := Chr Py.isdigit_chr.              (* [\d] *)
Definition space : regex := Chr Py.isspace.                  (* [\s] *)
Definition chr (c : ascii) : regex := Chr (Ascii.eqb c).
Definition chr_i (c : ascii) : regex :=
  Chr (fun x => Ascii.eqb (Py.lower_chr x) (Py.lower_chr c)).
Definition one_of (s : string) (c : ascii) : bool :=
  Py.any_chr (Ascii.eqb c) s.

(** A literal, case-sensitive and under [re.IGNORECASE] *)
Fixpoint lit (s : string) : regex :=
  match s with
  | EmptyString => Eps
  | String c EmptyString => chr c
  | String c s' => Seq (chr c) (lit s')
  end.
Fixpoint lit_i (s : string) : regex :=
  match s with
  | EmptyString => Eps
  | String c EmptyString => chr_i c
  | String c s' => Seq (chr_i c) (lit_i s')
  end.

(** A class under [re.IGNORECASE]: a character matches when one of its
    case variants is in the class. *)
Definition cls_i (p : ascii -> bool) : regex :=
  Chr (fun x => p x || p (Py.lower_chr x) || p (Py.upper_chr x)).

End Re.

(* ===================================================================== *)
(** * Pattern and lexicon library *)
(* ===================================================================== *)

Import Re.

(** [[A-Za-z0-9._%+-]], [[A-Za-z0-9.-]] and [[A-Z|a-z]] *)
Definition email_local_chr (c : ascii) : bool :=
  Py.isalpha_chr c || Py.isdigit_chr c || one_of "._%+-" c.
Definition email_domain_chr (c : ascii) : bool :=
  Py.isalpha_chr c || Py.isdigit_chr c || one_of ".-" c.
Definition email_tld_chr (c : ascii) : bool :=
  Py.isalpha_chr c || Ascii.eqb c "|".

(** [\b[A-Za-z0-9._%+-]+@[A-Za-z0-9.-]+\.[A-Z|a-z]{2,}\b], IGNORECASE *)
Definition EMAIL_PATTERN : regex :=
  seqs [WordB; plus (cls_i email_local_chr); chr "@"; plus (cls_i email_domain_chr);
        chr "."; rep_min 2 (cls_i email_tld_chr); WordB].

(** [[-.\s]] *)
Definition phone_sep_chr (c : ascii) : bool := one_of "-." c || Py.isspace c.

(** [(\+?\d{1,3}[-.\s]?)?\(?\d{3}\)?[-.\s]?\d{3}[-.\s]?\d{4}] *)
Definition PHONE_PATTERN : regex :=
  seqs [opt (Grp 1 (seqs [opt (chr "+"); rep_range 1 3 digit; opt (Chr phone_sep_chr)]));
        opt (chr "("); rep 3 digit; opt (chr ")"); opt (Chr phone_sep_chr);
        rep 3 digit; opt (Chr phone_sep_chr); rep 4 digit].

(** [\b(19\d{2}|20\d{2})\b] *)
Definition YEAR_PATTERN : regex :=
  seqs [WordB;
        Grp 1 (Alt (Seq (lit "19") (rep 2 digit)) (Seq (lit "20") (rep 2 digit)));
        WordB].

(** [\b(20[0-3]\d)\b] *)
Definition RECENT_YEAR_PATTERN : regex :=
  seqs [WordB; Grp 1 (seqs [lit "20"; Chr (Py.between 48 51); digit]); WordB].

(** [(?:years?|yrs?)], IGNORECASE *)
Definition years_unit : regex :=
  Alt (Seq (lit_i "year") (opt (chr_i "s"))) (Seq (lit_i "yr") (opt (chr_i "s"))).

Definition EXPERIENCE_PATTERNS : list regex :=
  [ (* 1: digits, [\s*], years?/yrs?, [\s*], an optional "of" with [\s*], "experience" *)
    seqs [Grp 1 (plus digit); Star space; years_unit; Star space;
          opt (Seq (lit_i "of") (Star space)); lit_i "experience"];
    (* 2: "experience", [\s*], an optional "of" with [\s*], digits, [\s*], years?/yrs? *)
    seqs [lit_i "experience"; Star space; opt (Seq (lit_i "of") (Star space));
          Grp 1 (plus digit); Star space; years_unit];
    (* 3: digits, [\s*], years?/yrs?, [\s*], "in" or "working" *)
    seqs [Grp 1 (plus digit); Star space; years_unit; Star space;
          Alt (lit_i "in") (lit_i "working")] ].

Definition CITIES : list string :=
  ["chennai"; "mumbai"; "delhi"; "bangalore"; "hyderabad"; "pune"; "kolkata";
   "ahmedabad"; "jaipur"; "surat"; "lucknow"; "kanpur"; "nagpur"; "indore"; "thane";
   "bhopal"; "visakhapatnam"; "patna"; "vadodara"; "ghaziabad"; "ludhiana"; "agra";
   "nashik"; "faridabad"; "meerut"; "rajkot"; "varanasi"; "srinagar"; "amritsar";
   "jodhpur"; "raipur"; "allahabad"; "coimbatore"; "jabalpur"; "gwalior";
   "vijayawada"; "madurai"; "kota"; "guwahati"; "chandigarh"; "solapur"; "hubli";
   "bareilly"; "moradabad"; "gurgaon"; "aligarh"; "jalandhar"; "tiruchirappalli";
   "bhubaneswar"; "salem"; "warangal"; "thiruvananthapuram"; "bhiwandi"; "saharanpur";
   "gorakhpur"; "guntur"; "bikaner"; "amravati"; "noida"; "bhavnagar"; "dehradun";
   "kolhapur"; "ajmer"; "gulbarga"; "jamnagar"; "udaipur"; "maheshtala";
   "tirunelveli"; "davanagere"; "kozhikode"; "akola"; "kurnool"; "rajahmundry";
   "ballari"; "agartala"; "bhagalpur"; "latur"; "dhule"; "korba"; "bhimavaram";
   "panvel"; "bhatpara"; "machilipatnam"; "raichur"; "puducherry"; "pali"; "tumkur";
   "bharatpur"; "ichalkaranji"; "parbhani"; "hapur"; "sirsa"; "baripada"; "budaun";
   "jagdalpur"; "motihari"; "rourkela"; "baghpat"; "adoni"; "ujjain"; "sangli";
   "lahar"; "ratlam"; "dharmavaram"; "kashipur"; "sujangarh"; "masaurhi"; "wadi"].

(** [\b(chennai|mumbai|...|wadi)\b], IGNORECASE *)
Definition CITY_PATTERN : regex :=
  seqs [WordB; Grp 1 (alts (map lit_i CITIES)); WordB].

Definition EXCLUDED_LOCATION_TERMS : list string :=
  ["python"; "java"; "javascript"; "react"; "angular"; "vue"; "node"; "sql";
   "mongodb"; "postgresql"; "mysql"; "aws"; "azure"; "docker"; "kubernetes"; "git";
   "linux"; "html"; "css"; "typescript"; "c++"; "c#"; ".net"; "spring"; "django";
   "flask"; "fastapi"; "tensorflow"; "pytorch"; "pandas"; "numpy"; "machine learning";
   "ai"; "data science"; "api"; "rest"; "graphql"; "json"; "xml"; "http"; "https";
   "india"; "south india"; "north india"; "east india"; "west india"; "usa"; "uk";
   "united states"; "us"; "programming"; "code"; "software"; "developer"].

(** The skills lexicon is a Python [set]; the list fixes one iteration
    order, and [extract_skills_order_irrelevant] below shows that the
    extractor does not depend on it. *)
Definition SKILLS_KEYWORDS : list string :=
  ["python"; "java"; "javascript"; "react"; "angular"; "vue"; "node"; "sql";
   "mongodb"; "postgresql"; "mysql"; "aws"; "azure"; "docker"; "kubernetes"; "git";
   "linux"; "html"; "css"; "typescript"; "c++"; "c#"; ".net"; "spring"; "django";
   "flask"; "fastapi"; "machine learning"; "ai"; "data science"; "tensorflow";
   "pytorch"; "pandas"; "numpy"; "redis"; "elasticsearch"; "kafka"; "rabbitmq";
   "jenkins"; "terraform"; "ansible"; "prometheus"; "grafana"; "splunk"; "tableau";
   "powerbi"].

Definition SPECIALIZATIONS : list string :=
  ["computer science engineering"; "computer science and engineering"; "cse";
   "computer science"; "computer engineering"; "information technology";
   "information technology engineering"; "mechanical engineering";
   "civil engineering"; "electrical engineering"; "electronics engineering";
   "chemical engineering"; "aerospace engineering"; "biotechnology";
   "biomedical engineering"; "data science"; "artificial intelligence";
   "machine learning"; "software engineering"; "business administration";
   "management"; "finance"; "marketing"; "accounting"; "mathematics"; "physics";
   "chemistry"; "biology"; "statistics"; "economics"; "it"].

Definition GRADUATION_KEYWORDS : list string :=
  ["graduate"; "graduation"; "completed"; "finished"; "degree"; "graduated";
   "pass out"; "passout"; "studied"].

Definition DEGREE_KEYWORDS : list string :=
  ["degree"; "graduated"; "completed"; "studied"; "education"; "qualification";
   "bachelor"; "master"].

(** The annotation produced by the entity tagger: the entity spans with
    their labels and the sentences, in document order. *)
Record Ent : Type := { ent_text : string; ent_label : string }.
Record Doc : Type := { doc_ents : list Ent; doc_sents : list string }.

(** [[ent.text.strip() for ent in doc.ents if ent.label_ == label]] *)
Definition ents_with (label : string) (doc : Doc) : list string :=
  map (fun e => Py.strip (ent_text e))
      (List.filter (fun e => String.eqb (ent_label e) label) (doc_ents doc)).

(* ===================================================================== *)
(** * Validators and simple field extractors *)
(* ===================================================================== *)

Definition validate_email (email : string) : bool :=
  match match_start EMAIL_PATTERN email with Some _ => true | None => false end.

(** [[\d+]]: what [validate_phone] keeps of a candidate *)
Definition phone_digit_chr (c : ascii) : bool := Py.isdigit_chr c || Ascii.eqb c "+".

(** [re.sub(r'[^\d+]', '', phone)] then the length test *)
Definition phone_digits (phone : string) : string :=
  sub_empty (Chr (fun c => negb (phone_digit_chr c))) phone.

Definition validate_phone (phone : string) : bool :=
  let digits := phone_digits phone in
  (10 <=? Py.len digits)%nat && (Py.len digits <=? 15)%nat.

Definition validate_year (year : Z) : bool :=
  (1950 <=? year)%Z && (year <=? 2030)%Z.

Definition extract_email (transcript : string) : option string :=
  match List.find validate_email (findall0 EMAIL_PATTERN transcript) with
  | Some email => Some (Py.strip (Py.lower email))
  | None => None
  end.

Definition extract_phone (transcript : string) : option string :=
  match search PHONE_PATTERN transcript with
  | Some phone_match =>
      let phone := Py.strip (group0 phone_match) in
      if validate_phone phone then Some phone else None
  | None => None
  end.

(** [m.group(1)] of a match in which group 1 always takes part *)
Definition group1 (m : match_obj) : string :=
  match group 1 m with Some g => g | None => EmptyString end.

(** The loop of [extract_experience] over the remaining patterns. *)
Fixpoint experience_loop (patterns : list regex) (transcript : string) : option string :=
  match patterns with
  | [] => None
  | pattern :: rest =>
      match search pattern transcript with
      | Some m =>
          let years := Py.int (group1 m) in
          if (0 <? years)%Z && (years <=? 50)%Z
          then Some (Py.str_of_int years ++ " years")%string
          else experience_loop rest transcript
      | None => experience_loop rest transcript
      end
  end.

Definition extract_experience (transcript : string) : option string :=
  experience_loop EXPERIENCE_PATTERNS transcript.

(** [sorted(set(l))]: insertion into a strictly increasing list. *)
Fixpoint insert_sorted (x : string) (l : list string) : list string :=
  match l with
  | [] => [x]
  | y :: tl =>
      match String.compare x y with
      | Lt => x :: l
      | Eq => l
      | Gt => y :: insert_sorted x tl
      end
  end.

Definition sorted_set (l : list string) : list string :=
  fold_right insert_sorted [] l.

Definition has_space (s : string) : bool := Py.contains " " s.

(** [extract_skills], with the skills lexicon as a parameter. *)
Definition extract_skills_with (keywords : list string) (transcript : string) : option string :=
  let transcript_lower := Py.lower transcript in
  let tokens := Py.split transcript_lower in
  let found := List.filter (fun s => Py.mem s tokens) keywords in
  let multi := List.filter (fun skill => has_space skill && Py.contains skill transcript_lower)
                      keywords in
  let found_skills := map Py.title multi ++ map Py.title found in
  let unique_skills := sorted_set found_skills in
  match unique_skills with
  | [] => None
  | _ => Some (Py.join ", " unique_skills)
  end.

Definition extract_skills (transcript : string) : option string :=
  extract_skills_with SKILLS_KEYWORDS transcript.

(* ===================================================================== *)
(** * Entity-assisted extractors *)
(* ===================================================================== *)

(** [max(l, key=len)]: the first element of maximal length. *)
Fixpoint max_by_len (best : string) (l : list string) : string :=
  match l with
  | [] => best
  | x :: tl => max_by_len (if (Py.len best <? Py.len x)%nat then x else best) tl
  end.

Definition valid_location (loc : string) : bool :=
  negb (Py.mem (Py.lower loc) EXCLUDED_LOCATION_TERMS) &&
  (2 <? Py.len loc)%nat &&
  negb (Py.isdigit loc) &&
  negb (Py.any_chr Py.isdigit_chr loc).

Definition extract_location (transcript : string) (doc : option Doc) : option string :=
  match search CITY_PATTERN transcript with
  | Some city_match => Some (Py.title (group1 city_match))
  | None =>
      match doc with
      | Some d =>
          match List.filter valid_location (ents_with "GPE" d) with
          | [] => None
          | loc :: rest => Some (max_by_len loc rest)
          end
      | None => None
      end
  end.

(** The loop of [extract_graduation_year] over the sentences of the
    annotation: a sentence that carries a graduation keyword is asked for
    its first year match; the loop returns when that year is valid and
    goes on to the next sentence otherwise. *)
Definition has_graduation_keyword (sent : string) : bool :=
  Py.any_in GRADUATION_KEYWORDS (Py.lower sent).

Fixpoint graduation_context_loop (sents : list string) : option Z :=
  match sents with
  | [] => None
  | sent :: rest =>
      if has_graduation_keyword sent
      then match search YEAR_PATTERN sent with
           | Some year_match =>
               let year := Py.int (group1 year_match) in
               if validate_year year then Some year
               else graduation_context_loop rest
           | None => graduation_context_loop rest
           end
      else graduation_context_loop rest
  end.

(** [max(l)] of a non-empty list *)
Definition max_list (y : Z) (l : list Z) : Z := fold_left Z.max l y.

(** [[int(y) for y in recent_years if validate_year(int(y))]] *)
Definition valid_recent_years (transcript : string) : list Z :=
  let recent_years := findall1 RECENT_YEAR_PATTERN transcript in
  List.filter validate_year (map Py.int recent_years).

(** The fallback of [extract_graduation_year] on the whole transcript. *)
Definition graduation_fallback (transcript : string) : option Z :=
  match valid_recent_years transcript with
  | [] => None
  | y :: years => Some (max_list y years)
  end.

Definition extract_graduation_year (transcript : string) (doc : option Doc) : option Z :=
  match doc with
  | Some d =>
      match graduation_context_loop (doc_sents d) with
      | Some year => Some year
      | None => graduation_fallback transcript
      end
  | None => graduation_fallback transcript
  end.

(** [prefixes_to_remove], IGNORECASE *)
Definition prefixes_to_remove : list regex :=
  [ seqs [WordB; lit_i "I graduated from"; plus space];
    seqs [WordB; lit_i "graduated from"; plus space];
    seqs [WordB; lit_i "I studied at"; plus space];
    seqs [WordB; lit_i "studied at"; plus space];
    seqs [WordB; lit_i "I am from"; plus space];
    seqs [WordB; lit_i "from"; plus space];
    seqs [WordB; lit_i "at"; plus space] ].

(** The cleaning loop: [re.sub(prefix, '', s, flags=re.IGNORECASE).strip()]
    for each prefix in turn. *)
Definition remove_prefixes (s : string) : string :=
  fold_left (fun acc prefix_pattern => Py.strip (sub_empty prefix_pattern acc))
            prefixes_to_remove s.

(** [\b([A-Z][a-zA-Z\s]+(?:University|College|Institute|School|Academy))\b] *)
Definition college_pattern : regex :=
  seqs [WordB;
        Grp 1 (seqs [Chr Py.isupper_chr;
                     plus (Chr (fun c => Py.isalpha_chr c || Py.isspace c));
                     alts (map lit ["University"; "College"; "Institute"; "School"; "Academy"])]);
        WordB].

Definition college_keywords : list string :=
  ["university"; "college"; "institute"; "school"; "academy"].

(** The test of the loop of [extract_college] on one ORG span. *)
Definition college_org_ok (org : string) : bool :=
  let org_lower := Py.lower org in
  Py.any_in college_keywords org_lower &&
  ((5 <=? Py.len org)%nat && (Py.len org <=? 100)%nat &&
   negb (Py.mem org_lower ["university"; "college"; "school"])).

Fixpoint college_loop (orgs : list string) : option string :=
  match orgs with
  | [] => None
  | org :: rest =>
      if college_org_ok org then Some (remove_prefixes org)
      else college_loop rest
  end.

Definition extract_college (transcript : string) (doc : option Doc) : option string :=
  match doc with
  | None =>
      match search college_pattern transcript with
      | Some m =>
          let college := remove_prefixes (Py.strip (group1 m)) in
          if (5 <=? Py.len college)%nat && (Py.len college <=? 100)%nat
          then Some college else None
      | None => None
      end
  | Some d => college_loop (ents_with "ORG" d)
  end.

(** [[A-Z][a-z]+(?:\s+[A-Z][a-z]+)*] under IGNORECASE: both classes
    accept any letter. *)
Definition name_words : regex :=
  let letter := Chr Py.isalpha_chr in
  seqs [letter; plus letter; Star (seqs [plus space; letter; plus letter])].

Definition name_patterns : list regex :=
  [ seqs [alts (map lit_i ["my name is"; "i am"; "i'm"; "this is"]); plus space;
          Grp 1 name_words];
    seqs [Bol; Grp 1 name_words;
          Alt (Seq (plus space) (lit_i "here")) (Seq (plus space) (lit_i "speaking"))] ].

Fixpoint name_regex_loop (patterns : list regex) (transcript : string) : option string :=
  match patterns with
  | [] => None
  | pattern :: rest =>
      match search pattern transcript with
      | Some m =>
          let name := Py.strip (group1 m) in
          if (2 <=? Py.len name)%nat && (Py.len name <=? 50)%nat
          then Some (Py.title name)
          else name_regex_loop rest transcript
      | None => name_regex_loop rest transcript
      end
  end.

Definition person_ok (person : string) : bool :=
  (2 <=? Py.len person)%nat && (Py.len person <=? 50)%nat &&
  negb (Py.mem (Py.lower person) ["i"; "me"; "my"; "you"; "he"; "she"; "we"; "they"]) &&
  negb (Py.isdigit person).

Definition extract_name (transcript : string) (doc : option Doc) : option string :=
  match doc with
  | None => name_regex_loop name_patterns transcript
  | Some d =>
      match List.find person_ok (ents_with "PERSON" d) with
      | Some person => Some (Py.title person)
      | None => None
      end
  end.

(* ===================================================================== *)
(** * Degree resolution *)
(* ===================================================================== *)

(** [sorted(l, key=len, reverse=True)]: stable, longest first. *)
Fixpoint insert_by_len (x : string) (l : list string) : list string :=
  match l with
  | [] => [x]
  | y :: tl => if (Py.len x <? Py.len y)%nat then y :: insert_by_len x tl else x :: l
  end.

Definition sorted_by_len_desc (l : list string) : list string :=
  fold_right insert_by_len [] l.

Definition sorted_specs : list string := sorted_by_len_desc SPECIALIZATIONS.

(** [\bdegree\s+in\s+([a-z\s]+(?:engineering|science|technology|administration))],
    IGNORECASE *)
Definition degree_in_pattern : regex :=
  seqs [WordB; lit_i "degree"; plus space; lit_i "in"; plus space;
        Grp 1 (Seq (plus (cls_i (fun c => Py.islower_chr c || Py.isspace c)))
                   (alts (map lit_i ["engineering"; "science"; "technology";
                                     "administration"])))].

Definition master_indicators : list string :=
  ["master"; "m.tech"; "mtech"; "m.e"; "m e"; "m.e."; "postgraduate"; "pg"; "masters"].
Definition bachelor_indicators : list string :=
  ["bachelor"; "b.tech"; "btech"; "b.e"; "b e"; "b.e."; "undergraduate"; "ug"; "bachelors"].

(** [indicator in context_before or indicator in context_after] *)
Definition in_context (context_before context_after : string) (indicator : string) : bool :=
  Py.contains indicator context_before || Py.contains indicator context_after.

(** The refinement of a bachelor-level degree: B.E., then B.Tech, then
    Bachelor's, else the specialization alone. *)
Definition bachelor_result (context_before context_after spec : string) : string :=
  if existsb (in_context context_before context_after) ["b.e"; "b e"; "b.e."]
  then ("B.E. in " ++ Py.title spec)%string
  else if existsb (in_context context_before context_after) ["b.tech"; "btech"; "b.tech."]
  then ("B.Tech in " ++ Py.title spec)%string
  else if existsb (in_context context_before context_after) ["bachelor"; "bachelors"]
  then ("Bachelor's in " ++ Py.title spec)%string
  else Py.title spec.

(** [s.find(sub)] and [s.rfind(sub)] as integers, -1 when absent *)
Definition find_z (sub s : string) : Z :=
  match Py.find sub s with Some i => Z.of_nat i | None => (-1)%Z end.
Definition rfind_z (sub s : string) : Z :=
  match Py.rfind sub s with Some i => Z.of_nat i | None => (-1)%Z end.

(** The positions of the indicators of one family around the mention. *)
Definition indicator_positions (indicators : list string)
    (context_before context_after : string) (degree_pos : Z) : list Z :=
  map (fun ind => rfind_z ind context_before)
      (List.filter (fun ind => Py.contains ind context_before) indicators) ++
  map (fun ind => (degree_pos + find_z ind context_after)%Z)
      (List.filter (fun ind => Py.contains ind context_after) indicators).

(** [min(l)]; [None] stands for the [ValueError] on an empty list. *)
Definition py_min (l : list Z) : option Z :=
  match l with
  | [] => None
  | x :: tl => Some (fold_left Z.min tl x)
  end.

(** [min([abs(p - degree_pos) for p in positions if p >= 0])] *)
Definition closest (positions : list Z) (degree_pos : Z) : option Z :=
  py_min (map (fun p => Z.abs (p - degree_pos)) (List.filter (fun p => (0 <=? p)%Z) positions)).

(** The body of the first rule once a specialization [spec] is accepted. *)
Definition degree_in_result (transcript : string) (degree_pos : nat) (spec : string)
  : option string :=
  let transcript_lower_full := Py.lower transcript in
  let context_before := Py.slice_to degree_pos transcript_lower_full in
  let context_after := Py.slice degree_pos (degree_pos + 200) transcript_lower_full in
  let has_master := existsb (in_context context_before context_after) master_indicators in
  let has_bachelor := existsb (in_context context_before context_after) bachelor_indicators in
  if has_master && negb has_bachelor then Some ("M.Tech in " ++ Py.title spec)%string
  else if has_bachelor && negb has_master
  then Some (bachelor_result context_before context_after spec)
  else if has_master && has_bachelor then
    let master_positions :=
      indicator_positions master_indicators context_before context_after (Z.of_nat degree_pos) in
    let bachelor_positions :=
      indicator_positions bachelor_indicators context_before context_after (Z.of_nat degree_pos) in
    match master_positions, bachelor_positions with
    | _ :: _, _ :: _ =>
        match closest master_positions (Z.of_nat degree_pos),
              closest bachelor_positions (Z.of_nat degree_pos) with
        | Some closest_master, Some closest_bachelor =>
            if (closest_master <? closest_bachelor)%Z
            then Some ("M.Tech in " ++ Py.title spec)%string
            else Some (bachelor_result context_before context_after spec)
        | _, _ => None  (* [min] of an empty list: excluded by [closest_defined] *)
        end
    | _, _ => Some (Py.title spec)
    end
  else Some (Py.title spec).

(** [spec in spec_mentioned or spec_mentioned in spec] *)
Definition spec_accepts (spec_mentioned spec : string) : bool :=
  Py.contains spec spec_mentioned || Py.contains spec_mentioned spec.

(** Rule 1: the pattern "degree in <phrase>".  The outer [option] tells
    whether the rule returned. *)
Definition degree_rule1 (transcript : string) : option (option string) :=
  match search degree_in_pattern transcript with
  | Some degree_in_match =>
      let spec_mentioned := Py.lower (Py.strip (group1 degree_in_match)) in
      match List.find (spec_accepts spec_mentioned) sorted_specs with
      | Some spec => Some (degree_in_result transcript (mo_start degree_in_match) spec)
      | None => None
      end
  | None => None
  end.

(** ['|'.join(SPECIALIZATIONS)], as it stands and under IGNORECASE *)
Definition spec_pattern : regex := alts (map lit SPECIALIZATIONS).
Definition spec_pattern_i : regex := alts (map lit_i SPECIALIZATIONS).

Definition in_opt : regex := opt (Seq (lit "in") (plus space)).      (* [(?:in\s+)?] *)
Definition in_opt_i : regex := opt (Seq (lit_i "in") (plus space)).

Definition full_patterns : list regex :=
  [ seqs [WordB;
          Grp 1 (seqs [lit "bachelor"; plus space; lit "of"; plus space;
                       alts (map lit ["technology"; "engineering"; "science"; "arts";
                                      "commerce"])]);
          plus space; in_opt; Grp 2 spec_pattern];
    seqs [WordB;
          Grp 1 (seqs [lit "master"; plus space; lit "of"; plus space;
                       alts [lit "technology"; lit "engineering"; lit "science"; lit "arts";
                             lit "commerce";
                             seqs [lit "business"; plus space; lit "administration"]]]);
          plus space; in_opt; Grp 2 spec_pattern];
    seqs [WordB; Grp 1 (seqs [lit "bachelor"; plus space; lit "in"; plus space;
                              Grp 2 spec_pattern])];
    seqs [WordB; Grp 1 (seqs [lit "master"; plus space; lit "in"; plus space;
                              Grp 2 spec_pattern])] ].

Definition degree_prefix_of (captured_degree : string) : string :=
  let is_bachelor := Py.contains "bachelor" captured_degree in
  if Py.contains "technology" captured_degree then (if is_bachelor then "B.Tech" else "M.Tech")
  else if Py.contains "engineering" captured_degree then (if is_bachelor then "B.E." else "M.E.")
  else if Py.contains "science" captured_degree then (if is_bachelor then "B.Sc" else "M.Sc")
  else if Py.contains "arts" captured_degree then (if is_bachelor then "B.A." else "M.A.")
  else if Py.contains "commerce" captured_degree then (if is_bachelor then "B.Com" else "M.Com")
  else if Py.contains "business" captured_degree then "MBA"
  else (if is_bachelor then "Bachelor's" else "Master's").

(** [match.group(2)] when it is a non-empty string *)
Definition truthy_group2 (m : match_obj) : option string :=
  match group 2 m with
  | Some EmptyString => None
  | Some g => Some g
  | None => None
  end.

(** Rule 2: full degree names. *)
Fixpoint degree_rule2_loop (patterns : list regex) (transcript_lower : string)
  : option string :=
  match patterns with
  | [] => None
  | pattern :: rest =>
      match search pattern transcript_lower with
      | Some m =>
          match truthy_group2 m with
          | Some g2 =>
              let spec := Py.strip g2 in
              let captured_degree := Py.lower (group1 m) in
              Some (degree_prefix_of captured_degree ++ " in " ++ Py.title spec)%string
          | None => degree_rule2_loop rest transcript_lower
          end
      | None => degree_rule2_loop rest transcript_lower
      end
  end.

(** [b\.?\s*tech\.?|btech] and its siblings, IGNORECASE *)
Definition dotted (a b : string) : regex :=
  seqs [lit_i a; opt (chr "."); Star space; lit_i b; opt (chr ".")].
Definition abbr_btech : regex := Alt (dotted "b" "tech") (lit_i "btech").
Definition abbr_mtech : regex :=
  alts [dotted "m" "tech"; lit_i "mtech"; dotted "m" "e"].
Definition abbr_bsc : regex := Alt (dotted "b" "sc") (lit_i "bsc").
Definition abbr_msc : regex := Alt (dotted "m" "sc") (lit_i "msc").
Definition abbr_mba : regex :=
  Alt (seqs [lit_i "m"; opt (chr "."); Star space; lit_i "b"; opt (chr "."); Star space;
             lit_i "a"; opt (chr ".")])
      (lit_i "mba").

Definition abbrev_patterns : list (regex * string) :=
  map (fun p => (seqs [WordB; Grp 1 (fst p); plus space; in_opt_i; Grp 2 spec_pattern_i], snd p))
      [(abbr_btech, "B.Tech"); (abbr_mtech, "M.Tech"); (abbr_bsc, "B.Sc"); (abbr_msc, "M.Sc")].

Definition simple_patterns : list (regex * string) :=
  map (fun p => (seqs [WordB; Grp 1 (fst p); WordB], snd p))
      [(abbr_btech, "B.Tech"); (abbr_mtech, "M.Tech"); (abbr_bsc, "B.Sc"); (abbr_msc, "M.Sc");
       (abbr_mba, "MBA")].

Definition has_degree_keyword (sent : string) : bool :=
  Py.any_in DEGREE_KEYWORDS (Py.lower sent).

(** Rule 3: abbreviation and specialization in one sentence. *)
Fixpoint abbrev_in_sentence (patterns : list (regex * string)) (sent : string) : option string :=
  match patterns with
  | [] => None
  | (pattern, degree_abbrev) :: rest =>
      match search pattern sent with
      | Some m =>
          match truthy_group2 m with
          | Some g2 => Some (degree_abbrev ++ " in " ++ Py.title (Py.strip g2))%string
          | None => abbrev_in_sentence rest sent
          end
      | None => abbrev_in_sentence rest sent
      end
  end.

Fixpoint degree_rule3_loop (sents : list string) : option string :=
  match sents with
  | [] => None
  | sent :: rest =>
      if has_degree_keyword sent
      then match abbrev_in_sentence abbrev_patterns sent with
           | Some result => Some result
           | None => degree_rule3_loop rest
           end
      else degree_rule3_loop rest
  end.

(** Rule 4, first part: the first sentence with a degree keyword in
    which one of the simple patterns matches, with the name of the
    first such pattern. *)
Fixpoint first_simple (patterns : list (regex * string)) (sent : string) : option string :=
  match patterns with
  | [] => None
  | (pattern, degree_name) :: rest =>
      match search pattern sent with
      | Some _ => Some degree_name
      | None => first_simple rest sent
      end
  end.

Fixpoint find_degree_sentence (i : nat) (sents : list string) : option (string * nat) :=
  match sents with
  | [] => None
  | sent :: rest =>
      if has_degree_keyword sent
      then match first_simple simple_patterns sent with
           | Some degree_name => Some (degree_name, i)
           | None => find_degree_sentence (S i) rest
           end
      else find_degree_sentence (S i) rest
  end.

(** The position of the abbreviation in the transcript, when it can be
    located. *)
Definition locate_degree (transcript : string) (degree_found sent : string) : option nat :=
  let pattern :=
    if Py.contains "tech" (Py.lower degree_found)
    then seqs [WordB; Grp 1 abbr_btech; WordB]
    else seqs [WordB; Grp 1 abbr_bsc; WordB] in
  match search pattern sent with
  | Some degree_match =>
      match Py.find (Py.lower sent) (Py.lower transcript) with
      | Some char_start => Some (char_start + mo_start degree_match)%nat
      | None => None
      end
  | None => None
  end.

Definition degree_context_keywords : list string :=
  ["degree"; "studied"; "graduated"; "completed"; "in"; "of"; "specialization"; "major";
   "field"; "subject"; "branch"].
Definition skill_context_keywords : list string :=
  ["skill"; "know"; "expert"; "proficient"; "experience with"; "worked with";
   "proficient in"; "good at"].
Definition skill_indicators : list string :=
  ["skill"; "know"; "expert"; "proficient"; "experience"; "worked"; "proficient in"; "good at"].

(** The search of a specialization in the window around the abbreviation. *)
Definition window_spec_ok (context_window spec : string) : bool :=
  Py.contains spec context_window &&
  match Py.find spec context_window with
  | Some spec_pos =>
      let context_snippet :=
        Py.slice (spec_pos - 60)
                 (Nat.min (Py.len context_window) (spec_pos + Py.len spec + 60))
                 context_window in
      let has_degree_context := Py.any_in degree_context_keywords context_snippet in
      let has_skill_context := Py.any_in skill_context_keywords context_snippet in
      has_degree_context || (negb has_skill_context && (5 <? Py.len spec)%nat)
  | None => false
  end.

Definition window_search (transcript : string) (degree_pos : nat) : option string :=
  let context_start := (degree_pos - 400)%nat in
  let context_end := Nat.min (Py.len transcript) (degree_pos + 400) in
  let context_window := Py.lower (Py.slice context_start context_end transcript) in
  List.find (window_spec_ok context_window) sorted_specs.

(** The search of a specialization in one adjacent sentence. *)
Definition sentence_spec_ok (sent_text spec : string) : bool :=
  Py.contains spec sent_text &&
  (let has_skill_indicator := Py.any_in skill_indicators sent_text in
   let has_degree_indicator := Py.any_in degree_context_keywords sent_text in
   has_degree_indicator || (negb has_skill_indicator && (5 <? Py.len spec)%nat)).

Fixpoint adjacent_search (sents : list string) (indices : list nat) : option string :=
  match indices with
  | [] => None
  | idx :: rest =>
      let sent_text := Py.lower (nth idx sents EmptyString) in
      match List.find (sentence_spec_ok sent_text) sorted_specs with
      | Some spec => Some spec
      | None => adjacent_search sents rest
      end
  end.

(** Rules 3 and 4, which need the sentences of the annotation. *)
Definition degree_with_doc (transcript : string) (d : Doc) : option string :=
  let sentences_list := doc_sents d in
  match degree_rule3_loop sentences_list with
  | Some result => Some result
  | None =>
      match find_degree_sentence 0 sentences_list with
      | Some (degree_found, degree_sentence_idx) =>
          let search_indices :=
            [ (degree_sentence_idx - 1)%nat;
              degree_sentence_idx;
              Nat.min (List.length sentences_list - 1) (degree_sentence_idx + 1) ] in
          let degree_pos :=
            locate_degree transcript degree_found
                          (nth degree_sentence_idx sentences_list EmptyString) in
          let from_window :=
            match degree_pos with
            | Some pos => window_search transcript pos
            | None => None
            end in
          match from_window with
          | Some spec => Some (degree_found ++ " in " ++ Py.title spec)%string
          | None =>
              match adjacent_search sentences_list search_indices with
              | Some spec => Some (degree_found ++ " in " ++ Py.title spec)%string
              | None => Some degree_found
              end
          end
      | None => None
      end
  end.

Definition extract_degree (transcript : string) (doc : option Doc) : option string :=
  let transcript_lower := Py.lower transcript in
  match degree_rule1 transcript with
  | Some result => result
  | None =>
      match degree_rule2_loop full_patterns transcript_lower with
      | Some result => Some result
      | None =>
          match doc with
          | Some d => degree_with_doc transcript d
          | None => None
          end
      end
  end.

(* ===================================================================== *)
(** * Document sampler and orchestrator *)
(* ===================================================================== *)

(** A Python value of the result dictionary. *)
Inductive pyval : Type :=
| VNone
| VStr (s : string)
| VInt (n : Z).

Definition of_str (o : option string) : pyval :=
  match o with Some s => VStr s | None => VNone end.
Definition of_int (o : option Z) : pyval :=
  match o with Some n => VInt n | None => VNone end.

Definition FIELDS : list string :=
  ["name"; "email"; "phone"; "college"; "degree"; "graduation_year"; "experience";
   "location"; "skills"].

(** The dictionary literal with every field [None]. *)
Definition empty_result : gmap string pyval :=
  <["skills" := VNone]> (<["location" := VNone]> (<["experience" := VNone]>
  (<["graduation_year" := VNone]> (<["degree" := VNone]> (<["college" := VNone]>
  (<["phone" := VNone]> (<["email" := VNone]> (<["name" := VNone]> ∅)))))))).

Definition sampler_keywords : list string :=
  ["name"; "i am"; "my name"; "from"; "location"; "live"; "college"; "university";
   "degree"; "graduated"; "graduate"; "studied"].

(** [l[-3:]] *)
Definition last3 {A : Type} (l : list A) : list A := skipn (List.length l - 3) l.

(** The text handed to the entity tagger. *)
Definition sample_text (transcript : string) : string :=
  if (2000 <? Py.len transcript)%nat then
    let sentences :=
      List.filter (fun s => negb (String.eqb s EmptyString))
             (map Py.strip (Py.split_on "." transcript)) in
    let relevant_sentences :=
      List.filter (fun sent => Py.any_in sampler_keywords (Py.lower sent)
                          || (Py.len sent <? 100)%nat) sentences in
    match relevant_sentences with
    | _ :: _ =>
        Py.join ". " (firstn 25 relevant_sentences ++ firstn 3 sentences ++ last3 sentences)
    | [] => Py.slice_to 2000 transcript
    end
  else transcript.

Section Orchestrator.

(** The result of [load_nlp_model()]: the tagger, or [None] when the
    model could not be loaded. *)
Variable nlp : option (string -> Doc).

Definition extract_candidate_info (transcript : string) : gmap string pyval :=
  if String.eqb transcript EmptyString || (Py.len (Py.strip transcript) <? 10)%nat
  then empty_result
  else
    let result := empty_result in
    let result := <["email" := of_str (extract_email transcript)]> result in
    let result := <["phone" := of_str (extract_phone transcript)]> result in
    let result := <["experience" := of_str (extract_experience transcript)]> result in
    let result := <["skills" := of_str (extract_skills transcript)]> result in
    let doc :=
      match nlp with
      | Some tagger => Some (tagger (sample_text transcript))
      | None => None
      end in
    let result := <["name" := of_str (extract_name transcript doc)]> result in
    let result := <["location" := of_str (extract_location transcript doc)]> result in
    let result :=
      <["graduation_year" := of_int (extract_graduation_year transcript doc)]> result in
    let result := <["college" := of_str (extract_college transcript doc)]> result in
    let result := <["degree" := of_str (extract_degree transcript doc)]> result in
    result.

End Orchestrator.

(* ===================================================================== *)
(** * The candidate store: validation and sanitising
    (backend/services/db.py) *)
(* ===================================================================== *)

(** The exceptions that the services raise and that the handlers of the
    workflow tell apart.  [HTTPException], [ValueError] and
    [FileNotFoundError] are subclasses of [Exception]; [PyException]
    stands for [Exception] itself and for its other subclasses. *)
Inductive exn : Type :=
| HTTPException (status_code : Z) (detail : string)
| ValueError (message : string)
| FileNotFoundError (message : string)
| PyException (message : string).

(** [str(x)] of an optional text: [None] is written ['None']. *)
Definition str_of_opt (x : option string) : string :=
  match x with
  | Some s => s
  | None => "None"
  end.

(** [$] without [re.MULTILINE]: the end of the subject, or the position
    before a newline that ends the subject. *)
Definition at_end (st : mstate) : bool :=
  match m_rest st with
  | [] => true
  | [c] => Ascii.eqb c "010"
  | _ => false
  end.

(** [re.match('^' + r + '$', s)] as a truth value.  [re.match] tries the
    pattern at the start of the subject only, where [^] holds; [$] is
    the last item of the pattern, that is the test the matcher makes
    before it accepts, and fails back into [r] otherwise. *)
Definition match_to_end (r : regex) (s : string) : bool :=
  match rmatch r (MState None 0 (list_ascii_of_string s) [])
               (fun st => if at_end st then Some st else None) with
  | Some _ => true
  | None => false
  end.

(** [s[:stop]] for any integer [stop]: a negative [stop] counts from the
    end of the text. *)
Definition slice_to_int (stop : Z) (s : string) : string :=
  if (stop <? 0)%Z
  then String.substring 0 (Z.to_nat (Z.of_nat (Py.len s) + stop)) s
  else String.substring 0 (Z.to_nat stop) s.

Module Db.

(** [CandidateBase] and [CandidateCreate]: the fields of a candidate,
    each optional.  The dictionary [candidate_data.dict()] holds these
    ten keys and the code reads it with [.get] only, so that the record
    stands for the dictionary as well. *)
Record CandidateCreate : Type := {
  name : option string;
  email : option string;
  phone : option string;
  college : option string;
  degree : option string;
  graduation_year : option Z;
  experience : option string;
  location : option string;
  skills : option string;
  transcript : option string
}.

(** The truth value of an optional string and of an optional integer:
    [None], the empty string and zero are false. *)
Definition truthy (value : option string) : bool :=
  match value with
  | Some (String _ _) => true
  | _ => false
  end.

Definition truthy_int (value : option Z) : bool :=
  match value with
  | Some n => negb (n =? 0)%Z
  | None => false
  end.

(** [^[A-Za-z0-9._%+-]+@[A-Za-z0-9.-]+\.[A-Z|a-z]{2,}$] without its
    anchors; no flag. *)
Definition email_body : regex :=
  seqs [plus (Chr email_local_chr); chr "@"; plus (Chr email_domain_chr);
        chr "."; rep_min 2 (Chr email_tld_chr)].

Definition validate_email (email : option string) : bool :=
  match email with
  | Some (String _ _ as e) => match_to_end email_body e
  | _ => false
  end.

Definition validate_phone (phone : option string) : bool :=
  match phone with
  | Some (String _ _ as p) =>
      let digits := phone_digits p in
      (10 <=? Py.len digits)%nat && (Py.len digits <=? 15)%nat
  | _ => false
  end.

Definition validate_year (year : option Z) : bool :=
  match year with
  | None => false
  | Some y => (1950 <=? y)%Z && (y <=? 2030)%Z
  end.

(** [[A-Za-z\s\-\']] *)
Definition name_chr (c : ascii) : bool :=
  Py.isalpha_chr c || Py.isspace c || one_of "-'" c.

(** [^[A-Za-z\s\-\']{2,50}$] without its anchors *)
Definition name_body : regex := rep_range 2 50 (Chr name_chr).

Definition validate_name (name : option string) : bool :=
  match name with
  | Some (String _ _ as n) => match_to_end name_body n
  | _ => false
  end.

Definition sanitize_string (value : option string) (max_length : Z) : option string :=
  match value with
  | Some (String _ _ as v) =>
      let v := Py.join " " (Py.split v) in
      let v := if (max_length <? Z.of_nat (Py.len v))%Z then slice_to_int max_length v else v in
      Some (Py.strip v)
  | _ => None
  end.

Definition sanitize_skills (skills : option string) : option string :=
  match skills with
  | Some (String _ _ as s) =>
      let skill_list :=
        List.filter (fun x => negb (String.eqb x EmptyString))
                    (map Py.strip (Py.split_on "," s)) in
      let unique_skills := firstn 20 (sorted_set skill_list) in
      Some (Py.join ", " unique_skills)
  | _ => None
  end.

(** The result is the pair of the verdict and the error message. *)
Definition validate_candidate_data (data : CandidateCreate) : bool * option string :=
  if truthy (email data) && negb (validate_email (email data))
  then (false, Some "Invalid email format")
  else if truthy (phone data) && negb (validate_phone (phone data))
  then (false, Some "Invalid phone number format")
  else if truthy_int (graduation_year data) && negb (validate_year (graduation_year data))
  then (false, Some "Invalid graduation year")
  else if truthy (name data) && negb (validate_name (name data))
  then (false, Some "Invalid name format")
  else (true, None).

(** The dictionary of [create_candidate] once its text fields are
    sanitised. *)
Definition sanitized (candidate_data : CandidateCreate) : CandidateCreate :=
  {| name := sanitize_string (name candidate_data) 100;
     email := sanitize_string (email candidate_data) 100;
     phone := sanitize_string (phone candidate_data) 20;
     college := sanitize_string (college candidate_data) 200;
     degree := sanitize_string (degree candidate_data) 100;
     graduation_year := graduation_year candidate_data;
     experience := sanitize_string (experience candidate_data) 50;
     location := sanitize_string (location candidate_data) 100;
     skills := sanitize_skills (skills candidate_data);
     transcript := sanitize_string (transcript candidate_data) 50000 |}.

Section Store.

(** The [INSERT] statement with its ten parameters, run on the
    connection: [cursor.lastrowid], or the exception of the database. *)
Variable execute_insert : CandidateCreate -> Z + exn.

Definition create_candidate (candidate_data : CandidateCreate) : Z + exn :=
  let data_dict := sanitized candidate_data in
  let '(is_valid, error_msg) := validate_candidate_data data_dict in
  if negb is_valid then inr (ValueError (str_of_opt error_msg))
  else execute_insert data_dict.

End Store.

End Db.

(* ===================================================================== *)
(** * From the extracted data to a candidate (backend/app.py) *)
(* ===================================================================== *)

(** [extracted_data.get(key)] where the model of the store expects a
    text, and where it expects an integer.  The extractor binds each text
    field to a string or to [None] and the year to an integer or to
    [None]. *)
Definition get_str (extracted_data : gmap string pyval) (key : string) : option string :=
  match extracted_data !! key with
  | Some (VStr s) => Some s
  | _ => None
  end.

Definition get_int (extracted_data : gmap string pyval) (key : string) : option Z :=
  match extracted_data !! key with
  | Some (VInt n) => Some n
  | _ => None
  end.

(** The candidate that [process_audio] builds from the extracted data
    and the transcript. *)
Definition candidate_of (extracted_data : gmap string pyval) (transcript : string)
  : Db.CandidateCreate :=
  {| Db.name := get_str extracted_data "name";
     Db.email := get_str extracted_data "email";
     Db.phone := get_str extracted_data "phone";
     Db.college := get_str extracted_data "college";
     Db.degree := get_str extracted_data "degree";
     Db.graduation_year := get_int extracted_data "graduation_year";
     Db.experience := get_str extracted_data "experience";
     Db.location := get_str extracted_data "location";
     Db.skills := get_str extracted_data "skills";
     Db.transcript := Some transcript |}.

(* ===================================================================== *)
(** * Loading the language model (backend/services/nlp.py) *)
(* ===================================================================== *)

(** The module variable [_nlp]: [None] before the first call, [False]
    once loading has failed, the pipeline otherwise; with it, the number
    of calls of [spacy.load] made so far. *)
Inductive nlp_cache : Type :=
| NotLoaded
| Unavailable
| Loaded (pipeline : string -> Doc).

Record nlp_state : Type := {
  _nlp : nlp_cache;
  spacy_loads : nat
}.

Section LoadNlp.

(** What the [n]-th call of [spacy.load] answers: the pipeline, or
    [None] when it raises ([OSError] or another [Exception]). *)
Variable spacy_load : nat -> option (string -> Doc).

Definition load_nlp_model (st : nlp_state) : option (string -> Doc) * nlp_state :=
  match _nlp st with
  | NotLoaded =>
      match spacy_load (spacy_loads st) with
      | Some pipeline =>
          (Some pipeline, {| _nlp := Loaded pipeline; spacy_loads := S (spacy_loads st) |})
      | None => (None, {| _nlp := Unavailable; spacy_loads := S (spacy_loads st) |})
      end
  | Unavailable => (None, st)
  | Loaded pipeline => (Some pipeline, st)
  end.

End LoadNlp.

(* ===================================================================== *)
(** * Transcription (backend/services/transcription.py) *)
(* ===================================================================== *)

(** [str(e)] of a caught exception.  The text of an [HTTPException] is
    defined by the web framework and is a parameter. *)
Definition str_exn (http_str : Z -> string -> string) (e : exn) : string :=
  match e with
  | HTTPException status_code detail => http_str status_code detail
  | ValueError message | FileNotFoundError message | PyException message => message
  end.

(** What a path names in the file system: a regular file with its size
    in bytes, or something else (a directory, for one). *)
Inductive entry : Type :=
| File (size : N)
| NotAFile.

(** 500 MB *)
Definition MAX_FILE_SIZE : N := 500 * 1024 * 1024.

Module Transcription.

Section Whisper.

(** A loaded Whisper model. *)
Variable model : Type.

(** What the [n]-th call of [whisper.load_model] answers: the model, or
    the text of the exception it raises. *)
Variable whisper_load : nat -> model + string.

(** The text of the result of [model.transcribe] on an audio file, or
    the text of the exception it raises. *)
Variable whisper_transcribe : model -> string -> string + string.

(** The text of the size error, which formats two floating-point numbers. *)
Variable size_text : N -> string.

Variable http_str : Z -> string -> string.

(** The module variable [_model], with the number of calls of
    [whisper.load_model] made so far. *)
Record whisper_state : Type := {
  _model : option model;
  whisper_loads : nat
}.

Definition load_model (st : whisper_state) : (model + exn) * whisper_state :=
  match _model st with
  | None =>
      match whisper_load (whisper_loads st) with
      | inl m => (inl m, {| _model := Some m; whisper_loads := S (whisper_loads st) |})
      | inr msg =>
          (inr (PyException ("Failed to load Whisper model: " ++ msg)),
           {| _model := None; whisper_loads := S (whisper_loads st) |})
      end
  | Some m => (inl m, st)
  end.

Definition transcribe_audio (disk : gmap string entry) (audio_path : string)
    (st : whisper_state) : (string + exn) * whisper_state :=
  match disk !! audio_path with
  | None => (inr (FileNotFoundError ("Audio file not found: " ++ audio_path)), st)
  | Some NotAFile => (inr (ValueError ("Path is not a file: " ++ audio_path)), st)
  | Some (File file_size) =>
      if (MAX_FILE_SIZE <? file_size)%N
      then (inr (ValueError (size_text file_size)), st)
      else
        (* the [try] block; [except Exception as e] wraps what it catches *)
        match load_model st with
        | (inl m, st') =>
            match whisper_transcribe m audio_path with
            | inl text =>
                let transcript := Py.strip text in
                if String.eqb transcript EmptyString then (inl EmptyString, st')
                else (inl transcript, st')
            | inr msg => (inr (PyException ("Transcription failed: " ++ msg)), st')
            end
        | (inr e, st') =>
            (inr (PyException ("Transcription failed: " ++ str_exn http_str e)), st')
        end
  end.

End Whisper.

End Transcription.

(* ===================================================================== *)
(** * The HTTP workflow (backend/app.py) *)
(* ===================================================================== *)

Module App.

Definition ALLOWED_EXTENSIONS : list string :=
  [".mp3"; ".wav"; ".m4a"; ".mp4"; ".ogg"; ".flac"; ".webm"].

(** What a route answers: the body of its JSON response, or the
    [HTTPException] it raises. *)
Inductive response (A : Type) : Type :=
| Ok (body : A)
| Error (status_code : Z) (detail : string).
Arguments Ok {A} body.
Arguments Error {A} status_code detail.

(** The uploaded file as [process_audio] looks at it. *)
Record upload : Type := {
  suffix : string;          (* [Path(file.filename).suffix] *)
  content_size : N          (* [len(await file.read())] *)
}.

(** The body of the response of [process_audio]. *)
Record processed : Type := {
  candidate_id : Z;
  transcript : string;
  extracted_data : gmap string pyval
}.

Section Workflow.

(** A loaded Whisper model. *)
Variable model : Type.

(** The state that [process_audio] works on: the files of the upload
    directory and the Whisper model of the transcription service. *)
Record state : Type := {
  disk : gmap string entry;
  whisper : Transcription.whisper_state model
}.

(** What the environment answers during one request. *)
Record environment : Type := {
  (* [load_nlp_model()] *)
  nlp : option (string -> Doc);
  (* [str(e)] of an [HTTPException] *)
  http_str : Z -> string -> string;
  (* [whisper.load_model] and [model.transcribe], see [Transcription] *)
  whisper_load : nat -> model + string;
  whisper_transcribe : model -> string -> string + string;
  (* the [INSERT] of [create_candidate] *)
  execute_insert : Db.CandidateCreate -> Z + exn;
  (* the path [UPLOAD_DIR / f"{uuid.uuid4()}{file_ext}"] *)
  unique_path : string -> string;
  (* writing the upload: [None] when it succeeds; otherwise the text of
     the [OSError] and the size of the file that is left behind, if one is *)
  write_error : option (string * option N);
  (* [os.remove]: [None] when it succeeds, the text of the [OSError] otherwise *)
  remove_error : option string;
  (* the texts of the two details that format a set and floating-point numbers *)
  allowed_text : string;
  size_text : N -> string
}.

Variable env : environment.

(** [if file_path.exists(): os.remove(file_path)] inside a [try] whose
    handler goes on. *)
Definition remove_upload (file_path : string) (d : gmap string entry) : gmap string entry :=
  match d !! file_path with
  | Some _ =>
      match remove_error env with
      | None => delete file_path d
      | Some _ => d
      end
  | None => d
  end.

Definition process_audio (file : upload) (st : state) : response processed * state :=
  let file_ext := Py.lower (suffix file) in
  if negb (Py.mem file_ext ALLOWED_EXTENSIONS)
  then (Error 400 ("File type not allowed. Allowed types: " ++ allowed_text env), st)
  else
    let file_size := content_size file in
    if (MAX_FILE_SIZE <? file_size)%N then (Error 400 (size_text env file_size), st)
    else if (file_size =? 0)%N then (Error 400 "File is empty", st)
    else
      let file_path := unique_path env file_ext in
      match write_error env with
      | Some (msg, left_behind) =>
          (* [except Exception]: clean up, then answer 500 *)
          let d := match left_behind with
                   | Some n => <[file_path := File n]> (disk st)
                   | None => disk st
                   end in
          (Error 500 ("Processing error: " ++ msg),
           {| disk := remove_upload file_path d; whisper := whisper st |})
      | None =>
          let d := <[file_path := File file_size]> (disk st) in
          (* step 2; its handler catches the [HTTPException] of the test as well *)
          let '(transcribed, wst) :=
            Transcription.transcribe_audio model (whisper_load env) (whisper_transcribe env)
              (size_text env) (http_str env) d file_path (whisper st) in
          let step2 :=
            match transcribed with
            | inl transcript =>
                if String.eqb transcript EmptyString
                   || (Py.len (Py.strip transcript) <? 10)%nat
                then inr (HTTPException 400
                            "Transcription failed or returned insufficient text")
                else inl transcript
            | inr e => inr e
            end in
          match step2 with
          | inr e =>
              (Error 500 ("Transcription failed: " ++ str_exn (http_str env) e),
               {| disk := d; whisper := wst |})
          | inl transcript =>
              (* step 3 *)
              let extracted_data := extract_candidate_info (nlp env) transcript in
              (* step 4 *)
              match Db.create_candidate (execute_insert env)
                      (candidate_of extracted_data transcript) with
              | inr (ValueError msg) => (Error 400 msg, {| disk := d; whisper := wst |})
              | inr e =>
                  (Error 500 ("Failed to save candidate: " ++ str_exn (http_str env) e),
                   {| disk := d; whisper := wst |})
              | inl candidate_id =>
                  (* the clean-up and the answer *)
                  (Ok {| candidate_id := candidate_id; transcript := transcript;
                         extracted_data := extracted_data |},
                   {| disk := remove_upload file_path d; whisper := wst |})
              end
          end
      end.

End Workflow.

Arguments disk {model} _.
Arguments whisper {model} _.
Arguments nlp {model} _.
Arguments http_str {model} _ _ _.
Arguments whisper_load {model} _ _.
Arguments whisper_transcribe {model} _ _ _.
Arguments execute_insert {model} _ _.
Arguments unique_path {model} _ _.
Arguments write_error {model} _.
Arguments remove_error {model} _.
Arguments allowed_text {model} _.
Arguments size_text {model} _ _.
Arguments process_audio {model} env file st.
Arguments remove_upload {model} env file_path d.

End App.

(* ===================================================================== *)
(** * Declarative reading of patterns, and two static analyses *)
(* ===================================================================== *)

Module ReSem.

(** [matches r st w st']: the pattern [r] can consume the word [w] at
    the state [st] and leave the matcher in [st']. *)
Inductive matches : regex -> mstate -> list ascii -> mstate -> Prop :=
| M_Eps st : matches Eps st [] st
| M_Chr p c tl st :
    m_rest st = c :: tl -> p c = true -> matches (Chr p) st [c] (advance c tl st)
| M_Seq a b st w1 st1 w2 st2 :
    matches a st w1 st1 -> matches b st1 w2 st2 -> matches (Seq a b) st (w1 ++ w2) st2
| M_AltL a b st w st' : matches a st w st' -> matches (Alt a b) st w st'
| M_AltR a b st w st' : matches b st w st' -> matches (Alt a b) st w st'
| M_Star0 a st : matches (Star a) st [] st
| M_StarS a st w1 st1 w2 st2 :
    matches a st w1 st1 -> matches (Star a) st1 w2 st2 ->
    matches (Star a) st (w1 ++ w2) st2
| M_Grp i a st w st' :
    matches a st w st' -> matches (Grp i a) st w (set_cap i (m_pos st, m_pos st') st')
| M_WordB st : at_boundary st = true -> matches WordB st [] st
| M_Bol st : at_bol st = true -> matches Bol st [] st.

(** The 256 characters. *)
Definition all_ascii : list ascii := map ascii_of_nat (seq 0 256).

Definition subclass (p q : ascii -> bool) : bool :=
  forallb (fun c => implb (p c) (q c)) all_ascii.
Definition disjoint (p q : ascii -> bool) : bool :=
  forallb (fun c => negb (p c && q c)) all_ascii.

(** How many characters of the class [q] a word matched by [r] holds:
    a lower bound, and an upper bound when there is one. *)
Fixpoint cmin (q : ascii -> bool) (r : regex) : nat :=
  match r with
  | Chr p => if subclass p q then 1 else 0
  | Seq a b => cmin q a + cmin q b
  | Alt a b => Nat.min (cmin q a) (cmin q b)
  | Grp _ a => cmin q a
  | Eps | Star _ | WordB | Bol => 0
  end.

Fixpoint cmax (q : ascii -> bool) (r : regex) : option nat :=
  match r with
  | Chr p => if disjoint p q then Some 0 else Some 1
  | Seq a b =>
      match cmax q a, cmax q b with
      | Some x, Some y => Some (x + y)
      | _, _ => None
      end
  | Alt a b =>
      match cmax q a, cmax q b with
      | Some x, Some y => Some (Nat.max x y)
      | _, _ => None
      end
  | Star a =>
      match cmax q a with
      | Some O => Some 0
      | _ => None
      end
  | Grp _ a => cmax q a
  | Eps | WordB | Bol => Some 0
  end.

(** Every character a match of [r] consumes is in the class [q]. *)
Fixpoint all_in (q : ascii -> bool) (r : regex) : bool :=
  match r with
  | Chr p => subclass p q
  | Seq a b | Alt a b => all_in q a && all_in q b
  | Star a | Grp _ a => all_in q a
  | Eps | WordB | Bol => true
  end.

(** [r] holds no capturing group. *)
Fixpoint group_free (r : regex) : bool :=
  match r with
  | Grp _ _ => false
  | Seq a b | Alt a b => group_free a && group_free b
  | Star a => group_free a
  | Eps | Chr _ | WordB | Bol => true
  end.

Definition count (q : ascii -> bool) (w : list ascii) : nat :=
  List.length (List.filter q w).

(** Every match of [r] records a span for the group [i]. *)
Fixpoint always_sets (i : nat) (r : regex) : bool :=
  match r with
  | Grp j a => (i =? j)%nat || always_sets i a
  | Seq a b => always_sets i a || always_sets i b
  | Alt a b => always_sets i a && always_sets i b
  | Eps | Chr _ | Star _ | WordB | Bol => false
  end.

(** The body of each group [i] of [r] passes the test [P]. *)
Fixpoint group_bodies (P : regex -> bool) (i : nat) (r : regex) : bool :=
  match r with
  | Grp j a => (if (i =? j)%nat then P a else true) && group_bodies P i a
  | Seq a b | Alt a b => group_bodies P i a && group_bodies P i b
  | Star a => group_bodies P i a
  | Eps | Chr _ | WordB | Bol => true
  end.

(** A word matched by [r] is empty or starts (ends) with a character of
    the class [q]. *)
Fixpoint weak_first (q : ascii -> bool) (r : regex) : bool :=
  match r with
  | Chr p => subclass p q
  | Seq a b => weak_first q a && (weak_first q b || (1 <=? cmin (fun _ => true) a)%nat)
  | Alt a b => weak_first q a && weak_first q b
  | Star a | Grp _ a => weak_first q a
  | Eps | WordB | Bol => true
  end.

Fixpoint weak_last (q : ascii -> bool) (r : regex) : bool :=
  match r with
  | Chr p => subclass p q
  | Seq a b => weak_last q b && (weak_last q a || (1 <=? cmin (fun _ => true) b)%nat)
  | Alt a b => weak_last q a && weak_last q b
  | Star a | Grp _ a => weak_last q a
  | Eps | WordB | Bol => true
  end.

Definition starts_in (q : ascii -> bool) (w : list ascii) : Prop :=
  match w with [] => True | c :: _ => q c = true end.

Definition ends_in (q : ascii -> bool) (w : list ascii) : Prop :=
  match rev w with [] => True | c :: _ => q c = true end.

(** Two patterns of one shape whose classes hold the same characters. *)
Definition class_eqb (p q : ascii -> bool) : bool :=
  forallb (fun c => Bool.eqb (p c) (q c)) all_ascii.

Fixpoint regex_eqb (r1 r2 : regex) : bool :=
  match r1, r2 with
  | Eps, Eps | WordB, WordB | Bol, Bol => true
  | Chr p, Chr q => class_eqb p q
  | Seq a1 b1, Seq a2 b2 | Alt a1 b1, Alt a2 b2 => regex_eqb a1 a2 && regex_eqb b1 b2
  | Star a1, Star a2 => regex_eqb a1 a2
  | Grp i a1, Grp j a2 => (i =? j)%nat && regex_eqb a1 a2
  | _, _ => false
  end.

(** The matcher state is a position of the subject [s]. *)
Definition at_position (s : list ascii) (st : mstate) : Prop :=
  m_rest st = skipn (m_pos st) s.

(** The characters of the subject [s] that a span covers. *)
Definition span_word (s : list ascii) (sp : nat * nat) : list ascii :=
  firstn (snd sp - fst sp) (skipn (fst sp) s).

(** The span recorded for the group [i], if any, covers a word matched by
    a group body that passes [P]. *)
Definition captured (P : regex -> bool) (s : list ascii) (sp : nat * nat) : Prop :=
  exists body st1 st2, P body = true /\ matches body st1 (span_word s sp) st2.

Definition caps_inv (P : regex -> bool) (i : nat) (s : list ascii)
    (caps : list (nat * (nat * nat))) : Prop :=
  forall sp, lookup_cap i caps = Some sp -> captured P s sp.

(** [m] is a match of [r] in [s]: the subject splits into what is before
    the match, the matched word [w] and the rest. *)
Definition is_match (r : regex) (s : string) (m : match_obj) : Prop :=
  exists pre w st0 st',
    list_ascii_of_string s = pre ++ w ++ m_rest st' /\
    mo_string m = s /\
    mo_start m = List.length pre /\
    mo_end m = (List.length pre + List.length w)%nat /\
    mo_caps m = m_caps st' /\
    m_pos st0 = List.length pre /\ m_caps st0 = [] /\
    m_rest st0 = w ++ m_rest st' /\
    matches r st0 w st'.

(** The texts captured by the successive matches, as [scan] lists them. *)
Definition captured_texts (s : string) (l : list piece) : list string :=
  map (fun m => match group 1 m with Some g => g | None => EmptyString end)
      (flat_map (fun p => match p with
                          | PMatch i st' => [mk_match s i st']
                          | PChar _ => []
                          end) l).

(** Proof steps: the inversion of a match of a pattern written out, and
    the case analysis of the first test in the goal. *)
Ltac invert_matches :=
  repeat match goal with
    | H : matches (Seq _ _) _ _ _ |- _ => inversion H; subst; clear H
    | H : matches (Alt _ _) _ _ _ |- _ => inversion H; subst; clear H
    | H : matches (Chr _) _ _ _ |- _ => inversion H; subst; clear H
    | H : matches Eps _ _ _ |- _ => inversion H; subst; clear H
    end.

Ltac case_if :=
  match goal with
  | |- context [if ?b then _ else _] => destruct b eqn:?
  end.

End ReSem.

(* ===================================================================== *)
(** * The statements of the design document, as definitions *)
(* ===================================================================== *)

(** The number of digits of a text. *)
Definition digit_count (s : string) : nat :=
  ReSem.count Py.isdigit_chr (list_ascii_of_string s).



(** The first element of a list on which [f] is defined. *)
Fixpoint first_some {A B : Type} (f : A -> option B) (l : list A) : option B :=
  match l with
  | [] => None
  | x :: tl => match f x with Some y => Some y | None => first_some f tl end
  end.

(** A single-word skill is looked up among the blank-separated tokens, a
    multi-word skill as a substring, both on the lower-cased transcript. *)
Definition skill_found (transcript : string) (skill : string) : bool :=
  if has_space skill
  then Py.contains skill (Py.lower transcript)
  else Py.mem skill (Py.split (Py.lower transcript)).

(** The year a graduation-context sentence yields: its first match of
    the year pattern, when the sentence carries a keyword and the year
    is valid. *)
Definition sentence_year (sent : string) : option Z :=
  if has_graduation_keyword sent
  then match search YEAR_PATTERN sent with
       | Some m => if validate_year (Py.int (group1 m)) then Some (Py.int (group1 m)) else None
       | None => None
       end
  else None.

(** The years of all the matches of the year pattern in a sentence. *)
Definition years_in (sent : string) : list Z :=
  map Py.int (findall1 YEAR_PATTERN sent).

(** The reading of the design document for the context rule: only the
    first sentence with a graduation keyword is looked at, and the first
    of its years that lies in 1950..2030 is taken. *)
Definition stated_context_year (sents : list string) : option Z :=
  match List.find has_graduation_keyword sents with
  | Some sent => List.find validate_year (years_in sent)
  | None => None
  end.

(** The reading of the design document for the ORG rule: a span that
    holds a college keyword and is not equal to a bare keyword. *)
Definition stated_college_ok (org : string) : bool :=
  Py.any_in college_keywords (Py.lower org) && negb (Py.mem (Py.lower org) college_keywords).



(** The bodies of the groups of the two year patterns. *)
Definition year_body : regex :=
  Alt (Seq (lit "19") (rep 2 digit)) (Seq (lit "20") (rep 2 digit)).
Definition recent_year_body : regex :=
  seqs [lit "20"; Chr (Py.between 48 51); digit].

(** A standalone token of four characters that pass [ok4] starts at the
    head of [rest], [prev] being the character before it: no word
    character stands before the token and none after it. *)
Definition token4 (ok4 : ascii -> ascii -> ascii -> ascii -> bool)
    (prev : option ascii) (rest : list ascii) : option string :=
  match rest with
  | c1 :: c2 :: c3 :: c4 :: tl =>
      if negb (is_word_opt prev) && ok4 c1 c2 c3 c4 && negb (is_word_opt (head tl))
      then Some (string_of_list_ascii [c1; c2; c3; c4])
      else None
  | _ => None
  end.

(** The tokens of a text, from left to right. *)
Fixpoint tokens4 (ok4 : ascii -> ascii -> ascii -> ascii -> bool)
    (prev : option ascii) (rest : list ascii) : list string :=
  match rest with
  | [] => []
  | c :: tl =>
      match token4 ok4 prev rest with
      | Some t => t :: tokens4 ok4 (Some c) tl
      | None => tokens4 ok4 (Some c) tl
      end
  end.

(** The four characters read as a year of 2000..2039. *)
Definition recent_ok4 (c1 c2 c3 c4 : ascii) : bool :=
  Ascii.eqb "2" c1 && Ascii.eqb "0" c2 && Py.between 48 51 c3 && Py.isdigit_chr c4.

(** The standalone year tokens 2000..2039 of a transcript. *)
Definition recent_year_tokens (transcript : string) : list string :=
  tokens4 recent_ok4 None (list_ascii_of_string transcript).

(** The four characters read as a year of 1900..2099. *)
Definition year_ok4 (c1 c2 c3 c4 : ascii) : bool :=
  ((Ascii.eqb "1" c1 && Ascii.eqb "9" c2) || (Ascii.eqb "2" c1 && Ascii.eqb "0" c2))
  && Py.isdigit_chr c3 && Py.isdigit_chr c4.

(** The standalone year tokens 1900..2099 of a sentence. *)
Definition year_tokens (sent : string) : list string :=
  tokens4 year_ok4 None (list_ascii_of_string sent).

(** The state the matcher reaches after a token of four characters that
    starts at [pos], group 1 being the token. *)
Definition after_token4 (pos : nat) (c4 : ascii) (tl : list ascii) : mstate :=
  MState (Some c4) (S (S (S (S pos)))) tl [(1%nat, (pos, S (S (S (S pos)))))].

(** The order of [sorted] on strings (code points, lexicographic), strict. *)
Definition slt (a b : string) : Prop := String.compare a b = Lt.

(** The order of [sorted(key=len, reverse=True)]. *)
Definition longer_first (a b : string) : Prop := (Py.len b <= Py.len a)%nat.

(* ===================================================================== *)
(** * Definitions for the statements about the store, the services and
    the workflow *)
(* ===================================================================== *)

Definition same_position (st1 st2 : mstate) : Prop :=
  m_prev st1 = m_prev st2 /\ m_pos st1 = m_pos st2 /\ m_rest st1 = m_rest st2.

(** The character before the position once the word [w] is consumed. *)
Definition prev_after (prev : option ascii) (w : list ascii) : option ascii :=
  fold_left (fun _ c => Some c) w prev.





(** The state of the matcher once it has consumed [w] from [st]. *)
Definition moved (st : mstate) (w : list ascii) : mstate :=
  MState (prev_after (m_prev st) w) (m_pos st + List.length w)
         (skipn (List.length w) (m_rest st)) (m_caps st).

(** A word: a non-empty text without blank. *)
Definition is_word_token (t : string) : bool :=
  negb (String.eqb t EmptyString) && negb (Py.any_chr Py.isspace t).

(** An entry of a sanitised skills list: not empty, no blank at either
    end, no comma. *)
Definition is_skill_entry (x : string) : bool :=
  negb (String.eqb x EmptyString) && String.eqb (Py.strip x) x &&
  negb (Py.any_chr (Ascii.eqb ",") x).

(** The pieces that [sanitize_skills] keeps of a text. *)
Definition skill_pieces (s : string) : list string :=
  List.filter (fun x => negb (String.eqb x EmptyString)) (map Py.strip (Py.split_on "," s)).



(** The matches of [r] start with the literal [k], as it stands and in
    any letter case. *)
Definition starts_with (k : string) (r : regex) : Prop :=
  forall st w st', ReSem.matches r st w st' -> exists w2, w = list_ascii_of_string k ++ w2.

Definition starts_with_i (k : string) (r : regex) : Prop :=
  forall st w st', ReSem.matches r st w st' ->
                    exists w2, map Py.lower_chr w = list_ascii_of_string k ++ w2.

(** A text field of a stored row: absent, or words joined by single
    blanks within the limit of the field. *)
Definition stored_text (limit : Z) (field : option string) : Prop :=
  match field with
  | None => True
  | Some v => Py.join " " (Py.split v) = v /\ (Z.of_nat (Py.len v) <= limit)%Z
  end.

(** The skills field of a stored row. *)
Definition stored_skills (field : option string) : Prop :=
  match field with
  | None => True
  | Some r =>
      exists entries, r = Py.join ", " entries /\ (List.length entries <= 20)%nat /\
                      StronglySorted slt entries /\
                      Forall (fun x => is_skill_entry x = true) entries
  end.

(** What holds of every row that [create_candidate] hands to the
    database. *)
Definition stored_ok (row : Db.CandidateCreate) : Prop :=
  stored_text 100 (Db.name row) /\ stored_text 100 (Db.email row) /\
  stored_text 20 (Db.phone row) /\ stored_text 200 (Db.college row) /\
  stored_text 100 (Db.degree row) /\ stored_text 50 (Db.experience row) /\
  stored_text 100 (Db.location row) /\ stored_text 50000 (Db.transcript row) /\
  stored_skills (Db.skills row) /\
  (forall e, Db.email row = Some e -> e <> EmptyString ->
             Db.validate_email (Some e) = true /\ Py.any_chr Py.isspace e = false) /\
  (forall p, Db.phone row = Some p -> p <> EmptyString ->
             (10 <= Py.len (phone_digits p) <= 15)%nat) /\
  (forall y, Db.graduation_year row = Some y -> y = 0%Z \/ (1950 <= y <= 2030)%Z) /\
  (forall n, Db.name row = Some n -> n <> EmptyString -> Db.validate_name (Some n) = true).

(** The messages of [validate_candidate_data]. *)
Definition validation_messages : list string :=
  ["Invalid email format"; "Invalid phone number format"; "Invalid graduation year";
   "Invalid name format"].

(** The test that opens [extract_candidate_info]. *)
Definition too_short (transcript : string) : bool :=
  String.eqb transcript EmptyString || (Py.len (Py.strip transcript) <? 10)%nat.


(** The upload passes the three tests that open [process_audio]. *)
Definition upload_ok (file : App.upload) : Prop :=
  Py.mem (Py.lower (App.suffix file)) App.ALLOWED_EXTENSIONS = true /\
  (0 < App.content_size file <= MAX_FILE_SIZE)%N.

(** The path of the copy of the upload and the upload directory once
    the copy is written. *)
Definition copy_path {model : Type} (env : App.environment model) (file : App.upload) : string :=
  App.unique_path env (Py.lower (App.suffix file)).

Definition disk_with_copy {model : Type} (env : App.environment model) (file : App.upload)
    (st : App.state model) : gmap string entry :=
  <[copy_path env file := File (App.content_size file)]> (App.disk st).

(** The transcription step of the workflow on the copy. *)
Definition transcribe_copy {model : Type} (env : App.environment model) (file : App.upload)
    (st : App.state model) : (string + exn) * Transcription.whisper_state model :=
  Transcription.transcribe_audio model (App.whisper_load env) (App.whisper_transcribe env)
    (App.size_text env) (App.http_str env) (disk_with_copy env file st) (copy_path env file)
    (App.whisper st).

(** [n] calls of [load_nlp_model] in a row: what they return and the
    state they leave. *)
Fixpoint load_nlp_model_calls (spacy_load : nat -> option (string -> Doc)) (n : nat)
    (st : nlp_state) : list (option (string -> Doc)) * nlp_state :=
  match n with
  | O => ([], st)
  | S k =>
      let '(r, st1) := load_nlp_model spacy_load st in
      let '(rs, st2) := load_nlp_model_calls spacy_load k st1 in
      (r :: rs, st2)
  end.

(** [n] calls of [load_model] in a row. *)
Fixpoint load_model_calls {model : Type} (whisper_load : nat -> model + string) (n : nat)
    (st : Transcription.whisper_state model)
  : list (model + exn) * Transcription.whisper_state model :=
  match n with
  | O => ([], st)
  | S k =>
      let '(r, st1) := Transcription.load_model model whisper_load st in
      let '(rs, st2) := load_model_calls whisper_load k st1 in
      (r :: rs, st2)
  end.

(** The first of the attempts [from], [from + 1], ..., [from + n - 1]
    of [whisper.load_model] that succeeds, with its model. *)
Fixpoint first_success {model : Type} (whisper_load : nat -> model + string)
    (from n : nat) : option (nat * model) :=
  match n with
  | O => None
  | S k =>
      match whisper_load from with
      | inl m => Some (from, m)
      | inr _ => first_success whisper_load (S from) k
      end
  end.





(** Two environments for one request each: a recording with a few words
    only, and a recording of a candidate; the model loads, the disk and
    the database work. *)
Definition demo_env : App.environment unit :=
  {| App.nlp := None;
     App.http_str := fun status detail => detail;
     App.whisper_load := fun _ => inl tt;
     App.whisper_transcribe := fun _ _ => inl "  thank you  ";
     App.execute_insert := fun _ => inl 1%Z;
     App.unique_path := fun ext => ("uploads/0000" ++ ext)%string;
     App.write_error := None;
     App.remove_error := None;
     App.allowed_text := EmptyString;
     App.size_text := fun _ => EmptyString |}.



(* ===================================================================== *)
(** * Facts about the matcher *)
(* ===================================================================== *)

Module ReFacts.
Import ReSem.

Lemma all_ascii_complete (c : ascii) : In c all_ascii.
Proof.
  unfold all_ascii. rewrite <- (ascii_nat_embedding c).
  apply in_map, in_seq. pose proof (nat_ascii_bounded c). lia.
Qed.

Lemma subclass_spec p q c : subclass p q = true -> p c = true -> q c = true.
Proof.
  unfold subclass. rewrite forallb_forall. intros H Hp.
  specialize (H c (all_ascii_complete c)). rewrite Hp in H. exact H.
Qed.

Lemma disjoint_spec p q c : disjoint p q = true -> p c = true -> q c = false.
Proof.
  unfold disjoint. rewrite forallb_forall. intros H Hp.
  specialize (H c (all_ascii_complete c)). rewrite Hp in H.
  destruct (q c); [discriminate | reflexivity].
Qed.

(** A match consumes a prefix of the remaining subject. *)
Lemma matches_rest r st w st' :
  matches r st w st' ->
  m_rest st = w ++ m_rest st' /\ m_pos st' = (m_pos st + List.length w)%nat.
Proof.
  induction 1; simpl; try (split; [reflexivity | lia]); try assumption.
  - rewrite H. split; [reflexivity | lia].
  - destruct IHmatches1 as [E1 E2], IHmatches2 as [E3 E4].
    rewrite E1, E3, E4, E2, <- app_assoc, length_app. split; [reflexivity | lia].
  - destruct IHmatches1 as [E1 E2], IHmatches2 as [E3 E4].
    rewrite E1, E3, E4, E2, <- app_assoc, length_app. split; [reflexivity | lia].
Qed.

(** The matcher only returns what the pattern describes. *)
Lemma rmatch_sound (r : regex) :
  forall (R : Type) (st : mstate) (k : mstate -> option R) (x : R),
    rmatch r st k = Some x ->
    exists w st', matches r st w st' /\ k st' = Some x.
Proof.
  induction r as [ | p | a IHa b IHb | a IHa b IHb | a IHa | i a IHa | | ];
    intros R st k x H; cbn [rmatch] in H.
  - exists [], st. split; [constructor | exact H].
  - destruct (m_rest st) as [ | c tl] eqn:E; [discriminate | ].
    destruct (p c) eqn:Hp; [ | discriminate].
    exists [c], (advance c tl st). split; [now constructor | exact H].
  - apply IHa in H. destruct H as (w1 & st1 & H1 & H).
    apply IHb in H. destruct H as (w2 & st2 & H2 & H).
    exists (w1 ++ w2), st2. split; [econstructor; eassumption | exact H].
  - destruct (rmatch a st k) as [y | ] eqn:E.
    + injection H as ->. apply IHa in E. destruct E as (w & st' & H1 & H).
      exists w, st'. split; [now apply M_AltL | exact H].
    + apply IHb in H. destruct H as (w & st' & H1 & H).
      exists w, st'. split; [now apply M_AltR | exact H].
  - revert H. generalize (S (List.length (m_rest st))). intros fuel. revert st.
    induction fuel as [ | fuel IH]; intros st H; simpl in H.
    + exists [], st. split; [constructor | exact H].
    + match type of H with
      | match ?e with _ => _ end = _ => destruct e as [y | ] eqn:E
      end.
      * injection H as ->. apply IHa in E. destruct E as (w1 & st1 & H1 & H).
        destruct (m_pos st <? m_pos st1)%nat; [ | discriminate].
        apply IH in H. destruct H as (w2 & st2 & H2 & H).
        exists (w1 ++ w2), st2. split; [econstructor; eassumption | exact H].
      * exists [], st. split; [constructor | exact H].
  - apply IHa in H. destruct H as (w & st' & H1 & H).
    exists w, (set_cap i (m_pos st, m_pos st') st'). split; [now constructor | exact H].
  - destruct (at_boundary st) eqn:E; [ | discriminate].
    exists [], st. split; [now constructor | exact H].
  - destruct (at_bol st) eqn:E; [ | discriminate].
    exists [], st. split; [now constructor | exact H].
Qed.

Lemma count_any w : count (fun _ => true) w = List.length w.
Proof. unfold count. induction w as [ | c w IH]; simpl; [reflexivity | now rewrite IH]. Qed.

Lemma count_app q w1 w2 : count q (w1 ++ w2) = (count q w1 + count q w2)%nat.
Proof. unfold count. now rewrite List.filter_app, length_app. Qed.

(** Soundness of the two bounds. *)
Lemma cmin_sound q r st w st' :
  matches r st w st' -> (cmin q r <= count q w)%nat.
Proof.
  induction 1; simpl; try lia.
  - destruct (subclass p q) eqn:E; [ | lia].
    unfold count. simpl. rewrite (subclass_spec _ _ _ E H0). simpl. lia.
  - rewrite count_app. lia.
Qed.

Lemma cmax_sound q r st w st' :
  matches r st w st' -> forall n, cmax q r = Some n -> (count q w <= n)%nat.
Proof.
  induction 1; simpl; intros n Hn.
  - unfold count. simpl. lia.
  - unfold count. simpl. destruct (disjoint p q) eqn:E.
    + rewrite (disjoint_spec _ _ _ E H0). simpl. lia.
    + injection Hn as <-. destruct (q c); simpl; lia.
  - destruct (cmax q a) as [x | ]; [ | discriminate].
    destruct (cmax q b) as [y | ]; [ | discriminate].
    injection Hn as <-. rewrite count_app.
    specialize (IHmatches1 _ eq_refl). specialize (IHmatches2 _ eq_refl). lia.
  - destruct (cmax q a) as [x | ]; [ | discriminate].
    destruct (cmax q b) as [y | ]; [ | discriminate].
    injection Hn as <-. specialize (IHmatches _ eq_refl). lia.
  - destruct (cmax q a) as [x | ]; [ | discriminate].
    destruct (cmax q b) as [y | ]; [ | discriminate].
    injection Hn as <-. specialize (IHmatches _ eq_refl). lia.
  - unfold count. simpl. lia.
  - simpl in IHmatches2. destruct (cmax q a) as [[ | x] | ]; try discriminate.
    injection Hn as <-. rewrite count_app.
    specialize (IHmatches1 _ eq_refl). specialize (IHmatches2 _ eq_refl). lia.
  - now apply IHmatches.
  - unfold count. simpl. lia.
  - unfold count. simpl. lia.
Qed.

Lemma all_in_sound q r st w st' :
  matches r st w st' -> all_in q r = true -> Forall (fun c => q c = true) w.
Proof.
  induction 1; simpl; intros Hq; try constructor.
  - now apply (subclass_spec _ _ _ Hq).
  - constructor.
  - apply andb_true_iff in Hq. destruct Hq. apply Forall_app. split; auto.
  - apply andb_true_iff in Hq. destruct Hq. auto.
  - apply andb_true_iff in Hq. destruct Hq. auto.
  - apply Forall_app. split; auto.
  - auto.
Qed.

Lemma group_free_caps r st w st' :
  matches r st w st' -> group_free r = true -> m_caps st' = m_caps st.
Proof.
  induction 1; simpl; intros Hg; try reflexivity; try discriminate.
  - apply andb_true_iff in Hg. destruct Hg.
    rewrite IHmatches2, IHmatches1 by assumption. reflexivity.
  - apply andb_true_iff in Hg. destruct Hg. auto.
  - apply andb_true_iff in Hg. destruct Hg. auto.
  - rewrite IHmatches2, IHmatches1 by assumption. reflexivity.
Qed.

End ReFacts.

(* ===================================================================== *)
(** * Strings as lists of characters *)
(* ===================================================================== *)

Module PyFacts.

Abbreviation chars := list_ascii_of_string.
Abbreviation text := string_of_list_ascii.

Lemma chars_length s : List.length (chars s) = String.length s.
Proof. induction s; simpl; congruence. Qed.

Lemma text_length l : String.length (text l) = List.length l.
Proof. induction l; simpl; congruence. Qed.

Lemma chars_substring s : forall n m,
  chars (String.substring n m s) = firstn m (skipn n (chars s)).
Proof.
  induction s as [ | c s IH]; intros n m.
  - destruct n, m; reflexivity.
  - destruct n as [ | n].
    + destruct m as [ | m]; simpl; [reflexivity | ].
      f_equal. apply (IH 0%nat m).
    + simpl. apply IH.
Qed.

Lemma chars_append s1 s2 : chars (s1 ++ s2)%string = chars s1 ++ chars s2.
Proof.
  induction s1 as [ | c s1 IH]; [reflexivity | ].
  change (c :: chars (s1 ++ s2)%string = c :: (chars s1 ++ chars s2)). now rewrite IH.
Qed.

(** Stripping blanks does not touch the characters of a class that
    holds no blank. *)
Section StripCount.
Variable q : ascii -> bool.
Hypothesis q_no_space : forall c, Py.isspace c = true -> q c = false.

Lemma lstrip_count s :
  ReSem.count q (chars (Py.lstrip s)) = ReSem.count q (chars s).
Proof.
  induction s as [ | c s IH]; simpl; [reflexivity | ].
  destruct (Py.isspace c) eqn:E; [ | reflexivity].
  rewrite IH. unfold ReSem.count. simpl. now rewrite (q_no_space c E).
Qed.

Lemma rstrip_count s :
  ReSem.count q (chars (Py.rstrip s)) = ReSem.count q (chars s).
Proof.
  induction s as [ | c s IH]; simpl; [reflexivity | ].
  destruct (Py.rstrip s) as [ | c' r] eqn:E.
  - unfold ReSem.count in *. simpl in *.
    destruct (Py.isspace c) eqn:Ec.
    + rewrite (q_no_space c Ec). simpl. exact IH.
    + simpl. destruct (q c); simpl; now rewrite <- IH.
  - unfold ReSem.count in *. simpl in *.
    destruct (q c); simpl; now rewrite <- IH.
Qed.

Lemma strip_count s :
  ReSem.count q (chars (Py.strip s)) = ReSem.count q (chars s).
Proof. unfold Py.strip. now rewrite rstrip_count, lstrip_count. Qed.
End StripCount.

End PyFacts.

Module SearchFacts.
Import ReSem ReFacts PyFacts.

(** A successful search: the subject splits into what is before the
    match, the matched word and what is left. *)
Lemma search_from_sound r : forall rest prev pos i st',
  search_from r prev pos rest = Some (i, st') ->
  exists pre w prev',
    rest = pre ++ w ++ m_rest st' /\ i = (pos + List.length pre)%nat /\
    matches r (MState prev' i (w ++ m_rest st') []) w st'.
Proof.
  induction rest as [ | c tl IH]; intros prev pos i st' H; simpl in H.
  - destruct (try_at r prev pos []) as [st1 | ] eqn:E; [ | discriminate].
    injection H as <- <-. unfold try_at in E.
    apply rmatch_sound in E. destruct E as (w & st2 & Hm & Hk). injection Hk as ->.
    pose proof (matches_rest _ _ _ _ Hm) as [Hr _]. simpl in Hr.
    exists [], w, prev. simpl. rewrite <- Hr, Nat.add_0_r.
    split; [reflexivity | split; [reflexivity | exact Hm]].
  - destruct (try_at r prev pos (c :: tl)) as [st1 | ] eqn:E.
    + injection H as <- <-. unfold try_at in E.
      apply rmatch_sound in E. destruct E as (w & st2 & Hm & Hk). injection Hk as ->.
      pose proof (matches_rest _ _ _ _ Hm) as [Hr _]. simpl in Hr.
      exists [], w, prev. simpl. rewrite <- Hr, Nat.add_0_r.
      split; [reflexivity | split; [reflexivity | exact Hm]].
    + apply IH in H. destruct H as (pre & w & prev' & -> & -> & Hm).
      exists (c :: pre), w, prev'. simpl.
      split; [reflexivity | split; [lia | ]].
      replace (pos + S (List.length pre))%nat with (S pos + List.length pre)%nat by lia.
      exact Hm.
Qed.

Lemma search_sound r s m : search r s = Some m -> is_match r s m.
Proof.
  unfold search. intros H.
  destruct (search_from r None 0 (chars s)) as [[i st'] | ] eqn:E; [ | discriminate].
  injection H as <-. apply search_from_sound in E.
  destruct E as (pre & w & prev' & Hs & -> & Hm).
  exists pre, w, (MState prev' (0 + List.length pre) (w ++ m_rest st') []), st'.
  pose proof (matches_rest _ _ _ _ Hm) as [_ Hp]. simpl in Hp.
  simpl. repeat split; auto; lia.
Qed.

(** The successive matches are matches. *)
Lemma scan_sound r : forall rest prev pos skip i st',
  In (PMatch i st') (scan r prev pos rest skip) ->
  exists pre w prev',
    rest = pre ++ w ++ m_rest st' /\ i = (pos + List.length pre)%nat /\
    matches r (MState prev' i (w ++ m_rest st') []) w st'.
Proof.
  assert (Hhere : forall rest prev pos st',
            try_at r prev pos rest = Some st' ->
            exists pre w prev',
              rest = pre ++ w ++ m_rest st' /\ pos = (pos + List.length pre)%nat /\
              matches r (MState prev' pos (w ++ m_rest st') []) w st').
  { intros rest prev pos st' E. unfold try_at in E.
    apply rmatch_sound in E. destruct E as (w & st2 & Hm & Hk). injection Hk as ->.
    pose proof (matches_rest _ _ _ _ Hm) as [Hr _]. simpl in Hr.
    exists [], w, prev. simpl. rewrite <- Hr, Nat.add_0_r.
    split; [reflexivity | split; [reflexivity | exact Hm]]. }
  assert (Hshift : forall c tl pos i st',
            (exists pre w prev',
               tl = pre ++ w ++ m_rest st' /\ i = (S pos + List.length pre)%nat /\
               matches r (MState prev' i (w ++ m_rest st') []) w st') ->
            exists pre w prev',
              c :: tl = pre ++ w ++ m_rest st' /\ i = (pos + List.length pre)%nat /\
              matches r (MState prev' i (w ++ m_rest st') []) w st').
  { intros c tl pos i st' (pre & w & prev' & -> & -> & Hm).
    exists (c :: pre), w, prev'. simpl. split; [reflexivity | split; [lia | ]].
    replace (pos + S (List.length pre))%nat with (S pos + List.length pre)%nat by lia.
    exact Hm. }
  induction rest as [ | c tl IH]; intros prev pos skip i st' Hin.
  - destruct skip as [ | skip]; simpl in Hin; [ | contradiction].
    destruct (try_at r prev pos []) as [st1 | ] eqn:E; [ | contradiction].
    destruct Hin as [Hin | []]. injection Hin as <- <-. now apply (Hhere [] prev).
  - destruct skip as [ | skip]; simpl in Hin.
    + destruct (try_at r prev pos (c :: tl)) as [st1 | ] eqn:E.
      * destruct Hin as [Hin | Hin].
        { injection Hin as <- <-. now apply (Hhere (c :: tl) prev). }
        apply Hshift. destruct (m_pos st1 - pos)%nat.
        { destruct Hin as [Hin | Hin]; [discriminate | ]. now apply IH in Hin. }
        now apply IH in Hin.
      * destruct Hin as [Hin | Hin]; [discriminate | ].
        apply Hshift. now apply IH in Hin.
    + apply Hshift. now apply IH in Hin.
Qed.

Lemma finditer_sound r s m : In m (finditer r s) -> is_match r s m.
Proof.
  unfold finditer, pieces. intros H. apply in_flat_map in H.
  destruct H as ([i st' | c] & Hin & Hm); [ | contradiction].
  destruct Hm as [<- | []]. apply scan_sound in Hin.
  destruct Hin as (pre & w & prev' & Hs & -> & Hm).
  exists pre, w, (MState prev' (0 + List.length pre) (w ++ m_rest st') []), st'.
  pose proof (matches_rest _ _ _ _ Hm) as [_ Hp]. simpl in Hp.
  simpl. repeat split; auto; lia.
Qed.

Lemma middle_word (pre w post : list ascii) :
  firstn (List.length w) (skipn (List.length pre) (pre ++ w ++ post)) = w.
Proof.
  now rewrite drop_app_length, take_app_length.
Qed.

(** The text of the whole match is the matched word. *)
Lemma group0_word r s m :
  is_match r s m ->
  exists st0 st', matches r st0 (chars (group0 m)) st' /\ m_caps st0 = [] /\
                  mo_caps m = m_caps st' /\ m_pos st0 = mo_start m /\ mo_string m = s.
Proof.
  intros (pre & w & st0 & st' & Hs & Hstr & Hst & Hen & Hc & Hp & Hc0 & Hr & Hm).
  exists st0, st'. unfold group0, span_text. simpl.
  rewrite chars_substring, Hstr, Hs, Hst, Hen.
  replace (List.length pre + List.length w - List.length pre)%nat with (List.length w) by lia.
  rewrite middle_word. repeat split; auto; congruence.
Qed.

(** Deleting the matches of a one-character class keeps the other
    characters. *)
Lemma scan_chr p : forall l prev pos,
  flat_map (fun x => match x with PMatch _ _ => [] | PChar c => [c] end)
           (scan (Chr p) prev pos l 0)
  = List.filter (fun c => negb (p c)) l.
Proof.
  induction l as [ | c tl IH]; intros prev pos; simpl; [reflexivity | ].
  unfold try_at. simpl. destruct (p c) eqn:E; simpl.
  - replace (S pos - pos)%nat with 1%nat by lia. apply IH.
  - f_equal. apply IH.
Qed.

Lemma sub_empty_chr p s :
  sub_empty (Chr p) s = text (List.filter (fun c => negb (p c)) (chars s)).
Proof. unfold sub_empty, pieces. now rewrite scan_chr. Qed.

End SearchFacts.

Module FirstMatch.

(** [search] returns the first of the successive matches. *)
Lemma search_from_scan r : forall rest prev pos,
  search_from r prev pos rest
  = head (flat_map (fun x => match x with PMatch i st' => [(i, st')] | PChar _ => [] end)
                   (scan r prev pos rest 0)).
Proof.
  induction rest as [ | c tl IH]; intros prev pos; simpl.
  - destruct (try_at r prev pos []); reflexivity.
  - destruct (try_at r prev pos (c :: tl)); [reflexivity | ]. simpl. apply IH.
Qed.

Lemma search_is_first_match r s : search r s = head (finditer r s).
Proof.
  unfold search, finditer, pieces. rewrite search_from_scan.
  generalize (scan r None 0 (list_ascii_of_string s) 0). intros l.
  induction l as [ | [i st' | c] l IH]; simpl; auto.
Qed.

Lemma mem_In x l : Py.mem x l = true <-> In x l.
Proof.
  unfold Py.mem. rewrite existsb_exists. split.
  - intros (y & Hy & E). apply String.eqb_eq in E. now subst.
  - intros H. exists x. split; [exact H | apply String.eqb_refl].
Qed.

Lemma find_split {A} (f : A -> bool) l :
  match List.find f l with
  | Some x => f x = true /\ exists pre post, l = pre ++ x :: post
                                /\ Forall (fun y => f y = false) pre
  | None => Forall (fun y => f y = false) l
  end.
Proof.
  induction l as [ | x l IH]; simpl; [constructor | ].
  destruct (f x) eqn:E.
  - split; [exact E | ]. exists [], l. split; [reflexivity | constructor].
  - destruct (List.find f l) as [y | ].
    + destruct IH as (Hy & pre & post & -> & Hpre). split; [exact Hy | ].
      exists (x :: pre), post. split; [reflexivity | now constructor].
    + now constructor.
Qed.

End FirstMatch.


(* ===================================================================== *)
(** * The first and the last character of a match *)
(* ===================================================================== *)

Module EndsFacts.
Import ReSem ReFacts PyFacts.

Lemma starts_in_app q w1 w2 :
  starts_in q w1 -> (w1 = [] -> starts_in q w2) -> starts_in q (w1 ++ w2).
Proof. destruct w1; simpl; auto. Qed.

Lemma ends_in_app q w1 w2 :
  ends_in q w2 -> (w2 = [] -> ends_in q w1) -> ends_in q (w1 ++ w2).
Proof.
  unfold ends_in. rewrite rev_app_distr. intros H2 H1.
  destruct (rev w2) as [ | c r] eqn:E; simpl; [ | exact H2].
  apply H1. destruct w2 as [ | c w2]; [reflexivity | ].
  simpl in E. destruct (rev w2); discriminate.
Qed.

Lemma nonempty_by_cmin r st w st' :
  matches r st w st' -> (1 <=? cmin (fun _ => true) r)%nat = true -> w <> [].
Proof.
  intros Hm Hc Hw. apply Nat.leb_le in Hc.
  pose proof (cmin_sound (fun _ => true) _ _ _ _ Hm) as H.
  rewrite count_any, Hw in H. simpl in H. lia.
Qed.

Lemma weak_first_sound q r st w st' :
  matches r st w st' -> weak_first q r = true -> starts_in q w.
Proof.
  induction 1; cbn [weak_first]; intros Hq; try exact I; auto.
  - simpl. exact (subclass_spec _ _ _ Hq H0).
  - apply andb_true_iff in Hq. destruct Hq as [Ha Hb].
    apply starts_in_app; [auto | ]. intros ->.
    apply orb_true_iff in Hb. destruct Hb as [Hb | Hb]; [auto | ].
    exfalso. exact (nonempty_by_cmin _ _ _ _ H Hb eq_refl).
  - apply andb_true_iff in Hq. destruct Hq. auto.
  - apply andb_true_iff in Hq. destruct Hq. auto.
  - apply starts_in_app; auto.
Qed.

Lemma weak_last_sound q r st w st' :
  matches r st w st' -> weak_last q r = true -> ends_in q w.
Proof.
  induction 1; cbn [weak_last]; intros Hq; try exact I; auto.
  - unfold ends_in. simpl. exact (subclass_spec _ _ _ Hq H0).
  - apply andb_true_iff in Hq. destruct Hq as [Hb Ha].
    apply ends_in_app; [auto | ]. intros ->.
    apply orb_true_iff in Ha. destruct Ha as [Ha | Ha]; [auto | ].
    exfalso. exact (nonempty_by_cmin _ _ _ _ H0 Ha eq_refl).
  - apply andb_true_iff in Hq. destruct Hq. auto.
  - apply andb_true_iff in Hq. destruct Hq. auto.
  - apply ends_in_app; auto.
Qed.

(** [strip] leaves alone a text that neither starts nor ends with a blank. *)
Lemma lstrip_id s :
  starts_in (fun c => negb (Py.isspace c)) (chars s) -> Py.lstrip s = s.
Proof.
  destruct s as [ | c s]; simpl; [reflexivity | ].
  intros H. apply negb_true_iff in H. now rewrite H.
Qed.

Lemma rstrip_id s :
  ends_in (fun c => negb (Py.isspace c)) (chars s) -> Py.rstrip s = s.
Proof.
  unfold ends_in. induction s as [ | c s IH]; [reflexivity | ].
  cbn [chars rev]. cbn [Py.rstrip]. intros H.
  destruct s as [ | c' s'].
  - simpl in H. apply negb_true_iff in H. simpl. now rewrite H.
  - assert (Hs : Py.rstrip (String c' s') = String c' s').
    { apply IH. cbn [chars rev] in *.
      destruct (rev (chars s') ++ [c']) as [ | d r] eqn:E.
      - destruct (rev (chars s')); discriminate.
      - exact H. }
    now rewrite Hs.
Qed.

Lemma strip_id s :
  starts_in (fun c => negb (Py.isspace c)) (chars s) ->
  ends_in (fun c => negb (Py.isspace c)) (chars s) -> Py.strip s = s.
Proof. intros H1 H2. unfold Py.strip. now rewrite (lstrip_id s H1), (rstrip_id s H2). Qed.

End EndsFacts.

(* ===================================================================== *)
(** * What a group captures *)
(* ===================================================================== *)

Module CaptureFacts.
Import ReSem ReFacts PyFacts SearchFacts.

Lemma class_eqb_spec p q c : class_eqb p q = true -> p c = q c.
Proof.
  unfold class_eqb. rewrite forallb_forall. intros H.
  specialize (H c (all_ascii_complete c)). now apply Bool.eqb_prop in H.
Qed.

(** Patterns that [regex_eqb] identifies match the same words. *)
Lemma matches_ext r2 st w st' :
  matches r2 st w st' -> forall r1, regex_eqb r1 r2 = true -> matches r1 st w st'.
Proof.
  induction 1; intros r1 E; destruct r1; try discriminate E; cbn [regex_eqb] in E.
  - constructor.
  - constructor; [assumption | ]. now rewrite (class_eqb_spec _ _ c E).
  - apply andb_true_iff in E. destruct E as [E1 E2]. econstructor; eauto.
  - apply andb_true_iff in E. destruct E as [E1 E2]. apply M_AltL. eauto.
  - apply andb_true_iff in E. destruct E as [E1 E2]. apply M_AltR. eauto.
  - constructor.
  - econstructor; [eauto | ]. apply IHmatches2. exact E.
  - apply andb_true_iff in E. destruct E as [E1 E2].
    apply Nat.eqb_eq in E1. subst. constructor. eauto.
  - now constructor.
  - now constructor.
Qed.

(** The spans recorded so far stay recorded. *)
Lemma caps_mono i r st w st' :
  matches r st w st' -> lookup_cap i (m_caps st) <> None -> lookup_cap i (m_caps st') <> None.
Proof.
  induction 1; intros Hc; auto.
  simpl. destruct (i =? i0)%nat; [discriminate | auto].
Qed.

Lemma always_sets_sound i r st w st' :
  matches r st w st' -> always_sets i r = true -> lookup_cap i (m_caps st') <> None.
Proof.
  induction 1; cbn [always_sets]; intros Hs; try discriminate.
  - apply orb_true_iff in Hs. destruct Hs as [Hs | Hs]; [ | auto].
    eapply caps_mono; eauto.
  - apply andb_true_iff in Hs. destruct Hs. auto.
  - apply andb_true_iff in Hs. destruct Hs. auto.
  - simpl. destruct (i =? i0)%nat eqn:E; [discriminate | ]. simpl in Hs. auto.
Qed.

Lemma at_position_step s r st w st' :
  matches r st w st' -> at_position s st -> at_position s st'.
Proof.
  unfold at_position. intros Hm Hp. apply matches_rest in Hm. destruct Hm as [Hr Hpos].
  rewrite Hpos, <- drop_drop, <- Hp, Hr. now rewrite drop_app_length.
Qed.

Lemma caps_inv_step P i s r st w st' :
  matches r st w st' -> group_bodies P i r = true ->
  at_position s st -> caps_inv P i s (m_caps st) -> caps_inv P i s (m_caps st').
Proof.
  induction 1; cbn [group_bodies]; intros Hg Hp Hc; auto;
    try (apply andb_true_iff in Hg; destruct Hg as [Hg1 Hg2]).
  - apply IHmatches2; auto. eapply at_position_step; eauto.
  - auto.
  - auto.
  - apply IHmatches2; auto. eapply at_position_step; eauto.
  - intros sp Hsp. simpl in Hsp. destruct (i =? i0)%nat eqn:E.
    + injection Hsp as <-. exists a, st, st'. split; [exact Hg1 | ].
      unfold span_word. simpl. unfold at_position in Hp. rewrite <- Hp.
      pose proof (matches_rest _ _ _ _ H) as [Hr Hpos]. rewrite Hr, Hpos.
      replace (m_pos st + List.length w - m_pos st)%nat with (List.length w) by lia.
      now rewrite take_app_length.
    + apply (IHmatches Hg2 Hp Hc sp Hsp).
Qed.

(** The text of a group that every match sets is a word matched by one
    of the bodies of that group. *)
Lemma group_captured P i r s m :
  is_match r s m -> group_bodies P i r = true -> always_sets i r = true ->
  exists g body st1 st2,
    group i m = Some g /\ P body = true /\ matches body st1 (chars g) st2.
Proof.
  intros (pre & w & st0 & st' & Hs & Hstr & Hst & Hen & Hc & Hp & Hc0 & Hr & Hm) Hg Ha.
  assert (Hpos : at_position (chars s) st0).
  { unfold at_position. now rewrite Hr, Hp, Hs, drop_app_length. }
  assert (Hinv : caps_inv P i (chars s) (m_caps st')).
  { apply (caps_inv_step P i (chars s) r st0 w st' Hm Hg Hpos).
    rewrite Hc0. intros sp Hsp. discriminate. }
  pose proof (always_sets_sound i r st0 w st' Hm Ha) as Hset.
  unfold group. rewrite Hc. destruct (lookup_cap i (m_caps st')) as [sp | ] eqn:E;
    [ | contradiction].
  destruct (Hinv sp E) as (body & st1 & st2 & HP & Hb).
  exists (span_text (mo_string m) sp), body, st1, st2.
  split; [reflexivity | split; [exact HP | ]].
  unfold span_text. rewrite chars_substring, Hstr. exact Hb.
Qed.

Lemma all_chr_chars p s : Py.all_chr p s = forallb p (chars s).
Proof. induction s as [ | c s IH]; simpl; [reflexivity | now rewrite IH]. Qed.


End CaptureFacts.

(* ===================================================================== *)
(** * Phone numbers *)
(* ===================================================================== *)

Module PhoneFacts.
Import ReSem ReFacts PyFacts SearchFacts.

Lemma phone_digits_count s :
  Py.len (phone_digits s) = count phone_digit_chr (chars s).
Proof.
  unfold phone_digits, Py.len, count. rewrite sub_empty_chr, text_length.
  f_equal. apply List.filter_ext. intros c. apply negb_involutive.
Qed.

Lemma phone_cmin : cmin phone_digit_chr PHONE_PATTERN = 10%nat.
Proof. vm_compute. reflexivity. Qed.

Lemma phone_cmax : cmax phone_digit_chr PHONE_PATTERN = Some 14%nat.
Proof. vm_compute. reflexivity. Qed.

Lemma space_not_phone_digit c : Py.isspace c = true -> phone_digit_chr c = false.
Proof.
  apply disjoint_spec. vm_compute. reflexivity.
Qed.

(** Whatever the phone pattern matches holds between 10 and 14
    characters that are digits or [+]. *)
Lemma phone_match_count transcript m :
  search PHONE_PATTERN transcript = Some m ->
  (10 <= Py.len (phone_digits (Py.strip (group0 m))) <= 14)%nat.
Proof.
  intros H. apply search_sound, group0_word in H. destruct H as (st0 & st' & Hm & _).
  rewrite phone_digits_count, (strip_count _ space_not_phone_digit).
  pose proof (cmin_sound phone_digit_chr _ _ _ _ Hm) as Hlo.
  pose proof (cmax_sound phone_digit_chr _ _ _ _ Hm _ phone_cmax) as Hhi.
  rewrite phone_cmin in Hlo. lia.
Qed.

(** It holds between 10 and 13 digits. *)
Lemma phone_match_digits transcript m :
  search PHONE_PATTERN transcript = Some m -> (10 <= digit_count (group0 m) <= 13)%nat.
Proof.
  intros H. apply search_sound, group0_word in H. destruct H as (st0 & st' & Hm & _).
  unfold digit_count.
  pose proof (cmin_sound Py.isdigit_chr _ _ _ _ Hm) as Hlo.
  assert (Hmax : cmax Py.isdigit_chr PHONE_PATTERN = Some 13%nat) by (vm_compute; reflexivity).
  pose proof (cmax_sound Py.isdigit_chr _ _ _ _ Hm _ Hmax) as Hhi.
  assert (Hmin : cmin Py.isdigit_chr PHONE_PATTERN = 10%nat) by (vm_compute; reflexivity).
  rewrite Hmin in Hlo. lia.
Qed.

(** A match of the phone pattern starts with [+], [(] or a digit and
    ends with a digit: [strip] does not change it. *)
Lemma phone_match_strip transcript m :
  search PHONE_PATTERN transcript = Some m -> Py.strip (group0 m) = group0 m.
Proof.
  intros H. apply search_sound, group0_word in H. destruct H as (st0 & st' & Hm & _).
  apply EndsFacts.strip_id.
  - apply (EndsFacts.weak_first_sound _ _ _ _ _ Hm). vm_compute. reflexivity.
  - apply (EndsFacts.weak_last_sound _ _ _ _ _ Hm). vm_compute. reflexivity.
Qed.

Lemma phone_match_valid transcript m :
  search PHONE_PATTERN transcript = Some m ->
  validate_phone (Py.strip (group0 m)) = true.
Proof.
  intros H. apply phone_match_count in H. unfold validate_phone.
  apply andb_true_iff. split; apply Nat.leb_le; lia.
Qed.

End PhoneFacts.

(** C6.  [extract_phone] looks at the first match of the phone pattern
    only.  That match always passes the gate of [validate_phone]: what
    is left of it once the separators are removed, digits and [+], has a
    length in 10..15, and so has its number of digits.  It is therefore
    the first match whose count lies in 10..15, and it is returned as it
    stands; without any match the phone is absent.  The gate itself
    rejects a candidate with 9 digits and accepts one with 10. *)
Theorem extract_phone_first_valid_match (transcript : string) :
  match head (finditer PHONE_PATTERN transcript) with
  | Some m =>
      (10 <= Py.len (phone_digits (group0 m)) <= 15)%nat /\
      (10 <= digit_count (group0 m) <= 15)%nat /\
      extract_phone transcript = Some (group0 m)
  | None => extract_phone transcript = None
  end
  /\ (forall candidate : string,
        validate_phone candidate = true <->
        (10 <= Py.len (phone_digits candidate) <= 15)%nat)
  /\ validate_phone "987 654 321" = false
  /\ validate_phone "987 654 3210" = true
  /\ extract_phone "call 987 654 321 now" = None
  /\ extract_phone "call 987 654 3210 now" = Some "987 654 3210".
Proof.
  split; [ | split; [ | vm_compute; repeat split; reflexivity ]].
  - rewrite <- FirstMatch.search_is_first_match. unfold extract_phone.
    destruct (search PHONE_PATTERN transcript) as [m | ] eqn:E; [ | reflexivity].
    pose proof (PhoneFacts.phone_match_count _ _ E) as Hc.
    pose proof (PhoneFacts.phone_match_digits _ _ E) as Hd.
    rewrite (PhoneFacts.phone_match_valid _ _ E).
    rewrite (PhoneFacts.phone_match_strip _ _ E) in *.
    split; [lia | split; [lia | reflexivity]].
  - intros candidate. unfold validate_phone. rewrite andb_true_iff, !Nat.leb_le. tauto.
Qed.

(* ===================================================================== *)
(** * The numerals that the patterns capture *)
(* ===================================================================== *)

Module NumeralFacts.
Import ReSem ReFacts PyFacts SearchFacts CaptureFacts.

Lemma digit_val_bounds lo hi c :
  Py.between lo hi c = true -> (48 <= lo)%nat ->
  (Z.of_nat lo - 48 <= Py.digit_val c <= Z.of_nat hi - 48)%Z.
Proof.
  unfold Py.between, Py.digit_val. intros H Hlo.
  apply andb_true_iff in H. destruct H as [H1 H2].
  apply Nat.leb_le in H1. apply Nat.leb_le in H2. lia.
Qed.

(** A word matched by the body of the recent-year pattern reads as a
    year of 2000..2039; one matched by the body of the year pattern as a
    year of 1900..2099. *)
Lemma recent_year_word st1 w st2 :
  matches recent_year_body st1 w st2 -> (2000 <= Py.int (text w) <= 2039)%Z.
Proof.
  intros H. cbv [recent_year_body seqs lit chr digit] in H. invert_matches.
  repeat match goal with
         | H : Ascii.eqb _ _ = true |- _ => apply Ascii.eqb_eq in H; subst
         end.
  match goal with H : Py.between 48 51 _ = true |- _ =>
    apply digit_val_bounds in H; [ | lia] end.
  match goal with H : Py.isdigit_chr _ = true |- _ =>
    apply digit_val_bounds in H; [ | lia] end.
  cbn [app text Py.int Py.int_acc].
  change (Py.digit_val "2") with 2%Z. change (Py.digit_val "0") with 0%Z. lia.
Qed.

Lemma year_word st1 w st2 :
  matches year_body st1 w st2 -> (1900 <= Py.int (text w) <= 2099)%Z.
Proof.
  intros H. cbv [year_body lit chr digit rep] in H. invert_matches;
    repeat match goal with
           | H : Ascii.eqb _ _ = true |- _ => apply Ascii.eqb_eq in H; subst
           end;
    repeat match goal with
           | H : Py.isdigit_chr _ = true |- _ => apply digit_val_bounds in H; [ | lia]
           end;
    cbn [app text Py.int Py.int_acc];
    change (Py.digit_val "1") with 1%Z; change (Py.digit_val "9") with 9%Z;
    change (Py.digit_val "2") with 2%Z; change (Py.digit_val "0") with 0%Z; lia.
Qed.

Lemma recent_year_value st1 g st2 :
  matches recent_year_body st1 (chars g) st2 -> (2000 <= Py.int g <= 2039)%Z.
Proof.
  intros H. apply recent_year_word in H. now rewrite string_of_list_ascii_of_string in H.
Qed.

Lemma year_value st1 g st2 :
  matches year_body st1 (chars g) st2 -> (1900 <= Py.int g <= 2099)%Z.
Proof.
  intros H. apply year_word in H. now rewrite string_of_list_ascii_of_string in H.
Qed.

Lemma group1_of m g : group 1 m = Some g -> group1 m = g.
Proof. unfold group1. now intros ->. Qed.

(** Each match of the recent-year pattern captures a year of 2000..2039. *)
Lemma recent_match_value transcript m :
  is_match RECENT_YEAR_PATTERN transcript m -> (2000 <= Py.int (group1 m) <= 2039)%Z.
Proof.
  intros H.
  apply (group_captured (regex_eqb recent_year_body) 1) in H;
    [ | vm_compute; reflexivity | reflexivity].
  destruct H as (g & body & st1 & st2 & Hg & Hb & Hm).
  rewrite (group1_of _ _ Hg). apply (recent_year_value st1 g st2).
  exact (matches_ext _ _ _ _ Hm _ Hb).
Qed.

Lemma year_match_value sent m :
  is_match YEAR_PATTERN sent m -> (1900 <= Py.int (group1 m) <= 2099)%Z.
Proof.
  intros H.
  apply (group_captured (regex_eqb year_body) 1) in H;
    [ | vm_compute; reflexivity | reflexivity].
  destruct H as (g & body & st1 & st2 & Hg & Hb & Hm).
  rewrite (group1_of _ _ Hg). apply (year_value st1 g st2).
  exact (matches_ext _ _ _ _ Hm _ Hb).
Qed.

Lemma recent_years_range transcript :
  Forall (fun y => (2000 <= y <= 2039)%Z)
         (map Py.int (findall1 RECENT_YEAR_PATTERN transcript)).
Proof.
  unfold findall1. rewrite map_map. apply List.Forall_forall. intros y Hy.
  apply in_map_iff in Hy. destruct Hy as (m & <- & Hm).
  apply finditer_sound in Hm. exact (recent_match_value _ _ Hm).
Qed.


End NumeralFacts.

(* ===================================================================== *)
(** * The matches of the year patterns are the year tokens *)
(* ===================================================================== *)

Module TokenFacts.
Import ReSem ReFacts PyFacts SearchFacts.

Lemma digit_is_word c : Py.isdigit_chr c = true -> is_word c = true.
Proof. intros Hc. unfold is_word. rewrite Hc. now rewrite orb_true_r. Qed.

Section Tokens.

(** A pattern of the shape [\b(....)\b] whose group takes exactly four
    characters that pass [ok4]. *)
Variable pattern : regex.
Variable ok4 : ascii -> ascii -> ascii -> ascii -> bool.

Hypothesis try_at_spec : forall prev pos rest,
  try_at pattern prev pos rest
  = match rest with
    | c1 :: c2 :: c3 :: c4 :: tl =>
        if negb (is_word_opt prev) && ok4 c1 c2 c3 c4 && negb (is_word_opt (head tl))
        then Some (after_token4 pos c4 tl)
        else None
    | _ => None
    end.

Hypothesis ok4_word : forall c1 c2 c3 c4,
  ok4 c1 c2 c3 c4 = true ->
  is_word c1 = true /\ is_word c2 = true /\ is_word c3 = true /\ is_word c4 = true.

(** The text of group 1 of a match of the pattern at [pos]. *)
Lemma group1_span s pos tl c4 :
  group 1 (mk_match s pos (after_token4 pos c4 tl))
  = Some (text (firstn 4 (skipn pos (chars s)))).
Proof.
  unfold group, mk_match, span_text, after_token4. cbn. f_equal.
  replace (S (S (S (S pos))) - pos)%nat with 4%nat by lia.
  rewrite <- (string_of_list_ascii_of_string (String.substring pos 4 s)).
  now rewrite chars_substring.
Qed.

(** While the characters of a match are passed over, no token starts:
    a word character stands before each of these positions. *)
Lemma scan_tokens s : forall rest prev pos skip,
  rest = skipn pos (chars s) ->
  (skip = 0%nat \/ (is_word_opt prev = true
                    /\ Forall (fun c => is_word c = true) (firstn (skip - 1) rest))) ->
  captured_texts s (scan pattern prev pos rest skip) = tokens4 ok4 prev rest.
Proof.
  induction rest as [ | c tl IH]; intros prev pos skip Hpos Hinv.
  - destruct skip; cbn [scan]; [ | reflexivity].
    rewrite try_at_spec. reflexivity.
  - assert (Htl : tl = skipn (S pos) (chars s)).
    { replace (S pos) with (pos + 1)%nat by lia. rewrite <- drop_drop, <- Hpos. reflexivity. }
    destruct skip as [ | skip].
    + cbn [scan tokens4]. rewrite try_at_spec. unfold token4.
      destruct tl as [ | c2 [ | c3 [ | c4 tl']]];
        try (apply (IH (Some c) (S pos) 0%nat Htl); now left).
      destruct (negb (is_word_opt prev) && ok4 c c2 c3 c4
                && negb (is_word_opt (head tl'))) eqn:E.
      * change (m_pos (after_token4 pos c4 tl')) with (S (S (S (S pos)))).
        replace (S (S (S (S pos))) - pos)%nat with 4%nat by lia.
        unfold captured_texts. cbn [flat_map app map]. rewrite group1_span, <- Hpos.
        cbn [firstn]. f_equal.
        apply andb_true_iff in E. destruct E as [E _].
        apply andb_true_iff in E. destruct E as [_ E].
        apply ok4_word in E. destruct E as (H1 & H2 & H3 & H4).
        apply (IH (Some c) (S pos) 3%nat Htl). right. split; [exact H1 | ].
        cbn [Nat.sub firstn]. repeat constructor; assumption.
      * unfold captured_texts. cbn [flat_map app map].
        apply (IH (Some c) (S pos) 0%nat Htl). now left.
    + destruct Hinv as [Hinv | [Hprev Hall]]; [discriminate | ].
      cbn [scan]. cbn [tokens4]. unfold token4.
      replace (negb (is_word_opt prev)) with false by now rewrite Hprev.
      cbn [andb].
      assert (Hgoal : captured_texts s (scan pattern (Some c) (S pos) tl skip)
                      = tokens4 ok4 (Some c) tl).
      { apply (IH (Some c) (S pos) skip Htl). destruct skip as [ | skip]; [now left | right].
        replace (S (S skip) - 1)%nat with (S skip) in Hall by lia.
        replace (S skip - 1)%nat with skip by lia.
        cbn [firstn] in Hall. inversion Hall as [ | ? ? Hc Hrest]; subst.
        split; [exact Hc | exact Hrest]. }
      destruct tl as [ | c2 [ | c3 [ | c4 tl']]]; exact Hgoal.
Qed.

Lemma findall_tokens s : findall1 pattern s = tokens4 ok4 None (chars s).
Proof.
  unfold findall1, finditer, pieces.
  apply (scan_tokens s (chars s) None 0%nat 0%nat); [reflexivity | now left].
Qed.

(** [search] finds the first token. *)
Lemma search_token s :
  option_map group1 (search pattern s) = head (tokens4 ok4 None (chars s)).
Proof.
  rewrite <- findall_tokens, FirstMatch.search_is_first_match. unfold findall1.
  destruct (finditer pattern s) as [ | m l]; reflexivity.
Qed.

End Tokens.

Lemma recent_ok4_word c1 c2 c3 c4 :
  recent_ok4 c1 c2 c3 c4 = true ->
  is_word c1 = true /\ is_word c2 = true /\ is_word c3 = true /\ is_word c4 = true.
Proof.
  unfold recent_ok4. rewrite !andb_true_iff. intros [[[H1 H2] H3] H4].
  apply Ascii.eqb_eq in H1, H2. subst c1 c2.
  assert (H3' : Py.isdigit_chr c3 = true).
  { revert H3. apply subclass_spec. vm_compute. reflexivity. }
  repeat split; auto using digit_is_word.
Qed.

Lemma year_ok4_word c1 c2 c3 c4 :
  year_ok4 c1 c2 c3 c4 = true ->
  is_word c1 = true /\ is_word c2 = true /\ is_word c3 = true /\ is_word c4 = true.
Proof.
  unfold year_ok4. rewrite !andb_true_iff, orb_true_iff, !andb_true_iff.
  intros [[[[H1 H2] | [H1 H2]] H3] H4];
    apply Ascii.eqb_eq in H1, H2; subst c1 c2; repeat split; auto using digit_is_word.
Qed.

(** What the matcher does with each year pattern at one position. *)
Lemma try_at_recent prev pos rest :
  try_at RECENT_YEAR_PATTERN prev pos rest
  = match rest with
    | c1 :: c2 :: c3 :: c4 :: tl =>
        if negb (is_word_opt prev) && recent_ok4 c1 c2 c3 c4 && negb (is_word_opt (head tl))
        then Some (after_token4 pos c4 tl)
        else None
    | _ => None
    end.
Proof.
  unfold try_at, RECENT_YEAR_PATTERN, after_token4.
  cbn [seqs lit chr digit rmatch m_rest m_prev m_pos m_caps advance set_cap].
  unfold at_boundary, recent_ok4.
  destruct rest as [ | c1 [ | c2 [ | c3 [ | c4 tl]]]];
    cbn [m_rest m_prev m_pos m_caps advance set_cap hd_error is_word_opt];
    try (repeat case_if; reflexivity).
  destruct (Ascii.eqb "2" c1) eqn:E1, (Ascii.eqb "0" c2) eqn:E2,
           (Py.between 48 51 c3) eqn:E3, (Py.isdigit_chr c4) eqn:E4;
    cbn [andb]; rewrite ?andb_false_r; cbn [andb]; try (repeat case_if; reflexivity).
  apply Ascii.eqb_eq in E1. subst c1.
  rewrite (digit_is_word _ E4). change (is_word "2") with true.
  destruct (is_word_opt prev), (is_word_opt (hd_error tl)); reflexivity.
Qed.

Lemma try_at_year prev pos rest :
  try_at YEAR_PATTERN prev pos rest
  = match rest with
    | c1 :: c2 :: c3 :: c4 :: tl =>
        if negb (is_word_opt prev) && year_ok4 c1 c2 c3 c4 && negb (is_word_opt (head tl))
        then Some (after_token4 pos c4 tl)
        else None
    | _ => None
    end.
Proof.
  unfold try_at, YEAR_PATTERN, after_token4.
  cbn [seqs lit chr digit rep rmatch m_rest m_prev m_pos m_caps advance set_cap].
  unfold at_boundary, year_ok4.
  destruct rest as [ | c1 [ | c2 [ | c3 [ | c4 tl]]]];
    cbn [m_rest m_prev m_pos m_caps advance set_cap hd_error is_word_opt];
    try (repeat case_if; reflexivity).
  destruct (Py.isdigit_chr c3) eqn:E3, (Py.isdigit_chr c4) eqn:E4;
    rewrite ?andb_false_r; cbn [andb]; try (repeat case_if; reflexivity).
  rewrite (digit_is_word _ E4).
  destruct (Ascii.eqb "1" c1) eqn:A1.
  - apply Ascii.eqb_eq in A1. subst c1.
    change (Ascii.eqb "2" "1") with false. change (is_word "1") with true.
    cbn [andb orb].
    destruct (Ascii.eqb "9" c2); cbn [andb orb];
      destruct (is_word_opt prev), (is_word_opt (hd_error tl)); reflexivity.
  - cbn [andb orb]. destruct (Ascii.eqb "2" c1) eqn:A2.
    + apply Ascii.eqb_eq in A2. subst c1. change (is_word "2") with true.
      destruct (Ascii.eqb "0" c2); cbn [andb orb];
        destruct (is_word_opt prev), (is_word_opt (hd_error tl)); reflexivity.
    + cbn [andb orb]. rewrite ?andb_false_r. cbn [andb]. repeat case_if; reflexivity.
Qed.

(** The matches of the recent-year pattern in a transcript are its
    standalone year tokens 2000..2039, in their order; the year pattern
    finds the first standalone token 1900..2099 of a sentence. *)
Lemma findall_recent_tokens transcript :
  findall1 RECENT_YEAR_PATTERN transcript = recent_year_tokens transcript.
Proof. apply (findall_tokens _ _ try_at_recent recent_ok4_word). Qed.

Lemma search_year_token sent :
  option_map group1 (search YEAR_PATTERN sent) = head (year_tokens sent).
Proof. apply (search_token _ _ try_at_year year_ok4_word). Qed.

Lemma findall_year_tokens sent : findall1 YEAR_PATTERN sent = year_tokens sent.
Proof. apply (findall_tokens _ _ try_at_year year_ok4_word). Qed.

Lemma year_tokens_range sent :
  Forall (fun token => (1900 <= Py.int token <= 2099)%Z) (year_tokens sent).
Proof.
  rewrite <- findall_year_tokens. unfold findall1. apply List.Forall_forall.
  intros token Ht. apply in_map_iff in Ht. destruct Ht as (m & <- & Hm).
  apply finditer_sound in Hm. exact (NumeralFacts.year_match_value _ _ Hm).
Qed.

End TokenFacts.

(* ===================================================================== *)
(** * The result dictionary *)
(* ===================================================================== *)


Lemma empty_result_all_none :
  Forall (fun key => empty_result !! key = Some VNone) FIELDS.
Proof.
  unfold FIELDS, empty_result.
  repeat (apply List.Forall_cons; [by simplify_map_eq | ]). apply List.Forall_nil.
Qed.

(** C2.  A transcript that is empty, or that has fewer than ten
    characters once the surrounding blanks are removed, is answered with
    the dictionary in which each of the nine fields is [None]: the
    function returns this value before any extractor runs. *)
Theorem short_transcript_all_absent (nlp : option (string -> Doc)) (transcript : string) :
  transcript = "" \/ (Py.len (Py.strip transcript) < 10)%nat ->
  extract_candidate_info nlp transcript = empty_result
  /\ Forall (fun key => extract_candidate_info nlp transcript !! key = Some VNone) FIELDS.
Proof.
  intros H.
  assert (E : extract_candidate_info nlp transcript = empty_result).
  { unfold extract_candidate_info. destruct H as [-> | H]; [reflexivity | ].
    apply Nat.ltb_lt in H. rewrite H, orb_true_r. reflexivity. }
  split; [exact E | rewrite E; exact empty_result_all_none].
Qed.

Lemma short_transcript_all_absent_witness :
  extract_candidate_info None "   hi there  " = empty_result
  /\ Forall (fun key => extract_candidate_info None "   hi there  " !! key = Some VNone) FIELDS.
Proof.
  apply (short_transcript_all_absent None "   hi there  ").
  right. vm_compute. lia.
Defined.

(* ===================================================================== *)
(** * Graduation year *)
(* ===================================================================== *)

Module YearFacts.

Lemma max_list_in y l : In (max_list y l) (y :: l).
Proof.
  unfold max_list. revert y. induction l as [ | z l IH]; intros y; simpl.
  - now left.
  - destruct (IH (Z.max y z)) as [E | Hin].
    + rewrite <- E. destruct (Z.max_spec y z) as [[_ ->] | [_ ->]]; simpl; auto.
    + simpl. auto.
Qed.

Lemma max_list_ge y l : Forall (fun z => (z <= max_list y l)%Z) (y :: l).
Proof.
  unfold max_list. revert y. induction l as [ | z l IH]; intros y; simpl.
  - repeat constructor. lia.
  - specialize (IH (Z.max y z)). inversion IH as [ | ? ? H1 H2]; subst.
    constructor; [lia | ]. constructor; [lia | exact H2].
Qed.

Lemma context_loop_first_some sents :
  graduation_context_loop sents = first_some sentence_year sents.
Proof.
  induction sents as [ | sent rest IH]; [reflexivity | ].
  cbn [graduation_context_loop first_some]. unfold sentence_year.
  destruct (has_graduation_keyword sent); [ | exact IH].
  destruct (search YEAR_PATTERN sent) as [m | ]; [ | exact IH].
  destruct (validate_year (Py.int (group1 m))); [reflexivity | exact IH].
Qed.

Lemma first_some_split {A B} (f : A -> option B) l :
  match first_some f l with
  | Some y => exists pre x post, l = pre ++ x :: post /\ f x = Some y
                                 /\ Forall (fun x' => f x' = None) pre
  | None => Forall (fun x' => f x' = None) l
  end.
Proof.
  induction l as [ | x l IH]; simpl; [constructor | ].
  destruct (f x) as [y | ] eqn:E.
  - exists [], x, l. repeat split; [exact E | constructor].
  - destruct (first_some f l) as [y | ].
    + destruct IH as (pre & x' & post & -> & Hx & Hpre).
      exists (x :: pre), x', post. repeat split; [exact Hx | now constructor].
    + now constructor.
Qed.

Lemma sentence_year_valid sent y :
  sentence_year sent = Some y -> validate_year y = true.
Proof.
  unfold sentence_year. destruct (has_graduation_keyword sent); [ | discriminate].
  destruct (search YEAR_PATTERN sent) as [m | ]; [ | discriminate].
  destruct (validate_year (Py.int (group1 m))) eqn:E; [ | discriminate].
  now intros [= <-].
Qed.

Lemma validate_year_range y : validate_year y = true <-> (1950 <= y <= 2030)%Z.
Proof. unfold validate_year. rewrite andb_true_iff, !Z.leb_le. tauto. Qed.

Lemma fallback_spec transcript :
  match graduation_fallback transcript with
  | Some y => In y (valid_recent_years transcript)
              /\ Forall (fun z => (z <= y)%Z) (valid_recent_years transcript)
  | None => valid_recent_years transcript = []
  end.
Proof.
  unfold graduation_fallback.
  destruct (valid_recent_years transcript) as [ | y years]; [reflexivity | ].
  split; [apply max_list_in | apply max_list_ge].
Qed.

End YearFacts.

(** C10.  A graduation year that is returned, with or without
    annotation, lies between 1950 and 2030: both the context rule and
    the fallback pass each candidate through [validate_year]. *)
Theorem graduation_year_in_range (transcript : string) (doc : option Doc) (year : Z) :
  extract_graduation_year transcript doc = Some year -> (1950 <= year <= 2030)%Z.
Proof.
  intros H. apply YearFacts.validate_year_range.
  assert (Hfb : forall y, graduation_fallback transcript = Some y -> validate_year y = true).
  { intros y Hy. pose proof (YearFacts.fallback_spec transcript) as Hs.
    rewrite Hy in Hs. destruct Hs as [Hin _]. apply filter_In in Hin. tauto. }
  unfold extract_graduation_year in H. destruct doc as [d | ]; [ | now apply Hfb].
  rewrite YearFacts.context_loop_first_some in H.
  pose proof (YearFacts.first_some_split sentence_year (doc_sents d)) as Hs.
  destruct (first_some sentence_year (doc_sents d)) as [y | ]; [ | now apply Hfb].
  injection H as <-. destruct Hs as (pre & s & post & _ & Hy & _).
  exact (YearFacts.sentence_year_valid _ _ Hy).
Qed.

Lemma graduation_year_in_range_witness : (1950 <= 2020 <= 2030)%Z.
Proof.
  apply (graduation_year_in_range "I joined in 2035 and left in 2020" None 2020).
  vm_compute. reflexivity.
Defined.

(** The recent-year pattern does match the years 2031 to 2039; the
    validator is what keeps them out of the result. *)
Lemma recent_pattern_beyond_2030 :
  findall1 RECENT_YEAR_PATTERN "batch of 2035, then 2039" = ["2035"; "2039"]
  /\ extract_graduation_year "batch of 2035, then 2039" None = None
  /\ extract_graduation_year "batch of 2035, then 2029" None = Some 2029%Z.
Proof. vm_compute. repeat split; reflexivity. Qed.

(** C5.  Without annotation, or when no sentence of the annotation
    yields a year, the result is the greatest of the valid years among
    the matches of the recent-year pattern in the transcript, and it is
    absent when there is no valid one.  These matches are the standalone
    tokens of the transcript that read as years of 2000..2039, all of
    them. *)
Theorem graduation_fallback_is_max (transcript : string) (doc : option Doc) :
  match doc with
  | Some d => graduation_context_loop (doc_sents d) = None
  | None => True
  end ->
  findall1 RECENT_YEAR_PATTERN transcript = recent_year_tokens transcript
  /\ Forall (fun z => (2000 <= z <= 2039)%Z) (map Py.int (recent_year_tokens transcript))
  /\ valid_recent_years transcript
     = List.filter validate_year (map Py.int (recent_year_tokens transcript))
  /\ match extract_graduation_year transcript doc with
     | Some y => In y (valid_recent_years transcript)
                 /\ Forall (fun z => (z <= y)%Z) (valid_recent_years transcript)
     | None => valid_recent_years transcript = []
     end.
Proof.
  intros H. split; [apply TokenFacts.findall_recent_tokens | split; [ | split]].
  - rewrite <- TokenFacts.findall_recent_tokens. apply NumeralFacts.recent_years_range.
  - unfold valid_recent_years. now rewrite TokenFacts.findall_recent_tokens.
  - unfold extract_graduation_year. destruct doc as [d | ].
    + rewrite H. apply YearFacts.fallback_spec.
    + apply YearFacts.fallback_spec.
Qed.

Lemma graduation_fallback_is_max_witness :
  extract_graduation_year "I joined in 2015 and moved on in 2020" None = Some 2020%Z
  /\ extract_graduation_year "I joined in 2015. I moved on in 2020."
       (Some {| doc_ents := []; doc_sents := ["I joined in 2015."; "I moved on in 2020."] |})
     = Some 2020%Z
  /\ findall1 RECENT_YEAR_PATTERN "I joined in 2015 and moved on in 2020"
     = recent_year_tokens "I joined in 2015 and moved on in 2020"
  /\ findall1 RECENT_YEAR_PATTERN "I joined in 2015. I moved on in 2020."
     = recent_year_tokens "I joined in 2015. I moved on in 2020.".
Proof.
  split; [vm_compute; reflexivity | split; [vm_compute; reflexivity | split]].
  - exact (proj1 (graduation_fallback_is_max "I joined in 2015 and moved on in 2020" None I)).
  - refine (proj1 (graduation_fallback_is_max "I joined in 2015. I moved on in 2020."
                     (Some {| doc_ents := [];
                              doc_sents := ["I joined in 2015."; "I moved on in 2020."] |}) _)).
    vm_compute. reflexivity.
Defined.

(** C4, as the code has it.  With an annotation, the sentences are gone
    through in order; a sentence yields a year when it carries a
    graduation keyword and the first match of the year pattern in it,
    which is its first standalone token that reads as a year of
    1900..2099, is a year of 1950..2030.  The result is the year of the
    first sentence that yields one: the sentences before it,
    graduation-context sentences included, yield none.  Only when no
    sentence yields a year is the fallback used. *)
Theorem graduation_context_first_yielding_sentence (transcript : string) (d : Doc) :
  extract_graduation_year transcript (Some d)
  = match first_some sentence_year (doc_sents d) with
    | Some y => Some y
    | None => graduation_fallback transcript
    end
  /\ match first_some sentence_year (doc_sents d) with
     | Some y =>
         exists pre sent post,
           doc_sents d = pre ++ sent :: post
           /\ sentence_year sent = Some y
           /\ Forall (fun s => sentence_year s = None) pre
     | None => Forall (fun s => sentence_year s = None) (doc_sents d)
     end
  /\ (forall sent,
        sentence_year sent
        = if has_graduation_keyword sent
          then match head (year_tokens sent) with
               | Some token =>
                   if validate_year (Py.int token) then Some (Py.int token) else None
               | None => None
               end
          else None)
  /\ (forall sent, Forall (fun token => (1900 <= Py.int token <= 2099)%Z) (year_tokens sent)).
Proof.
  split; [ | split; [ | split]].
  - unfold extract_graduation_year. now rewrite YearFacts.context_loop_first_some.
  - apply YearFacts.first_some_split.
  - intros sent. unfold sentence_year. rewrite <- TokenFacts.search_year_token.
    destruct (search YEAR_PATTERN sent); reflexivity.
  - intros sent. apply TokenFacts.year_tokens_range.
Qed.

(** C4 as the design document words it does not hold.  First annotation:
    the first sentence with a graduation keyword holds no year, and the
    year of a later sentence is returned (the stated rule gives no
    context year, and the fallback would give 2020).  Second annotation:
    the first year of the sentence is 1940, and the later 1975 of the
    same sentence is not taken. *)
Lemma graduation_context_not_first_sentence_only :
  let sents := ["I graduated from college."; "I finished school in 2010.";
                "I joined in 2020."] in
  let transcript := "I graduated from college. I finished school in 2010. I joined in 2020." in
  let sents' := ["I was born in 1940 and graduated in 1975."] in
  List.find has_graduation_keyword sents = Some "I graduated from college."
  /\ years_in "I graduated from college." = []
  /\ stated_context_year sents = None
  /\ graduation_fallback transcript = Some 2020%Z
  /\ extract_graduation_year transcript (Some {| doc_ents := []; doc_sents := sents |})
     = Some 2010%Z
  /\ stated_context_year sents' = Some 1975%Z
  /\ extract_graduation_year "I was born in 1940 and graduated in 1975."
       (Some {| doc_ents := []; doc_sents := sents' |}) = None.
Proof. vm_compute. repeat split; reflexivity. Qed.

(** C9, as the code has it.  With an annotation, the college is the
    first ORG span, blanks trimmed, that holds a college keyword, is 5 to
    100 characters long and is not, once lower-cased, one of
    "university", "college", "school"; the lead-in phrases are removed
    from it wherever they stand.  A span that is one of these three
    words is never selected. *)
Theorem extract_college_first_qualifying_org (transcript : string) (d : Doc) :
  extract_college transcript (Some d)
  = option_map remove_prefixes (List.find college_org_ok (ents_with "ORG" d))
  /\ match List.find college_org_ok (ents_with "ORG" d) with
     | Some org =>
         college_org_ok org = true /\
         exists pre post, ents_with "ORG" d = pre ++ org :: post
                          /\ Forall (fun o => college_org_ok o = false) pre
     | None => Forall (fun o => college_org_ok o = false) (ents_with "ORG" d)
     end
  /\ (forall org,
        college_org_ok org = true <->
        Py.any_in college_keywords (Py.lower org) = true
        /\ (5 <= Py.len org <= 100)%nat
        /\ ~ In (Py.lower org) ["university"; "college"; "school"]).
Proof.
  split; [ | split].
  - unfold extract_college. generalize (ents_with "ORG" d). intros orgs.
    induction orgs as [ | org orgs IH]; simpl; [reflexivity | ].
    destruct (college_org_ok org); [reflexivity | exact IH].
  - apply FirstMatch.find_split.
  - intros org. unfold college_org_ok. cbv zeta.
    rewrite !andb_true_iff, !Nat.leb_le, negb_true_iff.
    rewrite <- FirstMatch.mem_In, <- not_true_iff_false. tauto.
Qed.

(** C9 as the design document words it does not hold: a span that is
    the bare keyword "Institute" (or "Academy") is returned, a span made
    of a lead-in and a bare keyword comes back as the bare keyword, and
    a qualifying span of more than 100 characters is passed over. *)
Lemma bare_institute_is_returned :
  let org_doc := fun text => Some {| doc_ents := [{| ent_text := text; ent_label := "ORG" |}];
                                      doc_sents := [] |} in
  let long_name :=
    "The Very Long Named International Institute of Advanced Studies in Science, Technology, Engineering and Management" in
  Py.mem (Py.lower "Institute") college_keywords = true
  /\ stated_college_ok "Institute" = false
  /\ extract_college "I studied at the Institute" (org_doc "Institute") = Some "Institute"
  /\ extract_college "I joined the Academy" (org_doc "Academy") = Some "Academy"
  /\ extract_college "I am from University" (org_doc "from University") = Some "University"
  /\ stated_college_ok long_name = true
  /\ extract_college long_name (org_doc long_name) = None.
Proof. vm_compute. repeat split; reflexivity. Qed.

(* ===================================================================== *)
(** * Experience *)
(* ===================================================================== *)

Module ExperienceFacts.




End ExperienceFacts.


(* ===================================================================== *)
(** * Skills *)
(* ===================================================================== *)

Module SkillFacts.
Import Stdlib.Structures.OrderedTypeEx.

Lemma slt_trans a b c : slt a b -> slt b c -> slt a c.
Proof.
  unfold slt. intros H1 H2.
  apply String_as_OT.cmp_lt. apply String_as_OT.cmp_lt in H1, H2.
  exact (String_as_OT.lt_trans _ _ _ H1 H2).
Qed.

Lemma gt_slt a b : String.compare a b = Gt -> slt b a.
Proof.
  unfold slt. intros H. rewrite String.compare_antisym, H. reflexivity.
Qed.

Lemma insert_sorted_in x y l : In y (insert_sorted x l) <-> y = x \/ In y l.
Proof.
  induction l as [ | z l IH]; simpl.
  - intuition.
  - destruct (String.compare x z) eqn:E; simpl.
    + apply String.compare_eq_iff in E. subst. intuition.
    + intuition.
    + rewrite IH. intuition.
Qed.

Lemma sorted_set_in y l : In y (sorted_set l) <-> In y l.
Proof.
  unfold sorted_set. induction l as [ | x l IH]; simpl; [tauto | ].
  rewrite insert_sorted_in, IH. intuition.
Qed.

Lemma insert_sorted_sorted x l :
  StronglySorted slt l -> StronglySorted slt (insert_sorted x l).
Proof.
  induction 1 as [ | z l Hs IH Hz]; simpl.
  - repeat constructor.
  - destruct (String.compare x z) eqn:E.
    + now constructor.
    + constructor; [now constructor | ]. constructor; [exact E | ].
      apply List.Forall_forall. intros y Hy. rewrite List.Forall_forall in Hz.
      exact (slt_trans _ _ _ E (Hz y Hy)).
    + constructor; [exact IH | ].
      apply List.Forall_forall. intros y Hy. apply insert_sorted_in in Hy.
      destruct Hy as [-> | Hy]; [now apply gt_slt | ].
      rewrite List.Forall_forall in Hz. now apply Hz.
Qed.

Lemma sorted_set_sorted l : StronglySorted slt (sorted_set l).
Proof.
  unfold sorted_set. induction l as [ | x l IH]; simpl; [constructor | ].
  now apply insert_sorted_sorted.
Qed.

(** Two strictly increasing lists with the same elements are equal. *)
Lemma slt_irrefl a : ~ slt a a.
Proof.
  unfold slt. intros H. apply String_as_OT.cmp_lt in H.
  exact (String_as_OT.lt_not_eq _ _ H eq_refl).
Qed.

Lemma sorted_unique l1 : forall l2,
  StronglySorted slt l1 -> StronglySorted slt l2 ->
  (forall x, In x l1 <-> In x l2) -> l1 = l2.
Proof.
  induction l1 as [ | a l1 IH]; intros l2 H1 H2 Hin.
  - destruct l2 as [ | b l2]; [reflexivity | ].
    exfalso. apply (Hin b). now left.
  - destruct l2 as [ | b l2]; [exfalso; apply (Hin a); now left | ].
    inversion H1 as [ | ? ? H1s H1a]; subst. inversion H2 as [ | ? ? H2s H2b]; subst.
    rewrite List.Forall_forall in H1a, H2b.
    assert (a = b).
    { destruct (proj1 (Hin a) (or_introl eq_refl)) as [E | Ha]; [now symmetry | ].
      destruct (proj2 (Hin b) (or_introl eq_refl)) as [E | Hb]; [exact E | ].
      exfalso. apply (slt_irrefl a). exact (slt_trans _ _ _ (H1a _ Hb) (H2b _ Ha)). }
    subst b. f_equal. apply IH; try assumption.
    intros x. split; intros Hx.
    + destruct (proj1 (Hin x) (or_intror Hx)) as [E | Hx']; [ | exact Hx'].
      subst x. exfalso. exact (slt_irrefl a (H1a _ Hx)).
    + destruct (proj2 (Hin x) (or_intror Hx)) as [E | Hx']; [ | exact Hx'].
      subst x. exfalso. exact (slt_irrefl a (H2b _ Hx)).
Qed.

(** A token of [str.split()] holds no blank. *)
Lemma has_space_any s : has_space s = Py.any_chr (Ascii.eqb " ") s.
Proof.
  unfold has_space. induction s as [ | c s IH]; [reflexivity | ].
  cbn [Py.contains Py.any_chr]. rewrite IH. f_equal.
  cbn [String.prefix]. destruct (ascii_dec " " c) as [E | Hne].
  - rewrite <- E, Ascii.eqb_refl. now destruct s.
  - apply Ascii.eqb_neq in Hne. now rewrite Hne.
Qed.

Lemma any_chr_app p s1 s2 :
  Py.any_chr p (s1 ++ s2)%string = Py.any_chr p s1 || Py.any_chr p s2.
Proof.
  induction s1 as [ | c s1 IH]; [reflexivity | ].
  change (p c || Py.any_chr p (s1 ++ s2)%string
          = (p c || Py.any_chr p s1) || Py.any_chr p s2).
  now rewrite IH, orb_assoc.
Qed.

Lemma split_tokens_no_blank s : forall cur tok,
  Py.any_chr Py.isspace cur = false ->
  In tok (Py.split_ws_aux cur s) -> Py.any_chr Py.isspace tok = false.
Proof.
  induction s as [ | c s IH]; intros cur tok Hcur Hin; simpl in Hin.
  - destruct cur; [contradiction | ]. destruct Hin as [<- | []]. exact Hcur.
  - destruct (Py.isspace c) eqn:Ec.
    + destruct cur.
      * now apply (IH EmptyString).
      * destruct Hin as [<- | Hin]; [exact Hcur | now apply (IH EmptyString)].
    + apply (IH (cur ++ String c EmptyString)%string); [ | exact Hin].
      rewrite any_chr_app, Hcur. simpl. now rewrite Ec.
Qed.

Lemma token_no_space transcript skill :
  Py.mem skill (Py.split transcript) = true -> has_space skill = false.
Proof.
  intros H. apply FirstMatch.mem_In in H.
  apply (split_tokens_no_blank _ EmptyString) in H; [ | reflexivity].
  rewrite has_space_any.
  induction skill as [ | c s IH]; [reflexivity | ].
  cbn [Py.any_chr] in *. apply orb_false_iff in H. destruct H as [Hc Hs].
  rewrite (IH Hs), orb_false_r.
  destruct (Ascii.eqb " " c) eqn:E; [ | reflexivity].
  apply Ascii.eqb_eq in E. subst c. discriminate Hc.
Qed.

(** The titles that [extract_skills_with] collects are those of the
    skills found. *)
Lemma found_titles keywords transcript x :
  let transcript_lower := Py.lower transcript in
  let tokens := Py.split transcript_lower in
  In x (map Py.title
          (List.filter (fun skill => has_space skill && Py.contains skill transcript_lower)
                       keywords)
        ++ map Py.title (List.filter (fun s => Py.mem s tokens) keywords))
  <-> In x (map Py.title (List.filter (skill_found transcript) keywords)).
Proof.
  cbv zeta. rewrite in_app_iff, !in_map_iff. unfold skill_found. split.
  - intros [(k & <- & Hk) | (k & <- & Hk)]; exists k; (split; [reflexivity | ]);
      apply filter_In in Hk; apply filter_In; destruct Hk as [Hk Hf]; (split; [exact Hk | ]).
    + apply andb_true_iff in Hf. destruct Hf as [-> Hf]. exact Hf.
    + now rewrite (token_no_space _ _ Hf).
  - intros (k & <- & Hk). apply filter_In in Hk. destruct Hk as [Hk Hf].
    destruct (has_space k) eqn:E.
    + left. exists k. split; [reflexivity | ]. apply filter_In. now rewrite E, Hf.
    + right. exists k. split; [reflexivity | ]. now apply filter_In.
Qed.

Lemma extract_skills_with_spec keywords transcript :
  exists skills : list string,
    (forall x, In x skills <->
               In x (map Py.title (List.filter (skill_found transcript) keywords)))
    /\ StronglySorted slt skills
    /\ extract_skills_with keywords transcript
       = match skills with [] => None | _ => Some (Py.join ", " skills) end.
Proof.
  unfold extract_skills_with. cbv zeta.
  match goal with |- context [sorted_set ?l] => set (found_skills := l) end.
  exists (sorted_set found_skills). split; [ | split].
  - intros x. rewrite sorted_set_in. apply found_titles.
  - apply sorted_set_sorted.
  - reflexivity.
Qed.

End SkillFacts.

(** The result of [extract_skills] does not depend on the order in which
    the skills lexicon, a set, is gone through. *)
Lemma extract_skills_order_irrelevant (keywords : list string) (transcript : string) :
  Permutation SKILLS_KEYWORDS keywords ->
  extract_skills_with keywords transcript = extract_skills transcript.
Proof.
  intros Hp. unfold extract_skills.
  destruct (SkillFacts.extract_skills_with_spec keywords transcript) as (l1 & Hin1 & Hs1 & ->).
  destruct (SkillFacts.extract_skills_with_spec SKILLS_KEYWORDS transcript)
    as (l2 & Hin2 & Hs2 & ->).
  replace l1 with l2; [reflexivity | ].
  apply SkillFacts.sorted_unique; try assumption.
  intros x. rewrite Hin1, Hin2, !in_map_iff.
  split; intros (k & <- & Hk); exists k; (split; [reflexivity | ]);
    apply filter_In in Hk; apply filter_In; destruct Hk as [Hk Hf]; (split; [ | exact Hf]).
  - exact (Permutation_in _ Hp Hk).
  - exact (Permutation_in _ (Permutation_sym Hp) Hk).
Qed.


(* ===================================================================== *)
(** * Degree *)
(* ===================================================================== *)

Module DegreeFacts.

Lemma insert_by_len_perm x l : Permutation (x :: l) (insert_by_len x l).
Proof.
  induction l as [ | y l IH]; simpl; [reflexivity | ].
  destruct (Py.len x <? Py.len y)%nat; [ | reflexivity].
  rewrite perm_swap. now apply perm_skip.
Qed.

Lemma sorted_by_len_perm l : Permutation l (sorted_by_len_desc l).
Proof.
  unfold sorted_by_len_desc. induction l as [ | x l IH]; simpl; [reflexivity | ].
  rewrite <- insert_by_len_perm. now apply perm_skip.
Qed.

Lemma insert_by_len_sorted x l :
  StronglySorted longer_first l -> StronglySorted longer_first (insert_by_len x l).
Proof.
  induction 1 as [ | y l Hs IH Hy]; simpl.
  - repeat constructor.
  - destruct (Py.len x <? Py.len y)%nat eqn:E.
    + apply Nat.ltb_lt in E. constructor; [exact IH | ].
      apply List.Forall_forall. intros z Hz.
      apply (Permutation_in _ (Permutation_sym (insert_by_len_perm x l))) in Hz.
      destruct Hz as [<- | Hz]; [unfold longer_first; lia | ].
      rewrite List.Forall_forall in Hy. now apply Hy.
    + apply Nat.ltb_ge in E. constructor; [now constructor | ].
      constructor; [exact E | ].
      apply List.Forall_forall. intros z Hz. rewrite List.Forall_forall in Hy.
      specialize (Hy z Hz). unfold longer_first in *. lia.
Qed.

Lemma sorted_by_len_sorted l : StronglySorted longer_first (sorted_by_len_desc l).
Proof.
  unfold sorted_by_len_desc. induction l as [ | x l IH]; simpl; [constructor | ].
  now apply insert_by_len_sorted.
Qed.

(** In a list sorted by decreasing length, the first element that
    passes a test is at least as long as each element that passes it. *)
Lemma sorted_after {A} (R : A -> A -> Prop) pre x post :
  StronglySorted R (pre ++ x :: post) -> Forall (R x) post.
Proof.
  induction pre as [ | y pre IH]; simpl; intros H; inversion H; subst; auto.
Qed.

Lemma first_accepted_longest (f : string -> bool) l spec :
  StronglySorted longer_first l -> List.find f l = Some spec ->
  Forall (fun s => f s = true -> (Py.len s <= Py.len spec)%nat) l.
Proof.
  intros Hs Hf. pose proof (FirstMatch.find_split f l) as H. rewrite Hf in H.
  destruct H as (_ & pre & post & -> & Hpre).
  apply sorted_after in Hs. apply Forall_app. split; [ | constructor].
  - apply List.Forall_forall. intros s Hin Hacc.
    rewrite List.Forall_forall in Hpre. rewrite (Hpre s Hin) in Hacc. discriminate.
  - intros _. lia.
  - apply List.Forall_forall. intros s Hin _.
    rewrite List.Forall_forall in Hs. exact (Hs s Hin).
Qed.

(** Once rule 1 has a match and an accepted specialization, it decides. *)
Lemma rule1_decides transcript doc m spec :
  search degree_in_pattern transcript = Some m ->
  List.find (spec_accepts (Py.lower (Py.strip (group1 m)))) sorted_specs = Some spec ->
  extract_degree transcript doc = degree_in_result transcript (mo_start m) spec.
Proof.
  intros Hm Hs. unfold extract_degree, degree_rule1. cbv zeta. now rewrite Hm, Hs.
Qed.

Lemma bachelor_only_result transcript pos spec :
  let context_before := Py.slice_to pos (Py.lower transcript) in
  let context_after := Py.slice pos (pos + 200) (Py.lower transcript) in
  existsb (in_context context_before context_after) bachelor_indicators = true ->
  existsb (in_context context_before context_after) master_indicators = false ->
  degree_in_result transcript pos spec
  = Some (bachelor_result context_before context_after spec).
Proof.
  cbv zeta. intros Hb Hm. unfold degree_in_result. cbv zeta. now rewrite Hb, Hm.
Qed.

(** [s.find] and [s.rfind] succeed on a substring. *)
Lemma contains_find sub : forall s i,
  Py.contains sub s = true -> exists j, Py.find_from i sub s = Some j.
Proof.
  induction s as [ | c s IH]; intros i H; cbn [Py.contains Py.find_from] in *.
  - destruct (String.prefix sub ""); [eauto | discriminate].
  - destruct (String.prefix sub (String c s)); [eauto | ]. now apply IH.
Qed.

Lemma contains_rfind sub : forall s i,
  Py.contains sub s = true -> exists j, Py.rfind_from i sub s = Some j.
Proof.
  induction s as [ | c s IH]; intros i H; cbn [Py.contains Py.rfind_from] in *.
  - destruct (String.prefix sub ""); [eauto | discriminate].
  - destruct (Py.rfind_from (S i) sub s) as [j | ] eqn:E; [eauto | ].
    destruct (String.prefix sub (String c s)); [eauto | ].
    destruct (IH (S i) H) as [j Hj]. congruence.
Qed.

Lemma positions_nonneg indicators before after pos :
  Forall (fun p => (0 <= p)%Z) (indicator_positions indicators before after (Z.of_nat pos)).
Proof.
  unfold indicator_positions. apply Forall_app. split; apply List.Forall_forall;
    intros p Hp; apply in_map_iff in Hp; destruct Hp as (ind & <- & Hin);
    apply filter_In in Hin; destruct Hin as [_ Hc].
  - unfold rfind_z, Py.rfind. destruct (contains_rfind _ _ 0%nat Hc) as [j ->]. lia.
  - unfold find_z, Py.find. destruct (contains_find _ _ 0%nat Hc) as [j ->]. lia.
Qed.

Lemma closest_defined positions pos :
  positions <> [] -> Forall (fun p => (0 <= p)%Z) positions ->
  exists c, closest positions pos = Some c.
Proof.
  intros Hne Hall. unfold closest. destruct positions as [ | p rest]; [contradiction | ].
  inversion Hall as [ | ? ? Hp _]; subst. cbn [List.filter].
  apply Z.leb_le in Hp. rewrite Hp. cbn [map py_min]. eauto.
Qed.

(** The body of rule 1 always produces a degree: the [min] of its
    both-levels branch is never taken of an empty list. *)
Lemma degree_in_result_defined transcript pos spec :
  exists result, degree_in_result transcript pos spec = Some result.
Proof.
  unfold degree_in_result. cbv zeta.
  destruct (existsb _ master_indicators), (existsb _ bachelor_indicators); cbn [andb negb];
    eauto.
  set (mp := indicator_positions master_indicators _ _ _).
  set (bp := indicator_positions bachelor_indicators _ _ _).
  destruct mp as [ | m mp'] eqn:Em; [eauto | ].
  destruct bp as [ | b bp'] eqn:Eb; [eauto | ].
  destruct (closest_defined (m :: mp') (Z.of_nat pos)) as [cm ->];
    [discriminate | rewrite <- Em; apply positions_nonneg | ].
  destruct (closest_defined (b :: bp') (Z.of_nat pos)) as [cb ->];
    [discriminate | rewrite <- Eb; apply positions_nonneg | ].
  destruct (cm <? cb)%Z; eauto.
Qed.

End DegreeFacts.

(** C3.  On the transcript of the design document the degree is
    "B.Tech in Computer Science Engineering", whatever the annotation.
    In the rule "degree in <phrase>", the candidates are the
    specializations ordered by decreasing length; the one chosen is the
    first that is a substring of the phrase or has the phrase as a
    substring, so that no accepted candidate is longer; and when
    bachelor indicators are present and master indicators are not, the
    level is B.E. if one of its indicators is present, else B.Tech, else
    Bachelor's, else none. *)
Theorem degree_in_rule_bachelor_refinement :
  (forall doc : option Doc,
     extract_degree "I completed my degree in computer science engineering, it was a B.Tech" doc
     = Some "B.Tech in Computer Science Engineering")
  /\ Permutation SPECIALIZATIONS sorted_specs
  /\ StronglySorted (fun a b => (Py.len b <= Py.len a)%nat) sorted_specs
  /\ (forall (transcript : string) (doc : option Doc) (m : match_obj),
        search degree_in_pattern transcript = Some m ->
        let spec_mentioned := Py.lower (Py.strip (group1 m)) in
        match List.find (spec_accepts spec_mentioned) sorted_specs with
        | Some spec =>
            (Py.contains spec spec_mentioned || Py.contains spec_mentioned spec = true)
            /\ (exists pre post,
                  sorted_specs = pre ++ spec :: post
                  /\ Forall (fun s => Py.contains s spec_mentioned
                                      || Py.contains spec_mentioned s = false) pre)
            /\ Forall (fun s => Py.contains s spec_mentioned
                                || Py.contains spec_mentioned s = true ->
                                (Py.len s <= Py.len spec)%nat) sorted_specs
            /\ extract_degree transcript doc = degree_in_result transcript (mo_start m) spec
        | None =>
            Forall (fun s => Py.contains s spec_mentioned
                             || Py.contains spec_mentioned s = false) sorted_specs
        end)
  /\ (forall (transcript : string) (pos : nat) (spec : string),
        let context_before := Py.slice_to pos (Py.lower transcript) in
        let context_after := Py.slice pos (pos + 200) (Py.lower transcript) in
        let present := existsb (in_context context_before context_after) in
        present bachelor_indicators = true ->
        present master_indicators = false ->
        degree_in_result transcript pos spec
        = Some (if present ["b.e"; "b e"; "b.e."] then "B.E. in " ++ Py.title spec
                else if present ["b.tech"; "btech"; "b.tech."] then "B.Tech in " ++ Py.title spec
                else if present ["bachelor"; "bachelors"] then "Bachelor's in " ++ Py.title spec
                else Py.title spec)%string).
Proof.
  split; [ | split; [ | split; [ | split]]].
  - intros doc. vm_compute. reflexivity.
  - apply DegreeFacts.sorted_by_len_perm.
  - apply DegreeFacts.sorted_by_len_sorted.
  - intros transcript doc m Hm. cbv zeta.
    pose proof (FirstMatch.find_split
                  (spec_accepts (Py.lower (Py.strip (group1 m)))) sorted_specs) as Hf.
    destruct (List.find _ sorted_specs) as [spec | ] eqn:E; [ | exact Hf].
    destruct Hf as (Hacc & pre & post & Hl & Hpre).
    split; [exact Hacc | split; [eauto | split]].
    + exact (DegreeFacts.first_accepted_longest _ _ _
               (DegreeFacts.sorted_by_len_sorted SPECIALIZATIONS) E).
    + now apply DegreeFacts.rule1_decides.
  - intros transcript pos spec. cbv zeta. intros Hb Hm.
    now rewrite DegreeFacts.bachelor_only_result.
Qed.

Lemma degree_in_rule_bachelor_refinement_witness :
  degree_in_result "I completed my degree in computer science engineering, it was a B.Tech"
                   15 "computer science engineering"
  = Some "B.Tech in Computer Science Engineering".
Proof.
  destruct degree_in_rule_bachelor_refinement as (_ & _ & _ & _ & H).
  rewrite (H "I completed my degree in computer science engineering, it was a B.Tech"
             15%nat "computer science engineering");
    vm_compute; reflexivity.
Defined.

Module Complete.
Import ReSem ReFacts PyFacts.

Lemma same_position_refl st : same_position st st.
Proof. repeat split. Qed.

Lemma same_position_sym st1 st2 : same_position st1 st2 -> same_position st2 st1.
Proof. intros (H1 & H2 & H3). repeat split; congruence. Qed.

Lemma same_position_trans st1 st2 st3 :
  same_position st1 st2 -> same_position st2 st3 -> same_position st1 st3.
Proof. intros (H1 & H2 & H3) (H4 & H5 & H6). repeat split; congruence. Qed.

Lemma matches_prev r st w st' :
  matches r st w st' -> m_prev st' = prev_after (m_prev st) w.
Proof.
  unfold prev_after. induction 1; simpl; auto.
  - rewrite fold_left_app. congruence.
  - rewrite fold_left_app. congruence.
Qed.

Lemma matches_empty r st st' : matches r st [] st' -> same_position st' st.
Proof.
  intros H. pose proof (matches_prev _ _ _ _ H) as Hp.
  apply matches_rest in H. destruct H as [Hr Hn]. simpl in *.
  repeat split; [exact Hp | lia | congruence].
Qed.

(** The matcher finds a match whenever the pattern describes one: the
    continuation is reached on a state at the same position as the end
    of any described match, unless an earlier alternative succeeds. *)
Lemma rmatch_complete_gen r st w st' :
  matches r st w st' ->
  forall (R : Type) (k : mstate -> option R) (st0 : mstate),
    same_position st0 st ->
    (forall st1, same_position st1 st' -> is_Some (k st1)) ->
    is_Some (rmatch r st0 k) /\
    (forall a fuel, r = Star a -> (List.length (m_rest st0) < fuel)%nat ->
                    is_Some (star_loop (rmatch a) k fuel st0)).
Proof.
  induction 1; intros R k st0 Hs Hk.
  - split; [ | discriminate]. cbn [rmatch]. apply Hk. exact Hs.
  - split; [ | discriminate]. cbn [rmatch].
    destruct Hs as (Hs1 & Hs2 & Hs3). rewrite Hs3, H, H0. apply Hk.
    unfold same_position, advance. simpl. rewrite Hs2. auto.
  - split; [ | discriminate]. cbn [rmatch].
    apply (IHmatches1 R _ st0 Hs). intros st1' Hs1.
    apply (IHmatches2 R k st1' Hs1 Hk).
  - split; [ | discriminate]. cbn [rmatch].
    destruct (IHmatches R k st0 Hs Hk) as [[x Hx] _]. rewrite Hx. eauto.
  - split; [ | discriminate]. cbn [rmatch].
    destruct (rmatch a st0 k); [eauto | ].
    apply (IHmatches R k st0 Hs Hk).
  - assert (Hloop : forall fuel, is_Some (star_loop (rmatch a) k fuel st0)).
    { intros [ | fuel]; simpl; [now apply Hk | ].
      match goal with |- is_Some (match ?e with _ => _ end) => destruct e end;
        [eauto | now apply Hk]. }
    split; [cbn [rmatch]; apply Hloop | ].
    intros a' fuel E _. injection E as <-. apply Hloop.
  - assert (Hloop : forall fuel, (List.length (m_rest st0) < fuel)%nat ->
                                 is_Some (star_loop (rmatch a) k fuel st0)).
    { intros fuel Hfuel. destruct w1 as [ | c w1].
      - (* an empty iteration: the rest of the derivation is one from here *)
        apply matches_empty in H.
        destruct (IHmatches2 R k st0 (same_position_trans _ _ _ Hs (same_position_sym _ _ H)) Hk)
          as [_ Hl].
        now apply (Hl a fuel eq_refl).
      - destruct fuel as [ | fuel]; [lia | ]. cbn [star_loop].
        pose proof (matches_rest _ _ _ _ H) as [Hr Hp].
        match goal with
        | |- is_Some (match rmatch a st0 ?kk with _ => _ end) =>
            assert (Hb : is_Some (rmatch a st0 kk))
        end.
        { apply (IHmatches1 R _ st0 Hs). intros st1' Hs1.
          destruct Hs as (_ & Hs2 & Hs3). destruct Hs1 as (Hq1 & Hq2 & Hq3).
          assert (Hlt : (m_pos st0 <? m_pos st1')%nat = true).
          { apply Nat.ltb_lt. rewrite Hq2, Hp, Hs2. simpl. lia. }
          rewrite Hlt.
          destruct (IHmatches2 R k st1' (conj Hq1 (conj Hq2 Hq3)) Hk) as [_ Hl].
          apply (Hl a fuel eq_refl).
          rewrite Hq3. rewrite Hs3, Hr in Hfuel. rewrite length_app in Hfuel.
          simpl in Hfuel. lia. }
        destruct Hb as [x Hx]. rewrite Hx. eauto. }
    split; [cbn [rmatch]; apply Hloop; lia | ].
    intros a' fuel E Hfuel. injection E as <-. now apply Hloop.
  - split; [ | discriminate]. cbn [rmatch].
    apply (IHmatches R _ st0 Hs). intros st1 Hs1. apply Hk.
    destruct Hs1 as (Hq1 & Hq2 & Hq3). unfold set_cap. simpl. repeat split; assumption.
  - split; [ | discriminate]. cbn [rmatch].
    assert (E : at_boundary st0 = true).
    { unfold at_boundary in *. destruct Hs as (-> & _ & ->). exact H. }
    rewrite E. apply Hk. exact Hs.
  - split; [ | discriminate]. cbn [rmatch].
    assert (E : at_bol st0 = true).
    { unfold at_bol in *. destruct Hs as (-> & _ & _). exact H. }
    rewrite E. apply Hk. exact Hs.
Qed.

Lemma rmatch_complete r st w st' (R : Type) (k : mstate -> option R) :
  matches r st w st' ->
  (forall st1, same_position st1 st' -> is_Some (k st1)) ->
  is_Some (rmatch r st k).
Proof.
  intros Hm Hk. apply (rmatch_complete_gen r st w st' Hm R k st (same_position_refl st) Hk).
Qed.


End Complete.

Module Transport.
Import ReSem ReFacts PyFacts Complete.

Lemma chars_lower s : chars (Py.lower s) = map Py.lower_chr (chars s).
Proof. induction s as [ | c s IH]; simpl; [reflexivity | now rewrite IH]. Qed.



Lemma prev_after_app prev w1 w2 :
  prev_after prev (w1 ++ w2) = prev_after (prev_after prev w1) w2.
Proof. unfold prev_after. apply fold_left_app. Qed.

Lemma moved_app st w1 w2 : moved st (w1 ++ w2) = moved (moved st w1) w2.
Proof.
  unfold moved. simpl. rewrite prev_after_app, length_app, Nat.add_assoc.
  f_equal. now rewrite drop_drop.
Qed.

Lemma moved_nil st : moved st [] = st.
Proof. destruct st. unfold moved. simpl. now rewrite Nat.add_0_r. Qed.


End Transport.

Module SplitFacts.
Import PyFacts.

Lemma append_nil_r (s : string) : (s ++ EmptyString)%string = s.
Proof. induction s as [ | c s IH]; [reflexivity | ]. change (String c (s ++ EmptyString)%string = String c s). now rewrite IH. Qed.

Lemma append_assoc (a b c : string) : ((a ++ b) ++ c)%string = (a ++ (b ++ c))%string.
Proof.
  induction a as [ | x a IH]; [reflexivity | ].
  change (String x ((a ++ b) ++ c)%string = String x (a ++ (b ++ c))%string). now rewrite IH.
Qed.

Lemma append_cons c (a b : string) : (String c a ++ b)%string = String c (a ++ b)%string.
Proof. reflexivity. Qed.

Lemma len_append (a b : string) : Py.len (a ++ b)%string = (Py.len a + Py.len b)%nat.
Proof.
  unfold Py.len. induction a as [ | x a IH]; [reflexivity | ].
  rewrite append_cons. simpl. now rewrite IH.
Qed.

(** [str.split()] reads a word in one go. *)
Lemma split_aux_word t : forall cur s,
  Py.any_chr Py.isspace t = false ->
  Py.split_ws_aux cur (t ++ s)%string = Py.split_ws_aux (cur ++ t)%string s.
Proof.
  induction t as [ | c t IH]; intros cur s Ht.
  - now rewrite append_nil_r.
  - cbn [Py.any_chr] in Ht. apply orb_false_iff in Ht. destruct Ht as [Hc Ht].
    rewrite append_cons. cbn [Py.split_ws_aux]. rewrite Hc.
    rewrite (IH _ _ Ht), append_assoc. reflexivity.
Qed.

Lemma token_spec t :
  is_word_token t = true <-> t <> EmptyString /\ Py.any_chr Py.isspace t = false.
Proof.
  unfold is_word_token. rewrite andb_true_iff, !negb_true_iff. split.
  - intros [H1 H2]. split; [ | exact H2]. intros ->. discriminate.
  - intros [H1 H2]. split; [ | exact H2]. destruct t; [contradiction | reflexivity].
Qed.

(** The words of a text are words. *)
Lemma split_aux_tokens s : forall cur,
  Py.any_chr Py.isspace cur = false ->
  Forall (fun t => is_word_token t = true) (Py.split_ws_aux cur s).
Proof.
  induction s as [ | c s IH]; intros cur Hcur; simpl.
  - destruct cur; [constructor | ]. constructor; [ | constructor].
    apply token_spec. split; [discriminate | exact Hcur].
  - destruct (Py.isspace c) eqn:Ec.
    + destruct cur; [now apply IH | ].
      constructor; [ | now apply IH]. apply token_spec. split; [discriminate | exact Hcur].
    + apply IH. rewrite SkillFacts.any_chr_app, Hcur. simpl. now rewrite Ec.
Qed.

Lemma split_tokens s : Forall (fun t => is_word_token t = true) (Py.split s).
Proof. now apply split_aux_tokens. Qed.

Lemma join_cons sep t t2 l :
  Py.join sep (t :: t2 :: l) = (t ++ sep ++ Py.join sep (t2 :: l))%string.
Proof. reflexivity. Qed.

(** Joining words with one blank and splitting again gives the words. *)
Lemma split_join l :
  Forall (fun t => is_word_token t = true) l -> Py.split (Py.join " " l) = l.
Proof.
  unfold Py.split. induction 1 as [ | t l Ht Hl IH]; [reflexivity | ].
  apply token_spec in Ht. destruct Ht as [Hne Hns].
  destruct l as [ | t2 l].
  - change (Py.join " " [t]) with t. rewrite <- (append_nil_r t) at 1.
    rewrite split_aux_word by exact Hns. simpl. destruct t; [contradiction | reflexivity].
  - rewrite join_cons, split_aux_word by exact Hns.
    change (" " ++ Py.join " " (t2 :: l))%string with (String " " (Py.join " " (t2 :: l))).
    cbn [Py.split_ws_aux String.append]. change (Py.isspace " ") with true. cbv iota.
    destruct t; [contradiction | ]. now rewrite IH.
Qed.

Lemma join_split_join l :
  Forall (fun t => is_word_token t = true) l ->
  Py.join " " (Py.split (Py.join " " l)) = Py.join " " l.
Proof. intros H. now rewrite split_join. Qed.

(** [rstrip] on a concatenation. *)
Lemma rstrip_app a b :
  Py.rstrip (a ++ b)%string
  = match Py.rstrip b with
    | EmptyString => Py.rstrip a
    | rb => (a ++ rb)%string
    end.
Proof.
  induction a as [ | c a IH].
  - change (EmptyString ++ b)%string with b. destruct (Py.rstrip b); reflexivity.
  - rewrite append_cons. cbn [Py.rstrip]. rewrite IH.
    destruct (Py.rstrip b) as [ | d rb]; [reflexivity | ].
    rewrite append_cons. destruct a; reflexivity.
Qed.

Lemma rstrip_len s : (Py.len (Py.rstrip s) <= Py.len s)%nat.
Proof.
  unfold Py.len. induction s as [ | c s IH]; simpl; [lia | ].
  destruct (Py.rstrip s); [destruct (Py.isspace c); simpl; lia | simpl in *; lia].
Qed.

Lemma lstrip_len s : (Py.len (Py.lstrip s) <= Py.len s)%nat.
Proof.
  unfold Py.len. induction s as [ | c s IH]; simpl; [lia | ].
  destruct (Py.isspace c); simpl; lia.
Qed.

Lemma strip_len s : (Py.len (Py.strip s) <= Py.len s)%nat.
Proof.
  unfold Py.strip. pose proof (rstrip_len (Py.lstrip s)). pose proof (lstrip_len s). lia.
Qed.

(** A text without blank is left alone by [strip]. *)
Lemma rstrip_no_space t : Py.any_chr Py.isspace t = false -> Py.rstrip t = t.
Proof.
  induction t as [ | c t IH]; [reflexivity | ]. cbn [Py.any_chr Py.rstrip].
  intros H. apply orb_false_iff in H. destruct H as [Hc Ht]. rewrite (IH Ht), Hc.
  now destruct t.
Qed.



Lemma substring_app a : forall n b,
  String.substring 0 n (a ++ b)%string
  = if (n <=? Py.len a)%nat then String.substring 0 n a
    else (a ++ String.substring 0 (n - Py.len a) b)%string.
Proof.
  unfold Py.len. induction a as [ | c a IH]; intros n b.
  - simpl. destruct n; simpl; [now destruct b | reflexivity].
  - rewrite append_cons. destruct n as [ | n]; [reflexivity | ].
    cbn [String.substring String.length]. rewrite IH.
    change (S n <=? S (String.length a))%nat with (n <=? String.length a)%nat.
    destruct (n <=? String.length a)%nat; [reflexivity | ].
    rewrite append_cons. reflexivity.
Qed.

Lemma substring_no_space t : forall n,
  Py.any_chr Py.isspace t = false -> Py.any_chr Py.isspace (String.substring 0 n t) = false.
Proof.
  induction t as [ | c t IH]; intros n H; [now destruct n | ].
  destruct n as [ | n]; [reflexivity | ]. cbn [String.substring Py.any_chr] in *.
  apply orb_false_iff in H. destruct H as [Hc Ht]. now rewrite Hc, IH.
Qed.

Lemma substring_len s : forall n, (Py.len (String.substring 0 n s) <= n)%nat.
Proof.
  unfold Py.len. induction s as [ | c s IH]; intros [ | n]; simpl; try lia.
  specialize (IH n). lia.
Qed.

Lemma substring_all s : forall n, (Py.len s <= n)%nat -> String.substring 0 n s = s.
Proof.
  unfold Py.len. induction s as [ | c s IH]; intros [ | n] H; simpl in *; try reflexivity; try lia.
  rewrite IH by lia. reflexivity.
Qed.

(** The start of a joined list of words: [lstrip] leaves it alone. *)
Lemma lstrip_join_prefix l n :
  Forall (fun t => is_word_token t = true) l ->
  Py.lstrip (String.substring 0 n (Py.join " " l)) = String.substring 0 n (Py.join " " l).
Proof.
  intros Hl. destruct Hl as [ | t l Ht Hl]; [now destruct n | ].
  apply token_spec in Ht. destruct Ht as [Hne Hns].
  destruct t as [ | c t]; [contradiction | ].
  cbn [Py.any_chr] in Hns. apply orb_false_iff in Hns. destruct Hns as [Hc _].
  assert (E : exists tl, Py.join " " (String c t :: l) = String c tl).
  { unfold Py.join. destruct l; simpl; eauto. }
  destruct E as [tl ->]. destruct n; [reflexivity | ]. simpl. now rewrite Hc.
Qed.

(** Cutting a joined list of words and stripping the cut gives a joined
    list of words again. *)
Lemma strip_cut_join l : forall n,
  Forall (fun t => is_word_token t = true) l ->
  exists l', Forall (fun t => is_word_token t = true) l' /\
             Py.strip (String.substring 0 n (Py.join " " l)) = Py.join " " l'.
Proof.
  induction l as [ | t l IH]; intros n Hl.
  - exists []. split; [constructor | ]. now destruct n.
  - inversion Hl as [ | ? ? Ht Hl']; subst.
    unfold Py.strip. rewrite (lstrip_join_prefix _ n Hl).
    pose proof Ht as Ht'. apply token_spec in Ht'. destruct Ht' as [Hne Hns].
    assert (Hcut : forall m, exists l', Forall (fun t => is_word_token t = true) l' /\
                     Py.rstrip (String.substring 0 m t) = Py.join " " l').
    { intros m. rewrite rstrip_no_space by now apply substring_no_space.
      destruct (String.substring 0 m t) as [ | c u] eqn:E.
      - exists []. split; [constructor | reflexivity].
      - exists [String c u]. split; [ | reflexivity]. constructor; [ | constructor].
        apply token_spec. split; [discriminate | ].
        rewrite <- E. now apply substring_no_space. }
    destruct l as [ | t2 l].
    + change (Py.join " " [t]) with t. apply Hcut.
    + rewrite join_cons, substring_app.
      destruct (n <=? Py.len t)%nat; [apply Hcut | ].
      change (" " ++ Py.join " " (t2 :: l))%string with (String " " (Py.join " " (t2 :: l))).
      destruct (n - Py.len t)%nat as [ | m] eqn:En.
      * cbn [String.substring]. rewrite append_nil_r, rstrip_no_space by exact Hns.
        exists [t]. split; [now constructor | reflexivity].
      * cbn [String.substring].
        change (t ++ String " " (String.substring 0 m (Py.join " " (t2 :: l))))%string
          with (t ++ (" " ++ String.substring 0 m (Py.join " " (t2 :: l))))%string.
        rewrite <- append_assoc, rstrip_app.
        destruct (IH m Hl') as (l' & Hl'' & E).
        unfold Py.strip in E. rewrite (lstrip_join_prefix _ m Hl') in E.
        rewrite E.
        destruct l' as [ | u l'].
        { change (Py.join " " []) with EmptyString. cbv iota.
          rewrite rstrip_app. cbn [Py.rstrip].
          change (Py.isspace " ") with true. cbv iota.
          rewrite rstrip_no_space by exact Hns.
          exists [t]. split; [now constructor | reflexivity]. }
        { assert (Hu : exists c tl, Py.join " " (u :: l') = String c tl).
          { inversion Hl'' as [ | ? ? Hu _]; subst. apply token_spec in Hu.
            destruct Hu as [Hu _]. destruct u; [contradiction | ].
            destruct l'; [now eexists _, _ | ]. rewrite join_cons, append_cons. eauto. }
          destruct Hu as (c & tl & Hu). rewrite Hu.
          exists (t :: u :: l'). split; [now constructor | ].
          rewrite join_cons, <- Hu, append_assoc. reflexivity. }
Qed.

End SplitFacts.

Module SanitizeFacts.
Import PyFacts SplitFacts.

Lemma strip_join l :
  Forall (fun t => is_word_token t = true) l -> Py.strip (Py.join " " l) = Py.join " " l.
Proof.
  intros Hl. unfold Py.strip.
  pose proof (lstrip_join_prefix l (Py.len (Py.join " " l)) Hl) as E.
  rewrite substring_all in E by lia. rewrite E. clear E.
  induction Hl as [ | t l Ht Hl IH]; [reflexivity | ].
  apply token_spec in Ht. destruct Ht as [Hne Hns].
  destruct l as [ | t2 l]; [now apply rstrip_no_space | ].
  rewrite join_cons, <- append_assoc, rstrip_app, IH.
  assert (Hu : exists c tl, Py.join " " (t2 :: l) = String c tl).
  { inversion Hl as [ | ? ? Hu _]; subst. apply token_spec in Hu.
    destruct Hu as [Hu _]. destruct t2; [contradiction | ].
    destruct l; [now eexists _, _ | ]. rewrite join_cons, append_cons. eauto. }
  destruct Hu as (c & tl & ->). reflexivity.
Qed.

Lemma slice_to_int_sub stop s : exists n, slice_to_int stop s = String.substring 0 n s.
Proof. unfold slice_to_int. destruct (stop <? 0)%Z; eauto. Qed.

Lemma slice_to_int_len stop s : (0 <= stop)%Z -> (Z.of_nat (Py.len (slice_to_int stop s)) <= stop)%Z.
Proof.
  intros H. unfold slice_to_int. destruct (stop <? 0)%Z eqn:E; [lia | ].
  pose proof (substring_len s (Z.to_nat stop)). lia.
Qed.

(** What [sanitize_string] returns on a non-empty text. *)
Lemma sanitize_string_words v max_length :
  v <> EmptyString ->
  exists words,
    Forall (fun t => is_word_token t = true) words /\
    Db.sanitize_string (Some v) max_length = Some (Py.join " " words) /\
    ((0 <= max_length)%Z -> (Z.of_nat (Py.len (Py.join " " words)) <= max_length)%Z) /\
    ((Z.of_nat (Py.len (Py.join " " (Py.split v))) <= max_length)%Z -> words = Py.split v).
Proof.
  intros Hv. destruct v as [ | c v]; [contradiction | ]. cbn [Db.sanitize_string].
  set (u := Py.join " " (Py.split (String c v))).
  pose proof (split_tokens (String c v)) as Ht.
  destruct (max_length <? Z.of_nat (Py.len u))%Z eqn:E.
  - destruct (slice_to_int_sub max_length u) as [n En]. rewrite En.
    destruct (strip_cut_join _ n Ht) as (l' & Hl' & El). fold u in El.
    exists l'. rewrite El. split; [exact Hl' | split; [reflexivity | split]].
    + intros Hpos. rewrite <- El, <- En.
      pose proof (strip_len (slice_to_int max_length u)).
      pose proof (slice_to_int_len max_length u Hpos). lia.
    + apply Z.ltb_lt in E. lia.
  - exists (Py.split (String c v)). subst u. rewrite (strip_join _ Ht).
    apply Z.ltb_ge in E. repeat split; auto.
Qed.

End SanitizeFacts.

(** X1.  [sanitize_string] returns [None] on [None] and on the empty text
    only.  Otherwise its result is a list of words joined by single
    blanks: no blank at either end, no other white space, no two blanks
    in a row; splitting and joining it again, or stripping it, changes
    nothing.  For a limit that is not negative the result is no longer
    than the limit, and when the joined words of the input fit into the
    limit they are the result. *)
Theorem sanitize_string_normal_form (value : option string) (max_length : Z) :
  match Db.sanitize_string value max_length with
  | Some r =>
      (exists words, Forall (fun t => is_word_token t = true) words /\ r = Py.join " " words)
      /\ Py.join " " (Py.split r) = r
      /\ Py.strip r = r
      /\ ((0 <= max_length)%Z -> (Z.of_nat (Py.len r) <= max_length)%Z)
      /\ (forall v, value = Some v ->
            (Z.of_nat (Py.len (Py.join " " (Py.split v))) <= max_length)%Z ->
            r = Py.join " " (Py.split v))
  | None => value = None \/ value = Some EmptyString
  end.
Proof.
  destruct value as [[ | c v] | ]; [now right | | now left].
  destruct (SanitizeFacts.sanitize_string_words (String c v) max_length) as
    (words & Hw & E & Hlen & Hfit); [discriminate | ].
  rewrite E.
  split; [now exists words | ].
  split; [now rewrite SplitFacts.split_join | ].
  split; [now apply SanitizeFacts.strip_join | ].
  split; [exact Hlen | ].
  intros v' Ev Hv'. injection Ev as <-. now rewrite (Hfit Hv').
Qed.

(** X2.  Sanitising twice with a limit that is not negative is sanitising
    once, but for the empty text, which the first pass can return (on a
    text of blanks) and the second turns into [None]. *)
Theorem sanitize_string_idempotent (value : option string) (max_length : nat) :
  Db.sanitize_string (Db.sanitize_string value (Z.of_nat max_length)) (Z.of_nat max_length)
  = match Db.sanitize_string value (Z.of_nat max_length) with
    | Some EmptyString => None
    | r => r
    end.
Proof.
  destruct value as [[ | c v] | ]; [reflexivity | | reflexivity].
  destruct (SanitizeFacts.sanitize_string_words (String c v) (Z.of_nat max_length)) as
    (words & Hw & -> & Hlen & _); [discriminate | ].
  destruct (Py.join " " words) as [ | d r] eqn:Ej; [reflexivity | ].
  destruct (SanitizeFacts.sanitize_string_words (String d r) (Z.of_nat max_length)) as
    (words2 & Hw2 & -> & _ & Hfit); [discriminate | ].
  rewrite <- Ej in *. rewrite SplitFacts.split_join in Hfit by exact Hw.
  rewrite Hfit; [reflexivity | ]. apply Hlen. lia.
Qed.

Module SkillsFacts.
Import PyFacts SplitFacts SkillFacts.

Lemma rstrip_idem y : Py.rstrip (Py.rstrip y) = Py.rstrip y.
Proof.
  induction y as [ | c y IH]; [reflexivity | ]. cbn [Py.rstrip].
  destruct (Py.rstrip y) as [ | d r] eqn:E.
  - destruct (Py.isspace c) eqn:Ec; [reflexivity | ]. simpl. now rewrite Ec.
  - cbn [Py.rstrip]. cbn [Py.rstrip] in IH. rewrite IH. reflexivity.
Qed.

Lemma lstrip_rstrip_lstrip x : Py.lstrip (Py.rstrip (Py.lstrip x)) = Py.rstrip (Py.lstrip x).
Proof.
  induction x as [ | c x IH]; [reflexivity | ]. cbn [Py.lstrip].
  destruct (Py.isspace c) eqn:Ec; [exact IH | ].
  cbn [Py.rstrip]. destruct (Py.rstrip x); rewrite ?Ec; simpl; now rewrite Ec.
Qed.

Lemma strip_idem x : Py.strip (Py.strip x) = Py.strip x.
Proof. unfold Py.strip. now rewrite lstrip_rstrip_lstrip, rstrip_idem. Qed.

Lemma any_chr_lstrip p x : Py.any_chr p (Py.lstrip x) = true -> Py.any_chr p x = true.
Proof.
  induction x as [ | c x IH]; [auto | ]. cbn [Py.lstrip].
  destruct (Py.isspace c); [ | auto]. intros H. cbn [Py.any_chr]. rewrite (IH H).
  apply orb_true_r.
Qed.

Lemma any_chr_rstrip p x : Py.any_chr p (Py.rstrip x) = true -> Py.any_chr p x = true.
Proof.
  induction x as [ | c x IH]; [auto | ]. cbn [Py.rstrip].
  destruct (Py.rstrip x) as [ | d r].
  - destruct (Py.isspace c); [discriminate | ]. cbn [Py.any_chr].
    rewrite orb_false_r. intros ->. reflexivity.
  - cbn [Py.any_chr] in *. intros H. apply orb_true_iff in H.
    destruct H as [-> | H]; [reflexivity | ]. rewrite (IH H). apply orb_true_r.
Qed.

Lemma any_chr_strip p x : Py.any_chr p (Py.strip x) = false \/ Py.any_chr p x = true.
Proof.
  destruct (Py.any_chr p (Py.strip x)) eqn:E; [right | now left].
  unfold Py.strip in E. now apply any_chr_lstrip, any_chr_rstrip.
Qed.

(** The pieces of [s.split(sep)] hold no separator. *)
Lemma split_chr_no_sep sep s : forall cur piece,
  Py.any_chr (Ascii.eqb sep) cur = false ->
  In piece (Py.split_chr_aux sep cur s) -> Py.any_chr (Ascii.eqb sep) piece = false.
Proof.
  induction s as [ | c s IH]; intros cur piece Hcur Hin; simpl in Hin.
  - destruct Hin as [<- | []]. exact Hcur.
  - destruct (Ascii.eqb c sep) eqn:Ec.
    + destruct Hin as [<- | Hin]; [exact Hcur | ]. now apply (IH EmptyString).
    + apply (IH (cur ++ String c EmptyString)%string); [ | exact Hin].
      rewrite any_chr_app, Hcur. simpl. rewrite Ascii.eqb_sym, Ec. reflexivity.
Qed.

Lemma split_chr_aux_word sep t : forall cur s,
  Py.any_chr (Ascii.eqb sep) t = false ->
  Py.split_chr_aux sep cur (t ++ s)%string = Py.split_chr_aux sep (cur ++ t)%string s.
Proof.
  induction t as [ | c t IH]; intros cur s Ht.
  - now rewrite append_nil_r.
  - cbn [Py.any_chr] in Ht. apply orb_false_iff in Ht. destruct Ht as [Hc Ht].
    rewrite append_cons. cbn [Py.split_chr_aux]. rewrite Ascii.eqb_sym, Hc.
    rewrite (IH _ _ Ht), append_assoc. reflexivity.
Qed.

(** Splitting at the commas a list joined with a comma and a blank. *)
Lemma split_join_comma l : forall cur t,
  Forall (fun x => Py.any_chr (Ascii.eqb ",") x = false) (t :: l) ->
  Py.split_chr_aux "," cur (Py.join ", " (t :: l))
  = (cur ++ t)%string :: map (fun x => String " " x) l.
Proof.
  induction l as [ | t2 l IH]; intros cur t Hl; inversion Hl as [ | ? ? Ht Hl']; subst.
  - change (Py.join ", " [t]) with t. rewrite <- (append_nil_r t) at 1.
    now rewrite split_chr_aux_word.
  - rewrite join_cons, split_chr_aux_word by exact Ht.
    change (", " ++ Py.join ", " (t2 :: l))%string
      with (String "," (String " " (Py.join ", " (t2 :: l)))).
    cbn [Py.split_chr_aux]. change (Ascii.eqb "," ",") with true.
    change (Ascii.eqb " " ",") with false. cbv iota.
    change (EmptyString ++ " ")%string with " ". f_equal.
    rewrite (IH " " t2 Hl'). reflexivity.
Qed.

Lemma entry_spec x :
  is_skill_entry x = true <->
  x <> EmptyString /\ Py.strip x = x /\ Py.any_chr (Ascii.eqb ",") x = false.
Proof.
  unfold is_skill_entry. rewrite !andb_true_iff, !negb_true_iff, String.eqb_eq. split.
  - intros [[H1 H2] H3]. repeat split; auto. intros ->. discriminate.
  - intros (H1 & H2 & H3). repeat split; auto. destruct x; [contradiction | reflexivity].
Qed.

(** The pieces kept are entries. *)
Lemma skill_pieces_entries s : Forall (fun x => is_skill_entry x = true) (skill_pieces s).
Proof.
  unfold skill_pieces. apply List.Forall_forall. intros x Hx.
  apply filter_In in Hx. destruct Hx as [Hx Hne]. apply in_map_iff in Hx.
  destruct Hx as (piece & <- & Hp). apply entry_spec. split; [ | split].
  - intros E. rewrite E in Hne. discriminate.
  - apply strip_idem.
  - destruct (any_chr_strip (Ascii.eqb ",") piece) as [H | H]; [exact H | ].
    apply (split_chr_no_sep "," s EmptyString) in Hp; [ | reflexivity]. congruence.
Qed.

(** The pieces of a joined list of entries are the entries. *)
Lemma skill_pieces_join l :
  Forall (fun x => is_skill_entry x = true) l -> l <> [] ->
  skill_pieces (Py.join ", " l) = l.
Proof.
  intros Hl Hne. destruct l as [ | t l]; [contradiction | ].
  unfold skill_pieces, Py.split_on. rewrite split_join_comma.
  2:{ eapply List.Forall_impl; [ | exact Hl]. intros x Hx. now apply entry_spec in Hx. }
  change (EmptyString ++ t)%string with t. cbn [map].
  assert (E : map Py.strip (map (fun x => String " " x) l) = map Py.strip l).
  { rewrite map_map. apply map_ext. intros x. reflexivity. }
  rewrite E. change (Py.strip t :: map Py.strip l) with (map Py.strip (t :: l)).
  assert (E2 : map Py.strip (t :: l) = t :: l).
  { clear E Hne. generalize dependent (t :: l). intros l0 Hl0.
    induction Hl0 as [ | x l1 Hx Hl1 IH]; [reflexivity | ].
    apply entry_spec in Hx. destruct Hx as (_ & Hx & _). cbn [map]. now rewrite Hx, IH. }
  rewrite E2. clear E E2 Hne. generalize dependent (t :: l). intros l0 Hl0.
  induction Hl0 as [ | x l1 Hx Hl1 IH]; [reflexivity | ].
  apply entry_spec in Hx. destruct Hx as (Hx & _ & _). cbn [List.filter].
  destruct x; [contradiction | ]. cbn [String.eqb negb]. now rewrite IH.
Qed.

Lemma sorted_set_id l : StronglySorted slt l -> sorted_set l = l.
Proof.
  intros H. apply sorted_unique; [apply sorted_set_sorted | exact H | ].
  intros x. apply sorted_set_in.
Qed.

Lemma in_firstn {A} (x : A) l : forall n, In x (firstn n l) -> In x l.
Proof.
  induction l as [ | y l IH]; intros [ | n] H; simpl in *; try contradiction.
  destruct H as [H | H]; [now left | right; eauto].
Qed.

Lemma sorted_firstn {A} (R : A -> A -> Prop) l : forall n,
  StronglySorted R l -> StronglySorted R (firstn n l).
Proof.
  induction l as [ | x l IH]; intros [ | n] H; simpl; try constructor.
  - apply IH. now inversion H.
  - inversion H as [ | ? ? _ Hx]; subst. apply List.Forall_forall. intros y Hy.
    rewrite List.Forall_forall in Hx. apply Hx. eapply in_firstn; eauto.
Qed.

Lemma join_entries_nonempty l :
  Forall (fun x => is_skill_entry x = true) l -> l <> [] -> Py.join ", " l <> EmptyString.
Proof.
  intros Hl Hne. destruct l as [ | t l]; [contradiction | ].
  inversion Hl as [ | ? ? Ht _]; subst. apply entry_spec in Ht. destruct Ht as (Ht & _).
  destruct t; [contradiction | ]. destruct l; [discriminate | ]. rewrite join_cons. discriminate.
Qed.

(** [sanitize_skills] on a joined list of entries in strictly increasing
    order. *)
Lemma sanitize_skills_join l :
  Forall (fun x => is_skill_entry x = true) l -> StronglySorted slt l -> l <> [] ->
  Db.sanitize_skills (Some (Py.join ", " l)) = Some (Py.join ", " (firstn 20 l)).
Proof.
  intros Hl Hs Hne. pose proof (join_entries_nonempty l Hl Hne) as Hj.
  destruct (Py.join ", " l) as [ | c r] eqn:E; [contradiction | ].
  cbn [Db.sanitize_skills]. rewrite <- E.
  change (List.filter _ (map Py.strip (Py.split_on "," (Py.join ", " l))))
    with (skill_pieces (Py.join ", " l)).
  rewrite (skill_pieces_join l Hl Hne), (sorted_set_id l Hs). reflexivity.
Qed.

(** What [sanitize_skills] returns on a non-empty text. *)
Lemma sanitize_skills_items s :
  s <> EmptyString ->
  Db.sanitize_skills (Some s) = Some (Py.join ", " (firstn 20 (sorted_set (skill_pieces s)))).
Proof. destruct s; [contradiction | reflexivity]. Qed.

End SkillsFacts.

(** X3.  [sanitize_skills] returns [None] on [None] and on the empty text
    only.  Otherwise it joins with a comma and a blank at most 20
    entries in strictly increasing order (sorted, none twice); every
    entry is a piece between two commas of the input, stripped, and is
    not empty, holds no comma and no blank at either end; these are the
    first twenty of all such pieces in sorted order. *)
Theorem sanitize_skills_sorted_entries (skills : option string) :
  match Db.sanitize_skills skills with
  | Some r =>
      exists s entries,
        skills = Some s /\ r = Py.join ", " entries /\
        entries = firstn 20 (sorted_set (skill_pieces s)) /\
        (List.length entries <= 20)%nat /\
        StronglySorted slt entries /\
        Forall (fun x => is_skill_entry x = true) entries /\
        (forall x, In x entries ->
                   exists piece, In piece (Py.split_on "," s) /\ x = Py.strip piece)
  | None => skills = None \/ skills = Some EmptyString
  end.
Proof.
  destruct skills as [[ | c s] | ]; [now right | | now left].
  rewrite SkillsFacts.sanitize_skills_items by discriminate.
  exists (String c s), (firstn 20 (sorted_set (skill_pieces (String c s)))).
  split; [reflexivity | split; [reflexivity | split; [reflexivity | ]]].
  split; [apply firstn_le_length | ].
  split; [apply SkillsFacts.sorted_firstn, SkillFacts.sorted_set_sorted | ].
  assert (Hin : forall x, In x (firstn 20 (sorted_set (skill_pieces (String c s)))) ->
                          In x (skill_pieces (String c s))).
  { intros x Hx. apply SkillsFacts.in_firstn in Hx.
    exact (proj1 (SkillFacts.sorted_set_in _ _) Hx). }
  split.
  - apply List.Forall_forall. intros x Hx.
    pose proof (SkillsFacts.skill_pieces_entries (String c s)) as H.
    rewrite List.Forall_forall in H. auto.
  - intros x Hx. apply Hin in Hx. unfold skill_pieces in Hx. apply filter_In in Hx.
    destruct Hx as [Hx _]. apply in_map_iff in Hx. destruct Hx as (piece & <- & Hp). eauto.
Qed.

(** X4.  Sanitising a skills text twice is sanitising it once, but for
    the empty text, which the first pass returns when no piece is left
    and the second turns into [None]. *)
Theorem sanitize_skills_idempotent (skills : option string) :
  Db.sanitize_skills (Db.sanitize_skills skills)
  = match Db.sanitize_skills skills with
    | Some EmptyString => None
    | r => r
    end.
Proof.
  destruct skills as [[ | c s] | ]; [reflexivity | | reflexivity].
  rewrite SkillsFacts.sanitize_skills_items by discriminate.
  set (entries := firstn 20 (sorted_set (skill_pieces (String c s)))).
  assert (He : Forall (fun x => is_skill_entry x = true) entries).
  { apply List.Forall_forall. intros x Hx. apply SkillsFacts.in_firstn in Hx.
    apply (proj1 (SkillFacts.sorted_set_in _ _)) in Hx.
    pose proof (SkillsFacts.skill_pieces_entries (String c s)) as H.
    rewrite List.Forall_forall in H. auto. }
  assert (Hs : StronglySorted slt entries)
    by apply SkillsFacts.sorted_firstn, SkillFacts.sorted_set_sorted.
  assert (Hlen : (List.length entries <= 20)%nat) by apply firstn_le_length.
  clearbody entries. destruct entries as [ | e rest]; [reflexivity | ].
  rewrite SkillsFacts.sanitize_skills_join by (try assumption; discriminate).
  rewrite (firstn_all2 _ Hlen).
  pose proof (SkillsFacts.join_entries_nonempty (e :: rest) He) as Hne.
  destruct (Py.join ", " (e :: rest)); [exfalso; apply Hne; [discriminate | reflexivity] | ].
  reflexivity.
Qed.

(** X5.  The skills text that [extract_skills] writes goes through
    [sanitize_skills] unchanged when it lists at most 20 skills; of a
    longer list the first 20 skills are kept.  The list is the sorted
    list, without repetition, of the title-cased keywords found in the
    transcript. *)
Theorem sanitize_extracted_skills (transcript : string) :
  exists found : list string,
    (forall x, In x found <->
               In x (map Py.title (List.filter (skill_found transcript) SKILLS_KEYWORDS))) /\
    StronglySorted slt found /\
    extract_skills transcript
    = match found with [] => None | _ => Some (Py.join ", " found) end /\
    Db.sanitize_skills (extract_skills transcript)
    = match found with [] => None | _ => Some (Py.join ", " (firstn 20 found)) end /\
    ((List.length found <= 20)%nat ->
     Db.sanitize_skills (extract_skills transcript) = extract_skills transcript).
Proof.
  destruct (SkillFacts.extract_skills_with_spec SKILLS_KEYWORDS transcript)
    as (found & Hin & Hs & E).
  unfold extract_skills. exists found.
  split; [exact Hin | ]. split; [exact Hs | ]. split; [exact E | ].
  rewrite E. destruct found as [ | x found]; [split; reflexivity | ].
  assert (He : Forall (fun x => is_skill_entry x = true) (x :: found)).
  { apply List.Forall_forall. intros y Hy. apply Hin in Hy. apply in_map_iff in Hy.
    destruct Hy as (k & <- & Hk). apply filter_In in Hk. destruct Hk as [Hk _].
    assert (Hall : forallb (fun k => is_skill_entry (Py.title k)) SKILLS_KEYWORDS = true)
      by (vm_compute; reflexivity).
    rewrite forallb_forall in Hall. now apply Hall. }
  rewrite SkillsFacts.sanitize_skills_join by (try assumption; discriminate).
  split; [reflexivity | ]. intros Hlen. now rewrite firstn_all2.
Qed.

Module AnchorFacts.
Import ReSem ReFacts PyFacts Complete Transport.

(** [match_to_end] accepts exactly when the pattern describes a match
    from the start of the subject up to a position where [$] holds. *)
Lemma match_to_end_sound r s :
  match_to_end r s = true ->
  exists w st', matches r (MState None 0 (chars s) []) w st' /\ at_end st' = true.
Proof.
  unfold match_to_end. intros H.
  destruct (rmatch r (MState None 0 (chars s) []) _) as [st | ] eqn:E; [ | discriminate].
  apply rmatch_sound in E. destruct E as (w & st' & Hm & Hk).
  exists w, st'. split; [exact Hm | ]. destruct (at_end st'); [reflexivity | discriminate].
Qed.

Lemma match_to_end_complete r s w st' :
  matches r (MState None 0 (chars s) []) w st' -> at_end st' = true ->
  match_to_end r s = true.
Proof.
  intros Hm He. unfold match_to_end.
  destruct (rmatch_complete r _ w st' _
              (fun st => if at_end st then Some st else None) Hm) as [x ->]; [ | reflexivity].
  intros st1 (_ & _ & Hr). unfold at_end in *. rewrite Hr, He. eauto.
Qed.

Lemma matches_chr_moved p c st rest :
  m_rest st = c :: rest -> p c = true -> matches (Chr p) st [c] (moved st [c]).
Proof.
  intros Hr Hc.
  assert (E : moved st [c] = advance c rest st).
  { unfold moved, advance, prev_after. simpl. rewrite Hr. simpl. rewrite drop_0.
    f_equal. lia. }
  rewrite E. now constructor.
Qed.

(** Words of a class, matched by the repetitions of the class. *)
Lemma matches_rep_chr p w : forall st rest,
  Forall (fun c => p c = true) w -> m_rest st = w ++ rest ->
  matches (rep (List.length w) (Chr p)) st w (moved st w).
Proof.
  induction w as [ | c w IH]; intros st rest Hw Hr; cbn [List.length rep].
  - rewrite moved_nil. constructor.
  - inversion Hw as [ | ? ? Hc Hw']; subst.
    change (c :: w) with ([c] ++ w). rewrite moved_app.
    apply M_Seq with (st1 := moved st [c]).
    + now apply (matches_chr_moved p c st (w ++ rest)).
    + apply (IH _ rest Hw'). simpl. rewrite Hr. reflexivity.
Qed.

Lemma matches_upto_chr p w : forall n st rest,
  Forall (fun c => p c = true) w -> (List.length w <= n)%nat -> m_rest st = w ++ rest ->
  matches (upto n (Chr p)) st w (moved st w).
Proof.
  induction w as [ | c w IH]; intros n st rest Hw Hn Hr.
  - rewrite moved_nil. destruct n; cbn [upto]; [constructor | ].
    apply M_AltR. constructor.
  - destruct n as [ | n]; [simpl in Hn; lia | ]. cbn [upto]. apply M_AltL.
    inversion Hw as [ | ? ? Hc Hw']; subst.
    change (c :: w) with ([c] ++ w). rewrite moved_app.
    apply M_Seq with (st1 := moved st [c]).
    + now apply (matches_chr_moved p c st (w ++ rest)).
    + apply (IH n _ rest Hw'); [simpl in Hn; lia | ]. simpl. rewrite Hr. reflexivity.
Qed.

Lemma matches_star_chr p w : forall st rest,
  Forall (fun c => p c = true) w -> m_rest st = w ++ rest ->
  matches (Star (Chr p)) st w (moved st w).
Proof.
  induction w as [ | c w IH]; intros st rest Hw Hr.
  - rewrite moved_nil. constructor.
  - inversion Hw as [ | ? ? Hc Hw']; subst.
    change (c :: w) with ([c] ++ w). rewrite moved_app.
    apply M_StarS with (st1 := moved st [c]).
    + now apply (matches_chr_moved p c st (w ++ rest)).
    + apply (IH _ rest Hw'). simpl. rewrite Hr. reflexivity.
Qed.

Lemma matches_rep_range_chr p n m w st rest :
  Forall (fun c => p c = true) w -> (n <= List.length w <= m)%nat -> m_rest st = w ++ rest ->
  matches (rep_range n m (Chr p)) st w (moved st w).
Proof.
  intros Hw Hlen Hr. unfold rep_range.
  rewrite <- (firstn_skipn n w) in *. rewrite moved_app.
  apply Forall_app in Hw. destruct Hw as [H1 H2].
  assert (Hl : List.length (firstn n w) = n) by (rewrite length_firstn; rewrite length_app in Hlen; rewrite length_firstn, length_skipn in Hlen; lia).
  econstructor.
  - rewrite <- Hl at 1. apply (matches_rep_chr p _ st (skipn n w ++ rest) H1).
    now rewrite Hr, <- app_assoc.
  - apply (matches_upto_chr p _ _ _ rest H2).
    + rewrite length_app, length_firstn, length_skipn in Hlen. rewrite length_skipn. lia.
    + simpl. rewrite Hr, <- app_assoc. now rewrite drop_app_length.
Qed.

Lemma subclass_refl p : subclass p p = true.
Proof. unfold subclass. apply forallb_forall. intros c _. now destruct (p c). Qed.

Lemma forallb_chars p s : Py.all_chr p s = true <-> Forall (fun c => p c = true) (chars s).
Proof.
  rewrite CaptureFacts.all_chr_chars, forallb_forall, List.Forall_forall. reflexivity.
Qed.

End AnchorFacts.

(** X6.  [validate_name] accepts a text exactly when all its characters
    are letters, white space, hyphens or apostrophes and it has between
    2 and 50 characters; or 51, the last one being a newline, which [$]
    lets pass.  [None] and the empty text are rejected. *)
Theorem validate_name_accepts (name : option string) :
  Db.validate_name name = true <->
  exists n, name = Some n /\ Py.all_chr Db.name_chr n = true /\
            ((2 <= Py.len n <= 50)%nat \/
             (Py.len n = 51%nat /\ String.get 50 n = Some "010"%char)).
Proof.
  split.
  - destruct name as [[ | c0 n0] | ]; try discriminate.
    cbn [Db.validate_name]. remember (String c0 n0) as n eqn:En. clear En. intros H.
    apply AnchorFacts.match_to_end_sound in H. destruct H as (w & st' & Hm & He).
    exists n. split; [reflexivity | ].
    pose proof (ReFacts.matches_rest _ _ _ _ Hm) as [Hr _]. simpl in Hr.
    pose proof (ReFacts.all_in_sound Db.name_chr _ _ _ _ Hm) as Hall.
    assert (Ha : ReSem.all_in Db.name_chr Db.name_body = true) by (vm_compute; reflexivity).
    specialize (Hall Ha).
    pose proof (ReFacts.cmin_sound (fun _ => true) _ _ _ _ Hm) as Hlo.
    assert (Hmax : ReSem.cmax (fun _ => true) Db.name_body = Some 50%nat)
      by (vm_compute; reflexivity).
    pose proof (ReFacts.cmax_sound (fun _ => true) _ _ _ _ Hm _ Hmax) as Hhi.
    assert (Hmin : ReSem.cmin (fun _ => true) Db.name_body = 2%nat) by (vm_compute; reflexivity).
    rewrite Hmin in Hlo. rewrite ReFacts.count_any in Hlo, Hhi.
    assert (Hlen : Py.len n = List.length (PyFacts.chars n))
      by (unfold Py.len; now rewrite PyFacts.chars_length).
    clear Hm Ha Hmax Hmin.
    unfold at_end in He. destruct (m_rest st') as [ | c [ | c2 tl]] eqn:Er; [ | | discriminate].
    + rewrite app_nil_r in Hr. rewrite <- Hr in *. split.
      * now apply AnchorFacts.forallb_chars.
      * left. lia.
    + apply Ascii.eqb_eq in He. subst c. split.
      * apply AnchorFacts.forallb_chars. rewrite Hr. apply Forall_app. split; [exact Hall | ].
        constructor; [reflexivity | constructor].
      * rewrite Hlen, Hr, length_app. simpl.
        destruct (Nat.eq_dec (List.length w) 50) as [E | E]; [right | left; lia].
        split; [lia | ].
        assert (Hg : forall (s : string) k, String.get k s = nth_error (PyFacts.chars s) k).
        { induction s as [ | x s IH]; intros [ | k]; simpl; auto. }
        rewrite Hg, Hr, nth_error_app2 by lia. rewrite E. reflexivity.
  - intros (n & -> & Hall & Hlen).
    assert (Hne : n <> EmptyString).
    { intros ->. destruct Hlen as [H | [H _]]; simpl in H; lia. }
    destruct n as [ | c0 n0]; [contradiction | ].
    cbn [Db.validate_name]. remember (String c0 n0) as n eqn:En. clear En Hne.
    apply AnchorFacts.forallb_chars in Hall.
    assert (Hl : Py.len n = List.length (PyFacts.chars n))
      by (unfold Py.len; now rewrite PyFacts.chars_length).
    destruct Hlen as [Hlen | [Hlen Hlast]].
    + eapply (AnchorFacts.match_to_end_complete _ n (PyFacts.chars n)).
      * apply (AnchorFacts.matches_rep_range_chr Db.name_chr 2 50 (PyFacts.chars n) _ []).
        { exact Hall. } { lia. } { simpl. now rewrite app_nil_r. }
      * unfold at_end, moved. simpl. now rewrite drop_all.
    + assert (Hg : forall (s : string) k, String.get k s = nth_error (PyFacts.chars s) k).
      { induction s as [ | x s IH]; intros [ | k]; simpl; auto. }
      rewrite Hg in Hlast.
      assert (Hsplit : PyFacts.chars n = firstn 50 (PyFacts.chars n) ++ ["010"%char]).
      { rewrite <- (firstn_skipn 50 (PyFacts.chars n)) at 1. f_equal.
        rewrite <- (firstn_skipn 50 (PyFacts.chars n)) in Hlast.
        rewrite nth_error_app2 in Hlast by (rewrite length_firstn; lia).
        rewrite length_firstn in Hlast.
        replace (50 - Nat.min 50 (List.length (PyFacts.chars n)))%nat with 0%nat in Hlast by lia.
        destruct (skipn 50 (PyFacts.chars n)) as [ | x [ | y tl]] eqn:Es.
        - discriminate.
        - simpl in Hlast. congruence.
        - assert (List.length (skipn 50 (PyFacts.chars n)) = 1%nat)
            by (rewrite length_skipn; lia).
          rewrite Es in H. simpl in H. lia. }
      eapply (AnchorFacts.match_to_end_complete _ n (firstn 50 (PyFacts.chars n))).
      * apply (AnchorFacts.matches_rep_range_chr Db.name_chr 2 50 _ _ ["010"%char]).
        { rewrite Hsplit in Hall. apply Forall_app in Hall. tauto. }
        { rewrite length_firstn. lia. }
        { simpl. exact Hsplit. }
      * unfold at_end, moved. simpl. rewrite Hsplit at 2.
        rewrite drop_app_length. reflexivity.
Qed.

Module EmailFacts.
Import ReSem ReFacts PyFacts SearchFacts Complete Transport AnchorFacts.

Lemma seq_inv a b st w st' :
  matches (Seq a b) st w st' ->
  exists w1 st1 w2, w = w1 ++ w2 /\ matches a st w1 st1 /\ matches b st1 w2 st'.
Proof. intros H. inversion H; subst. eauto 6. Qed.

Lemma wordb_inv st w st' : matches WordB st w st' -> w = [] /\ st' = st.
Proof. intros H. inversion H; subst. auto. Qed.




Lemma text_chars s : text (chars s) = s.
Proof. apply string_of_list_ascii_of_string. Qed.

Lemma any_chr_chars p s : Py.any_chr p s = existsb p (chars s).
Proof. induction s as [ | c s IH]; simpl; [reflexivity | now rewrite IH]. Qed.

Lemma no_space_chars s :
  Forall (fun c => negb (Py.isspace c) = true) (chars s) -> Py.any_chr Py.isspace s = false.
Proof.
  intros H. rewrite any_chr_chars. apply not_true_is_false. intros E.
  apply existsb_exists in E. destruct E as (c & Hc & Hs).
  rewrite List.Forall_forall in H. specialize (H c Hc). now rewrite Hs in H.
Qed.








End EmailFacts.



Module JoinFacts.
Import ReSem ReFacts PyFacts SplitFacts.

Lemma join_cons_chars sep x l :
  chars (Py.join sep (x :: l))
  = chars x ++ match l with [] => [] | _ => chars sep ++ chars (Py.join sep l) end.
Proof.
  destruct l as [ | y l].
  - change (Py.join sep [x]) with x. now rewrite app_nil_r.
  - rewrite join_cons, !chars_append. reflexivity.
Qed.

(** Splitting a text into words and joining them with one blank keeps
    the characters of a class that holds no white space. *)
Section Counting.
Variable q : ascii -> bool.
Hypothesis q_no_space : forall c, Py.isspace c = true -> q c = false.

Lemma filter_join_cons x l :
  List.filter q (chars (Py.join " " (x :: l)))
  = List.filter q (chars x) ++ List.filter q (chars (Py.join " " l)).
Proof.
  rewrite join_cons_chars, List.filter_app. destruct l as [ | y l]; [reflexivity | ].
  rewrite List.filter_app. f_equal. simpl. now rewrite (q_no_space " " eq_refl).
Qed.

Lemma filter_split_aux s : forall cur,
  List.filter q (chars (Py.join " " (Py.split_ws_aux cur s)))
  = List.filter q (chars cur) ++ List.filter q (chars s).
Proof.
  induction s as [ | c s IH]; intros cur; cbn [Py.split_ws_aux].
  - destruct cur; [reflexivity | ]. change (Py.join " " [String a cur]) with (String a cur).
    simpl (List.filter q (chars EmptyString)). now rewrite app_nil_r.
  - destruct (Py.isspace c) eqn:Ec.
    + assert (E : List.filter q (chars (String c s)) = List.filter q (chars s)).
      { simpl. now rewrite (q_no_space c Ec). }
      rewrite E. destruct cur as [ | a cur]; [apply (IH EmptyString) | ].
      rewrite filter_join_cons, (IH EmptyString). reflexivity.
    + rewrite IH, chars_append, List.filter_app, <- app_assoc.
      change (chars (String c s)) with (chars (String c EmptyString) ++ chars s).
      now rewrite List.filter_app.
Qed.

Lemma filter_join_split s :
  List.filter q (chars (Py.join " " (Py.split s))) = List.filter q (chars s).
Proof. unfold Py.split. now rewrite filter_split_aux. Qed.

Lemma count_join_split s :
  count q (chars (Py.join " " (Py.split s))) = count q (chars s).
Proof. unfold count. now rewrite filter_join_split. Qed.
End Counting.

(** The joined words are not longer than the text. *)
Lemma len_join_cons x l :
  (Py.len (Py.join " " (x :: l)) <= Py.len x + 1 + Py.len (Py.join " " l))%nat.
Proof.
  destruct l as [ | y l].
  - change (Py.join " " [x]) with x. lia.
  - rewrite join_cons, !len_append. simpl. lia.
Qed.

Lemma len_split_aux s : forall cur,
  (Py.len (Py.join " " (Py.split_ws_aux cur s)) <= Py.len cur + Py.len s)%nat.
Proof.
  induction s as [ | c s IH]; intros cur; cbn [Py.split_ws_aux].
  - destruct cur; [simpl; lia | ]. change (Py.join " " [String a cur]) with (String a cur). lia.
  - destruct (Py.isspace c).
    + destruct cur as [ | a cur].
      * specialize (IH EmptyString). unfold Py.len in *. simpl in *. lia.
      * pose proof (len_join_cons (String a cur) (Py.split_ws_aux EmptyString s)).
        specialize (IH EmptyString). unfold Py.len in *. simpl in *. lia.
    + specialize (IH (cur ++ String c EmptyString)%string). rewrite len_append in IH.
      unfold Py.len in *. simpl in *. lia.
Qed.

Lemma len_join_split s : (Py.len (Py.join " " (Py.split s)) <= Py.len s)%nat.
Proof. unfold Py.split. pose proof (len_split_aux s EmptyString). simpl in *. lia. Qed.

(** The joined words hold characters of the text and blanks only. *)
Lemma forall_join_cons (P : ascii -> Prop) x l :
  P " "%char -> Forall P (chars x) -> Forall P (chars (Py.join " " l)) ->
  Forall P (chars (Py.join " " (x :: l))).
Proof.
  intros Hb Hx Hl. rewrite join_cons_chars. apply Forall_app. split; [exact Hx | ].
  destruct l; [constructor | ]. apply Forall_app. split; [ | exact Hl].
  constructor; [exact Hb | constructor].
Qed.



(** [sanitize_string] on a text that fits into the limit. *)
Lemma sanitize_fits v (max_length : Z) :
  v <> EmptyString -> (Z.of_nat (Py.len v) <= max_length)%Z ->
  Db.sanitize_string (Some v) max_length = Some (Py.join " " (Py.split v)).
Proof.
  intros Hv Hlen.
  destruct (SanitizeFacts.sanitize_string_words v max_length Hv)
    as (words & _ & -> & _ & Hfit).
  rewrite Hfit; [reflexivity | ]. pose proof (len_join_split v). lia.
Qed.

(** The store accepts what [extract_phone] returns. *)
Lemma extracted_phone_accepted transcript phone :
  extract_phone transcript = Some phone ->
  (Py.len phone <= 19)%nat /\
  Db.sanitize_string (Some phone) 20 = Some (Py.join " " (Py.split phone)) /\
  Db.validate_phone (Some (Py.join " " (Py.split phone))) = true.
Proof.
  unfold extract_phone. destruct (search PHONE_PATTERN transcript) as [m | ] eqn:E;
    [ | discriminate].
  cbv zeta. rewrite (PhoneFacts.phone_match_valid _ _ E).
  pose proof (PhoneFacts.phone_match_count _ _ E) as Hc.
  rewrite (PhoneFacts.phone_match_strip _ _ E) in *. intros H. injection H as <-.
  pose proof E as Hm. apply SearchFacts.search_sound, SearchFacts.group0_word in Hm.
  destruct Hm as (st0 & st' & Hm & _).
  assert (Hmax : ReSem.cmax (fun _ => true) PHONE_PATTERN = Some 19%nat)
    by (vm_compute; reflexivity).
  pose proof (ReFacts.cmax_sound (fun _ => true) _ _ _ _ Hm _ Hmax) as Hlen.
  rewrite ReFacts.count_any, PyFacts.chars_length in Hlen.
  remember (group0 m) as phone eqn:Ep. clear Ep.
  assert (Hne : phone <> EmptyString).
  { intros Ee. rewrite Ee in Hc. vm_compute in Hc. lia. }
  assert (Hd : Py.len (phone_digits (Py.join " " (Py.split phone)))
               = Py.len (phone_digits phone)).
  { rewrite !PhoneFacts.phone_digits_count.
    apply count_join_split. exact PhoneFacts.space_not_phone_digit. }
  split; [exact Hlen | ].
  split; [apply (sanitize_fits phone 20 Hne); unfold Py.len; lia | ].
  cbn [Db.validate_phone].
  destruct (Py.join " " (Py.split phone)) as [ | c s] eqn:Ej.
  - assert (E0 : Py.len (phone_digits EmptyString) = 0%nat) by reflexivity.
    rewrite E0 in Hd. lia.
  - rewrite Hd. apply andb_true_iff. split; apply Nat.leb_le; lia.
Qed.

End JoinFacts.

(** X9.  The phone number that [extract_phone] returns is never turned
    down by the store: it has at most 19 characters; sanitised with the
    limit of 20 characters, it is the number with each white space
    written as one blank; it keeps its digits and its [+], and
    [validate_phone] of the store accepts it. *)
Theorem extracted_phone_passes_store (transcript : string) :
  match extract_phone transcript with
  | Some phone =>
      (Py.len phone <= 19)%nat /\
      Db.sanitize_string (Some phone) 20 = Some (Py.join " " (Py.split phone)) /\
      phone_digits (Py.join " " (Py.split phone)) = phone_digits phone /\
      Db.validate_phone (Some (Py.join " " (Py.split phone))) = true
  | None => True
  end.
Proof.
  destruct (extract_phone transcript) as [phone | ] eqn:E; [ | exact I].
  destruct (JoinFacts.extracted_phone_accepted _ _ E) as (Hlen & Hs & Hv).
  split; [exact Hlen | split; [exact Hs | split; [ | exact Hv]]].
  unfold phone_digits. rewrite !SearchFacts.sub_empty_chr. f_equal.
  apply JoinFacts.filter_join_split. intros c Hc.
  now rewrite (PhoneFacts.space_not_phone_digit c Hc).
Qed.

Module TitleFacts.
Import ReSem ReFacts PyFacts.
















End TitleFacts.

Module NameFacts.
Import ReSem ReFacts PyFacts SearchFacts CaptureFacts TitleFacts AnchorFacts.





End NameFacts.


Module StoreYearFacts.


End StoreYearFacts.

Module StoreFacts.
Import ReSem ReFacts PyFacts SplitFacts SanitizeFacts AnchorFacts.

Lemma sanitized_text value (limit : Z) :
  (0 <= limit)%Z -> stored_text limit (Db.sanitize_string value limit).
Proof.
  intros Hl. destruct value as [[ | c v] | ]; try exact I.
  destruct (sanitize_string_words (String c v) limit) as
    (words & Hw & -> & Hlen & _); [discriminate | ].
  split; [now rewrite split_join | ]. now apply Hlen.
Qed.

Lemma sanitized_skills value : stored_skills (Db.sanitize_skills value).
Proof.
  destruct value as [[ | c s] | ]; try exact I.
  rewrite SkillsFacts.sanitize_skills_items by discriminate.
  exists (firstn 20 (sorted_set (skill_pieces (String c s)))).
  split; [reflexivity | ]. split; [apply firstn_le_length | ].
  split; [apply SkillsFacts.sorted_firstn, SkillFacts.sorted_set_sorted | ].
  apply List.Forall_forall. intros x Hx. apply SkillsFacts.in_firstn in Hx.
  apply (proj1 (SkillFacts.sorted_set_in _ _)) in Hx.
  pose proof (SkillsFacts.skill_pieces_entries (String c s)) as H.
  rewrite List.Forall_forall in H. auto.
Qed.

(** The white space of joined words is the blank between two words. *)
Lemma join_blank_only l :
  Forall (fun t => is_word_token t = true) l ->
  Forall (fun c => Py.isspace c = true -> c = " "%char) (chars (Py.join " " l)).
Proof.
  induction 1 as [ | t l Ht Hl IH]; [constructor | ].
  apply JoinFacts.forall_join_cons; [reflexivity | | exact IH].
  apply token_spec in Ht. destruct Ht as [_ Ht]. rewrite EmailFacts.any_chr_chars in Ht.
  apply List.Forall_forall. intros c Hc Hs. exfalso.
  assert (E : existsb Py.isspace (chars t) = true)
    by (apply existsb_exists; eauto).
  congruence.
Qed.

(** An address that the store accepts and that is written as joined
    words holds no white space. *)
Lemma accepted_email_no_space e :
  Py.join " " (Py.split e) = e -> Db.validate_email (Some e) = true ->
  Py.any_chr Py.isspace e = false.
Proof.
  intros Hn Hv. destruct e as [ | c0 e0]; [reflexivity | ].
  cbn [Db.validate_email] in Hv. remember (String c0 e0) as e eqn:Ee. clear Ee.
  apply match_to_end_sound in Hv. destruct Hv as (w & st' & Hm & He).
  pose proof (matches_rest _ _ _ _ Hm) as [Hr _]. simpl in Hr.
  assert (Hw : Forall (fun c => negb (Py.isspace c) = true) w).
  { apply (all_in_sound _ _ _ _ _ Hm). vm_compute. reflexivity. }
  pose proof (join_blank_only _ (split_tokens e)) as Hb. rewrite Hn, Hr in Hb.
  apply EmailFacts.no_space_chars. rewrite Hr.
  unfold at_end in He. destruct (m_rest st') as [ | c [ | c2 tl]]; [ | | discriminate].
  - now rewrite app_nil_r.
  - apply Ascii.eqb_eq in He. subst c. exfalso.
    apply Forall_app in Hb. destruct Hb as [_ Hb]. inversion Hb as [ | ? ? Hc _]; subst.
    specialize (Hc eq_refl). discriminate.
Qed.

Lemma truthy_spec v : Db.truthy v = true <-> exists s, v = Some s /\ s <> EmptyString.
Proof.
  destruct v as [[ | c s] | ]; simpl; split; try discriminate.
  - intros (s & E & Hs). injection E as <-. contradiction.
  - intros _. eexists. split; [reflexivity | discriminate].
  - intros _. reflexivity.
  - intros (s & E & _). discriminate.
Qed.

(** The verdict of [validate_candidate_data] and its message. *)
Lemma validate_candidate_data_spec data :
  match Db.validate_candidate_data data with
  | (true, msg) =>
      msg = None /\
      (Db.truthy (Db.email data) = true -> Db.validate_email (Db.email data) = true) /\
      (Db.truthy (Db.phone data) = true -> Db.validate_phone (Db.phone data) = true) /\
      (Db.truthy_int (Db.graduation_year data) = true ->
       Db.validate_year (Db.graduation_year data) = true) /\
      (Db.truthy (Db.name data) = true -> Db.validate_name (Db.name data) = true)
  | (false, msg) => exists m, msg = Some m /\ In m validation_messages
  end.
Proof.
  unfold Db.validate_candidate_data, validation_messages.
  destruct (Db.truthy (Db.email data)), (Db.validate_email (Db.email data)); simpl;
    try (eexists; split; [reflexivity | simpl; tauto]);
  destruct (Db.truthy (Db.phone data)), (Db.validate_phone (Db.phone data)); simpl;
    try (eexists; split; [reflexivity | simpl; tauto]);
  destruct (Db.truthy_int (Db.graduation_year data)),
           (Db.validate_year (Db.graduation_year data)); simpl;
    try (eexists; split; [reflexivity | simpl; tauto]);
  destruct (Db.truthy (Db.name data)), (Db.validate_name (Db.name data)); simpl;
    try (eexists; split; [reflexivity | simpl; tauto]);
  repeat split; auto; discriminate.
Qed.

Lemma sanitized_stored_ok c :
  fst (Db.validate_candidate_data (Db.sanitized c)) = true -> stored_ok (Db.sanitized c).
Proof.
  intros Hv. pose proof (validate_candidate_data_spec (Db.sanitized c)) as Hs.
  destruct (Db.validate_candidate_data (Db.sanitized c)) as [[ | ] msg]; [ | discriminate].
  destruct Hs as (_ & Hemail & Hphone & Hyear & Hname).
  unfold stored_ok. cbn [Db.sanitized Db.name Db.email Db.phone Db.college Db.degree
                         Db.experience Db.location Db.transcript Db.skills
                         Db.graduation_year] in *.
  repeat (split; [apply sanitized_text; lia | ]).
  split; [apply sanitized_skills | ].
  split; [ | split; [ | split]].
  - intros e Ee Hne. rewrite Ee in Hemail.
    assert (Hacc : Db.validate_email (Some e) = true).
    { apply Hemail. apply truthy_spec. eauto. }
    split; [exact Hacc | ].
    pose proof (sanitized_text (Db.email c) 100 ltac:(lia)) as Hst. rewrite Ee in Hst.
    destruct Hst as [Hn _]. now apply accepted_email_no_space.
  - intros p Ep Hne. rewrite Ep in Hphone.
    assert (Hacc : Db.validate_phone (Some p) = true).
    { apply Hphone. apply truthy_spec. eauto. }
    destruct p as [ | c0 p0]; [contradiction | ]. cbn [Db.validate_phone] in Hacc.
    apply andb_true_iff in Hacc. destruct Hacc as [H1 H2].
    apply Nat.leb_le in H1, H2. lia.
  - intros y Ey. rewrite Ey in Hyear. cbn [Db.truthy_int Db.validate_year] in Hyear.
    destruct (Z.eq_dec y 0%Z) as [-> | Hy]; [now left | right].
    assert (Hne : negb (y =? 0)%Z = true) by (apply negb_true_iff, Z.eqb_neq; exact Hy).
    specialize (Hyear Hne). apply andb_true_iff in Hyear. lia.
  - intros n En Hne. rewrite En in Hname. apply Hname. apply truthy_spec. eauto.
Qed.

End StoreFacts.

(** X11.  [create_candidate] either raises a [ValueError] with one of the
    four messages of the validation, and then the database is not
    reached, or hands to the database the sanitised candidate.  Every
    row it hands over is well formed: each text field is absent or made
    of words joined by single blanks, within the limit of the field; the
    skills are at most 20 sorted entries; an address that is not empty
    is one that [validate_email] accepts and holds no white space; a
    phone number that is not empty has 10 to 15 digits and [+]; the year
    is absent, zero or in 1950..2030; a name that is not empty is one
    that [validate_name] accepts. *)
Theorem create_candidate_row_invariant
    (execute_insert : Db.CandidateCreate -> Z + exn) (candidate_data : Db.CandidateCreate) :
  (exists msg, Db.create_candidate execute_insert candidate_data = inr (ValueError msg) /\
               In msg validation_messages /\
               fst (Db.validate_candidate_data (Db.sanitized candidate_data)) = false)
  \/ (Db.create_candidate execute_insert candidate_data
      = execute_insert (Db.sanitized candidate_data) /\
      stored_ok (Db.sanitized candidate_data)).
Proof.
  unfold Db.create_candidate. cbv zeta.
  pose proof (StoreFacts.validate_candidate_data_spec (Db.sanitized candidate_data)) as Hs.
  pose proof (StoreFacts.sanitized_stored_ok candidate_data) as Hok.
  destruct (Db.validate_candidate_data (Db.sanitized candidate_data)) as [[ | ] msg].
  - right. split; [reflexivity | now apply Hok].
  - left. destruct Hs as (m & -> & Hm). exists m. simpl. auto.
Qed.

Module OrchestratorFacts.




End OrchestratorFacts.


Module WorkflowFacts.

Lemma upload_ok_tests file :
  upload_ok file ->
  negb (Py.mem (Py.lower (App.suffix file)) App.ALLOWED_EXTENSIONS) = false /\
  (MAX_FILE_SIZE <? App.content_size file)%N = false /\
  (App.content_size file =? 0)%N = false.
Proof.
  intros [Hext Hsize]. rewrite Hext. split; [reflexivity | split].
  - apply N.ltb_ge. lia.
  - apply N.eqb_neq. lia.
Qed.

(** [process_audio] once the upload has passed the tests and is written. *)
Lemma process_written {model} (env : App.environment model) file st :
  upload_ok file -> App.write_error env = None ->
  App.process_audio env file st
  = let d := disk_with_copy env file st in
    let '(transcribed, wst) := transcribe_copy env file st in
    match transcribed with
    | inl transcript =>
        if too_short transcript
        then (App.Error 500 ("Transcription failed: " ++
                App.http_str env 400 "Transcription failed or returned insufficient text"),
              {| App.disk := d; App.whisper := wst |})
        else
          let extracted_data := extract_candidate_info (App.nlp env) transcript in
          match Db.create_candidate (App.execute_insert env)
                  (candidate_of extracted_data transcript) with
          | inr (ValueError msg) =>
              (App.Error 400 msg, {| App.disk := d; App.whisper := wst |})
          | inr e =>
              (App.Error 500 ("Failed to save candidate: " ++ str_exn (App.http_str env) e),
               {| App.disk := d; App.whisper := wst |})
          | inl candidate_id =>
              (App.Ok {| App.candidate_id := candidate_id; App.transcript := transcript;
                         App.extracted_data := extracted_data |},
               {| App.disk := App.remove_upload env (copy_path env file) d;
                  App.whisper := wst |})
          end
    | inr e =>
        (App.Error 500 ("Transcription failed: " ++ str_exn (App.http_str env) e),
         {| App.disk := d; App.whisper := wst |})
    end.
Proof.
  intros Hok Hw. destruct (upload_ok_tests file Hok) as (E0 & E1 & E2).
  unfold App.process_audio. cbv zeta. rewrite E0, E1, E2, Hw.
  unfold transcribe_copy, disk_with_copy, copy_path.
  destruct (Transcription.transcribe_audio _ _ _ _ _ _ _ _) as [[transcript | e] wst];
    [ | reflexivity].
  unfold too_short.
  destruct (String.eqb transcript EmptyString || (Py.len (Py.strip transcript) <? 10)%nat);
    reflexivity.
Qed.

End WorkflowFacts.

(** X13.  When the transcription of an accepted upload returns a text
    that is empty or has fewer than ten characters once stripped,
    [process_audio] answers with the status 500, not 400: the handler of
    the transcription step catches the [HTTPException] 400 that the test
    raises and wraps it.  The copy of the upload stays in the upload
    directory. *)
Theorem insufficient_text_answers_500 {model : Type} (env : App.environment model)
    (file : App.upload) (st : App.state model) (text : string)
    (wst : Transcription.whisper_state model) :
  upload_ok file -> App.write_error env = None ->
  transcribe_copy env file st = (inl text, wst) ->
  text = EmptyString \/ (Py.len (Py.strip text) < 10)%nat ->
  App.process_audio env file st
  = (App.Error 500 ("Transcription failed: " ++
       App.http_str env 400 "Transcription failed or returned insufficient text"),
     {| App.disk := disk_with_copy env file st; App.whisper := wst |})
  /\ disk_with_copy env file st !! copy_path env file = Some (File (App.content_size file)).
Proof.
  intros Hok Hw Ht Hshort. rewrite (WorkflowFacts.process_written env file st Hok Hw).
  cbv zeta. rewrite Ht.
  assert (E : too_short text = true).
  { unfold too_short. destruct Hshort as [-> | H]; [reflexivity | ].
    apply Nat.ltb_lt in H. rewrite H. apply orb_true_r. }
  rewrite E. split; [reflexivity | ]. unfold disk_with_copy. apply lookup_insert_eq.
Qed.

Lemma insufficient_text_answers_500_witness :
  App.process_audio demo_env {| App.suffix := ".WAV"; App.content_size := 2048 |}
    {| App.disk := ∅; App.whisper := {| Transcription._model := None;
                                         Transcription.whisper_loads := 0 |} |}
  = (App.Error 500 "Transcription failed: Transcription failed or returned insufficient text",
     {| App.disk := {["uploads/0000.wav" := File 2048]};
        App.whisper := {| Transcription._model := Some tt;
                          Transcription.whisper_loads := 1 |} |})
  /\ ({["uploads/0000.wav" := File 2048]} : gmap string entry) !! "uploads/0000.wav"
     = Some (File 2048).
Proof.
  apply (insufficient_text_answers_500 demo_env
           {| App.suffix := ".WAV"; App.content_size := 2048 |}
           {| App.disk := ∅; App.whisper := {| Transcription._model := None;
                                                Transcription.whisper_loads := 0 |} |}
           "thank you"
           {| Transcription._model := Some tt; Transcription.whisper_loads := 1 |}).
  - split; [reflexivity | ]. vm_compute. split; [reflexivity | discriminate].
  - reflexivity.
  - reflexivity.
  - right. vm_compute. lia.
Defined.




Module LoadFacts.

Lemma nlp_calls_settled spacy_load n st :
  _nlp st <> NotLoaded ->
  load_nlp_model_calls spacy_load n st
  = (repeat (match _nlp st with Loaded p => Some p | _ => None end) n, st).
Proof.
  intros Hst. induction n as [ | n IH]; [reflexivity | ].
  cbn [load_nlp_model_calls repeat]. unfold load_nlp_model at 1.
  destruct (_nlp st) eqn:E; [contradiction | | ]; rewrite IH; reflexivity.
Qed.

Lemma whisper_calls_settled {model} (whisper_load : nat -> model + string) n st m :
  Transcription._model model st = Some m ->
  load_model_calls whisper_load n st = (repeat (inl m) n, st).
Proof.
  intros Hst. induction n as [ | n IH]; [reflexivity | ].
  cbn [load_model_calls repeat]. unfold Transcription.load_model at 1.
  rewrite Hst, IH. reflexivity.
Qed.

Lemma first_success_from {model} (whisper_load : nat -> model + string) n : forall from k m,
  first_success whisper_load from n = Some (k, m) ->
  (from <= k < from + n)%nat /\ whisper_load k = inl m.
Proof.
  induction n as [ | n IH]; intros from k m H; [discriminate | ].
  cbn [first_success] in H. destruct (whisper_load from) as [m0 | msg] eqn:E.
  - injection H as <- <-. split; [lia | exact E].
  - apply IH in H. destruct H as [H1 H2]. split; [lia | exact H2].
Qed.

(** The state after [n] calls that start with no model and [from]
    attempts made. *)
Lemma whisper_calls_state {model} (whisper_load : nat -> model + string) n : forall from,
  snd (load_model_calls whisper_load n
         {| Transcription._model := None; Transcription.whisper_loads := from |})
  = match first_success whisper_load from n with
    | Some (k, m) => {| Transcription._model := Some m; Transcription.whisper_loads := S k |}
    | None => {| Transcription._model := None; Transcription.whisper_loads := from + n |}
    end.
Proof.
  induction n as [ | n IH]; intros from.
  - simpl. now rewrite Nat.add_0_r.
  - cbn [load_model_calls first_success]. unfold Transcription.load_model at 1.
    cbn [Transcription._model Transcription.whisper_loads].
    destruct (whisper_load from) as [m | msg].
    + rewrite (whisper_calls_settled whisper_load n _ m) by reflexivity. reflexivity.
    + specialize (IH (S from)).
      destruct (load_model_calls whisper_load n _) as [rs st2]. simpl in *. rewrite IH.
      destruct (first_success whisper_load (S from) n) as [[k m] | ]; [reflexivity | ].
      f_equal. lia.
Qed.

End LoadFacts.

(** X16.  However often [load_nlp_model] is called, [spacy.load] is
    called once, by the first call: every call returns what that one
    attempt gave, the pipeline, or [None] when it failed; a failure is
    remembered and loading is not tried again. *)
Theorem nlp_model_loaded_once (spacy_load : nat -> option (string -> Doc)) (n : nat) :
  load_nlp_model_calls spacy_load n {| _nlp := NotLoaded; spacy_loads := 0 |}
  = (repeat (spacy_load 0%nat) n,
     {| _nlp := match n with
                | O => NotLoaded
                | S _ => match spacy_load 0%nat with
                         | Some pipeline => Loaded pipeline
                         | None => Unavailable
                         end
                end;
        spacy_loads := Nat.min n 1 |}).
Proof.
  destruct n as [ | n]; [reflexivity | ].
  cbn [load_nlp_model_calls repeat]. unfold load_nlp_model at 1.
  cbn [_nlp spacy_loads].
  destruct (spacy_load 0%nat) as [pipeline | ];
    rewrite LoadFacts.nlp_calls_settled by discriminate; cbn [_nlp];
    replace (Nat.min (S n) 1) with 1%nat by lia; reflexivity.
Qed.

(** X17.  [load_model] of the transcription service does not remember a
    failure: each call tries [whisper.load_model] again until one
    attempt succeeds; from then on the model of that attempt is kept
    and no further attempt is made.  After [n] calls the number of
    attempts is [n] when all failed, and the rank of the first success
    otherwise. *)
Theorem whisper_model_retried_until_loaded {model : Type}
    (whisper_load : nat -> model + string) (n : nat) :
  snd (load_model_calls whisper_load n
         {| Transcription._model := None; Transcription.whisper_loads := 0 |})
  = match first_success whisper_load 0 n with
    | Some (k, m) => {| Transcription._model := Some m; Transcription.whisper_loads := S k |}
    | None => {| Transcription._model := None; Transcription.whisper_loads := n |}
    end
  /\ match first_success whisper_load 0 n with
     | Some (k, m) => (k < n)%nat /\ whisper_load k = inl m
     | None => True
     end.
Proof.
  split; [apply (LoadFacts.whisper_calls_state whisper_load n 0) | ].
  destruct (first_success whisper_load 0 n) as [[k m] | ] eqn:E; [ | exact I].
  apply LoadFacts.first_success_from in E. destruct E as [H1 H2]. split; [lia | exact H2].
Qed.

Module TranscribeFacts.

Lemma prefix_append a b : String.prefix a (a ++ b)%string = true.
Proof.
  induction a as [ | c a IH]; [now destruct b | ].
  rewrite SplitFacts.append_cons. cbn [String.prefix]. rewrite IH.
  destruct (ascii_dec c c); [reflexivity | contradiction].
Qed.

End TranscribeFacts.

(** X18.  [transcribe_audio] returns a text without blank at either end.
    It raises [FileNotFoundError] when the path names nothing and
    [ValueError] when it names something that is not a regular file or
    a file larger than 500 MB, in both cases before the model is looked
    at; whatever goes wrong with the model is raised as an exception
    whose text starts with [Transcription failed: ]. *)
Theorem transcribe_audio_outcomes {model : Type}
    (whisper_load : nat -> model + string)
    (whisper_transcribe : model -> string -> string + string)
    (size_text : N -> string) (http_str : Z -> string -> string)
    (disk : gmap string entry) (audio_path : string)
    (st : Transcription.whisper_state model) :
  match Transcription.transcribe_audio model whisper_load whisper_transcribe size_text
          http_str disk audio_path st with
  | (inl text, st') =>
      Py.strip text = text /\
      exists size m raw,
        disk !! audio_path = Some (File size) /\ (size <= MAX_FILE_SIZE)%N /\
        Transcription.load_model model whisper_load st = (inl m, st') /\
        whisper_transcribe m audio_path = inl raw /\ text = Py.strip raw
  | (inr (FileNotFoundError message), st') => disk !! audio_path = None /\ st' = st
  | (inr (ValueError message), st') =>
      st' = st /\
      (disk !! audio_path = Some NotAFile \/
       exists size, disk !! audio_path = Some (File size) /\ (MAX_FILE_SIZE < size)%N)
  | (inr (PyException message), st') =>
      String.prefix "Transcription failed: " message = true /\
      st' = snd (Transcription.load_model model whisper_load st)
  | (inr (HTTPException _ _), _) => False
  end.
Proof.
  unfold Transcription.transcribe_audio.
  destruct (disk !! audio_path) as [[size | ] | ] eqn:Ed; [ | now auto | now auto].
  destruct (MAX_FILE_SIZE <? size)%N eqn:Es.
  { apply N.ltb_lt in Es. split; [reflexivity | ]. right. eauto. }
  apply N.ltb_ge in Es.
  destruct (Transcription.load_model model whisper_load st) as [[m | e] st'] eqn:El.
  - destruct (whisper_transcribe m audio_path) as [raw | msg] eqn:Et.
    + cbv zeta. destruct (String.eqb (Py.strip raw) EmptyString) eqn:Ee.
      * apply String.eqb_eq in Ee. split; [reflexivity | ].
        exists size, m, raw. rewrite Ee. auto.
      * split; [apply SkillsFacts.strip_idem | ]. exists size, m, raw. auto.
    + split; [apply TranscribeFacts.prefix_append | reflexivity].
  - split; [apply TranscribeFacts.prefix_append | reflexivity].
Qed.

Module LiteralFacts.
Import ReSem ReFacts PyFacts SearchFacts CaptureFacts TitleFacts EmailFacts.

(** A literal under IGNORECASE matches its case variants. *)
Lemma lit_i_word k : forall st w st',
  matches (lit_i k) st w st' -> map Py.lower_chr w = map Py.lower_chr (chars k).
Proof.
  induction k as [ | c k IH]; intros st w st' H.
  - inversion H; subst. reflexivity.
  - destruct k as [ | c2 k].
    + cbn [lit_i] in H. inversion H; subst. simpl. f_equal.
      now apply Ascii.eqb_eq.
    + cbn [lit_i] in H. apply seq_inv in H. destruct H as (w1 & st1 & w2 & -> & H1 & H2).
      inversion H1; subst. apply IH in H2. simpl in *. rewrite H2. f_equal.
      now apply Ascii.eqb_eq.
Qed.

Lemma lit_word k : forall st w st', matches (lit k) st w st' -> w = chars k.
Proof.
  induction k as [ | c k IH]; intros st w st' H.
  - inversion H; subst. reflexivity.
  - destruct k as [ | c2 k].
    + cbn [lit] in H. inversion H; subst. simpl. f_equal.
      symmetry. now apply Ascii.eqb_eq.
    + cbn [lit] in H. apply seq_inv in H. destruct H as (w1 & st1 & w2 & -> & H1 & H2).
      inversion H1; subst. apply IH in H2. simpl in *. rewrite H2. f_equal.
      symmetry. now apply Ascii.eqb_eq.
Qed.

Lemma alt_inv a b st w st' :
  matches (Alt a b) st w st' -> matches a st w st' \/ matches b st w st'.
Proof. intros H. inversion H; subst; auto. Qed.

Lemma alts_inv (l : list regex) : forall st w st',
  matches (alts l) st w st' -> exists r, In r l /\ matches r st w st'.
Proof.
  induction l as [ | a l IH]; intros st w st' H.
  - cbn [alts] in H. inversion H; subst. discriminate.
  - destruct l as [ | b l].
    + exists a. split; [now left | exact H].
    + cbn [alts] in H. apply alt_inv in H. destruct H as [H | H].
      * exists a. split; [now left | assumption].
      * destruct (IH _ _ _ H) as (r & Hr & Hm). exists r. split; [now right | exact Hm].
Qed.

Lemma alts_lit_i_word l st w st' :
  matches (alts (map lit_i l)) st w st' ->
  exists k, In k l /\ map Py.lower_chr w = map Py.lower_chr (chars k).
Proof.
  intros H. apply alts_inv in H. destruct H as (r & Hr & Hm).
  apply in_map_iff in Hr. destruct Hr as (k & <- & Hk). exists k. split; [exact Hk | ].
  exact (lit_i_word _ _ _ _ Hm).
Qed.


Lemma chars_inj s1 s2 : chars s1 = chars s2 -> s1 = s2.
Proof. intros H. rewrite <- (text_chars s1), <- (text_chars s2). now rewrite H. Qed.




Lemma lower_of_chars s k :
  map Py.lower_chr (chars s) = map Py.lower_chr (chars k) -> Py.lower s = Py.lower k.
Proof. intros H. apply chars_inj. now rewrite !Transport.chars_lower. Qed.

End LiteralFacts.

Module LocationFacts.
Import ReSem ReFacts PyFacts SearchFacts CaptureFacts LiteralFacts.

(** What the city pattern captures is a city of the list, in any case. *)
Lemma city_match transcript m :
  search CITY_PATTERN transcript = Some m ->
  exists city, In city CITIES /\ Py.lower (group1 m) = city.
Proof.
  intros H. apply search_sound in H.
  apply (group_captured (regex_eqb (alts (map lit_i CITIES))) 1) in H;
    [ | vm_compute; reflexivity | vm_compute; reflexivity].
  destruct H as (g & body & st1 & st2 & Hg & Hb & Hm).
  rewrite (NumeralFacts.group1_of _ _ Hg).
  pose proof (matches_ext _ _ _ _ Hm _ Hb) as Hw.
  apply alts_lit_i_word in Hw. destruct Hw as (city & Hc & E).
  exists city. split; [exact Hc | ].
  rewrite (lower_of_chars _ _ E).
  assert (Hl : forallb (fun k => String.eqb (Py.lower k) k) CITIES = true)
    by (vm_compute; reflexivity).
  rewrite forallb_forall in Hl. apply String.eqb_eq. now apply Hl.
Qed.


End LocationFacts.


Module KeywordFacts.
Import ReSem ReFacts PyFacts SearchFacts CaptureFacts LiteralFacts EmailFacts.

Lemma prefix_chars k : forall s rest,
  chars s = chars k ++ rest -> String.prefix k s = true.
Proof.
  induction k as [ | c k IH]; intros s rest H; [now destruct s | ].
  destruct s as [ | d s]; [discriminate | ]. simpl in H. injection H as -> H.
  cbn [String.prefix]. destruct (ascii_dec c c); [ | contradiction]. now apply (IH s rest).
Qed.

(** A text that holds the characters of [k] in a row contains [k]. *)
Lemma contains_chars k : forall pre s rest,
  chars s = pre ++ chars k ++ rest -> Py.contains k s = true.
Proof.
  induction pre as [ | c pre IH]; intros s rest H.
  - simpl in H. destruct s; cbn [Py.contains]; rewrite (prefix_chars k _ rest H); reflexivity.
  - destruct s as [ | d s]; [discriminate | ]. simpl in H. injection H as -> H.
    cbn [Py.contains]. rewrite (IH s rest H). apply orb_true_r.
Qed.

Lemma search_contains k r s m :
  starts_with k r -> search r s = Some m -> Py.contains k s = true.
Proof.
  intros Hk H. apply search_sound in H.
  destruct H as (pre & w & st0 & st' & Hs & _ & _ & _ & _ & _ & _ & _ & Hm).
  destruct (Hk _ _ _ Hm) as [w2 ->].
  apply (contains_chars k pre s (w2 ++ m_rest st')). now rewrite Hs, <- app_assoc.
Qed.

Lemma search_contains_i k r s m :
  starts_with_i k r -> search r s = Some m -> Py.contains k (Py.lower s) = true.
Proof.
  intros Hk H. apply search_sound in H.
  destruct H as (pre & w & st0 & st' & Hs & _ & _ & _ & _ & _ & _ & _ & Hm).
  destruct (Hk _ _ _ Hm) as [w2 Hw].
  apply (contains_chars k (map Py.lower_chr pre) _ (w2 ++ map Py.lower_chr (m_rest st'))).
  rewrite Transport.chars_lower, Hs, !map_app, Hw, <- app_assoc. reflexivity.
Qed.

Lemma grp_inv i a st w st' :
  matches (Grp i a) st w st' -> exists st1, matches a st w st1.
Proof. intros H. inversion H; subst. eauto. Qed.

(** The shapes of the patterns of the first two rules. *)
Lemma starts_lit_i k rest :
  Py.lower k = k -> starts_with_i k (Seq WordB (Seq (lit_i k) rest)).
Proof.
  intros Hk st w st' H.
  apply seq_inv in H. destruct H as (w0 & st0 & w1 & -> & H0 & H).
  apply wordb_inv in H0. destruct H0 as [-> ->].
  apply seq_inv in H. destruct H as (wa & sta & w2 & -> & Ha & _).
  apply lit_i_word in Ha. exists (map Py.lower_chr w2). simpl.
  rewrite map_app, Ha, <- Transport.chars_lower, Hk. reflexivity.
Qed.

Lemma starts_lit_grp k rest1 rest2 :
  starts_with k (Seq WordB (Seq (Grp 1 (Seq (lit k) rest1)) rest2)).
Proof.
  intros st w st' H.
  apply seq_inv in H. destruct H as (w0 & st0 & w1 & -> & H0 & H).
  apply wordb_inv in H0. destruct H0 as [-> ->].
  apply seq_inv in H. destruct H as (wg & stg & w2 & -> & Hg & _).
  apply grp_inv in Hg. destruct Hg as [st1 Hg].
  apply seq_inv in Hg. destruct Hg as (wa & sta & w3 & -> & Ha & _).
  apply lit_word in Ha. subst wa. exists (w3 ++ w2). simpl. now rewrite <- app_assoc.
Qed.

Lemma starts_lit_grp_only k rest1 :
  starts_with k (Seq WordB (Grp 1 (Seq (lit k) rest1))).
Proof.
  intros st w st' H.
  apply seq_inv in H. destruct H as (w0 & st0 & w1 & -> & H0 & H).
  apply wordb_inv in H0. destruct H0 as [-> ->].
  apply grp_inv in H. destruct H as [st1 Hg].
  apply seq_inv in Hg. destruct Hg as (wa & sta & w3 & -> & Ha & _).
  apply lit_word in Ha. subst wa. exists w3. reflexivity.
Qed.

(** Rule 1 needs the word [degree]. *)
Lemma rule1_keyword transcript result :
  degree_rule1 transcript = Some result -> Py.contains "degree" (Py.lower transcript) = true.
Proof.
  unfold degree_rule1. destruct (search degree_in_pattern transcript) as [m | ] eqn:E;
    [ | discriminate].
  intros _. apply (search_contains_i "degree" _ _ _ (starts_lit_i "degree" _ eq_refl) E).
Qed.

(** Rule 2 needs [bachelor] or [master]. *)
Lemma rule2_loop_keyword s result : forall patterns,
  Forall (fun p => starts_with "bachelor" p \/ starts_with "master" p) patterns ->
  degree_rule2_loop patterns s = Some result ->
  Py.contains "bachelor" s = true \/ Py.contains "master" s = true.
Proof.
  induction 1 as [ | p patterns Hp Hrest IH]; [discriminate | ].
  cbn [degree_rule2_loop]. destruct (search p s) as [m | ] eqn:E; [ | exact IH].
  intros _. destruct Hp as [Hp | Hp]; [left | right]; exact (search_contains _ _ _ _ Hp E).
Qed.

Lemma rule2_keyword s result :
  degree_rule2_loop full_patterns s = Some result ->
  Py.contains "bachelor" s = true \/ Py.contains "master" s = true.
Proof.
  apply rule2_loop_keyword. unfold full_patterns. cbn [seqs].
  apply List.Forall_cons; [left; apply starts_lit_grp | ].
  apply List.Forall_cons; [right; apply starts_lit_grp | ].
  apply List.Forall_cons; [left; apply starts_lit_grp_only | ].
  apply List.Forall_cons; [right; apply starts_lit_grp_only | ].
  apply List.Forall_nil.
Qed.

End KeywordFacts.

(** X20.  Without annotation [extract_degree] has its first two rules
    only, and both need a word: when the transcript holds none of
    [degree], [bachelor] and [master], in any letter case, it returns
    nothing, whatever abbreviation (B.Tech, M.Sc, MBA) the transcript
    holds. *)
Theorem degree_needs_keyword_without_annotation (transcript : string) :
  Py.any_in ["degree"; "bachelor"; "master"] (Py.lower transcript) = false ->
  extract_degree transcript None = None.
Proof.
  intros H. unfold Py.any_in in H. cbn [existsb] in H.
  apply orb_false_iff in H. destruct H as [Hd H].
  apply orb_false_iff in H. destruct H as [Hb H].
  apply orb_false_iff in H. destruct H as [Hm _].
  unfold extract_degree. cbv zeta.
  destruct (degree_rule1 transcript) as [result | ] eqn:E1.
  { apply KeywordFacts.rule1_keyword in E1. congruence. }
  destruct (degree_rule2_loop full_patterns (Py.lower transcript)) as [result | ] eqn:E2;
    [ | reflexivity].
  apply KeywordFacts.rule2_keyword in E2. destruct E2; congruence.
Qed.

Lemma degree_needs_keyword_without_annotation_witness :
  extract_degree "I did my B.Tech in computer science at Anna University" None = None.
Proof.
  apply (degree_needs_keyword_without_annotation
           "I did my B.Tech in computer science at Anna University").
  vm_compute. reflexivity.
Defined.

Module ShapeFacts.
Import ReSem ReFacts PyFacts SearchFacts CaptureFacts LiteralFacts TitleFacts EmailFacts.





Lemma spec_lower spec : In spec SPECIALIZATIONS -> Py.lower spec = spec.
Proof.
  assert (H : forallb (fun k => String.eqb (Py.lower k) k) SPECIALIZATIONS = true)
    by (vm_compute; reflexivity).
  rewrite forallb_forall in H. intros Hin. apply String.eqb_eq. now apply H.
Qed.















End ShapeFacts.


(* ===================================================================== *)
(** * Checks of the embedding on concrete transcripts *)
(* ===================================================================== *)

(** String methods. *)
Example py_title_check :
  Py.title "computer science engineering" = "Computer Science Engineering"
  /\ Py.title "b.tech" = "B.Tech"
  /\ Py.title ".net" = ".Net"
  /\ Py.title "rAHUL o'neil" = "Rahul O'Neil".
Proof. repeat split; reflexivity. Qed.

Example py_strip_split_check :
  Py.strip "  a b  " = "a b"
  /\ Py.split " I  know Python " = ["I"; "know"; "Python"]
  /\ Py.split_on "." "a.b..c." = ["a"; "b"; ""; "c"; ""].
Proof. repeat split; reflexivity. Qed.

Example py_find_check :
  Py.rfind "ab" "abcab" = Some 3%nat /\ Py.find "ab" "xabcab" = Some 1%nat
  /\ Py.find "z" "abc" = None /\ Py.contains "b e" "job experience" = true.
Proof. repeat split; reflexivity. Qed.

Example py_int_check :
  Py.str_of_int 50 = "50" /\ Py.str_of_int 0 = "0" /\ Py.str_of_int 1234 = "1234"
  /\ Py.int "007" = 7%Z /\ Py.int "2020" = 2020%Z.
Proof. repeat split; reflexivity. Qed.

(** The matcher: leftmost match, greedy repetition with backtracking,
    word boundaries, successive matches and deletion. *)
Example re_search_check :
  option_map group0 (search (seqs [WordB; plus digit; WordB]) "ab12 123 c") = Some "123"
  /\ option_map group0 (search (Seq (plus (Chr Py.islower_chr)) (lit "ing")) "a sing-song singing")
     = Some "sing"
  /\ option_map mo_start (search (lit "b") "aab") = Some 2%nat.
Proof. repeat split; reflexivity. Qed.

Example re_findall_sub_check :
  findall0 (plus digit) "a12b345 6" = ["12"; "345"; "6"]
  /\ sub_empty (Seq (lit_i "at") (plus space)) "look AT  me at home" = "look me home".
Proof. split; reflexivity. Qed.

(** The simple extractors. *)
Example email_check :
  extract_email "Contact me at John.Doe@Example.COM please" = Some "john.doe@example.com".
Proof. vm_compute. reflexivity. Qed.

Example phone_check :
  extract_phone "call me at +91 98765 43210 ok" = None
  /\ extract_phone "my number is 987-654-3210." = Some "987-654-3210"
  /\ extract_phone "reach me on +1 (415) 555 2671 today" = Some "+1 (415) 555 2671".
Proof. vm_compute. repeat split; reflexivity. Qed.

Example experience_check :
  extract_experience "experience of 7 yrs in sales" = Some "7 years"
  /\ extract_experience "I spent 3 years working abroad" = Some "3 years"
  /\ extract_experience "I have 60 years of experience" = None
  /\ extract_experience "100 years of experience, then 5 years of experience" = None.
Proof. vm_compute. repeat split; reflexivity. Qed.

Example skills_check :
  extract_skills "I use python, and machine learning with Docker" = Some "Docker, Machine Learning"
  /\ extract_skills "nothing to report" = None.
Proof. vm_compute. repeat split; reflexivity. Qed.

(** The entity-assisted extractors without annotation. *)
Example name_check :
  extract_name "Hello, my name is rahul sharma and I live in Pune" None
  = Some "Rahul Sharma And".
Proof. vm_compute. reflexivity. Qed.

Example location_check :
  extract_location "Hello, my name is rahul sharma and I live in Pune" None = Some "Pune".
Proof. vm_compute. reflexivity. Qed.

Example college_check :
  extract_college "I graduated from Anna University in 2015" None = Some "Anna University".
Proof. vm_compute. reflexivity. Qed.

(** The degree rules: full names (rule 2), then, with the sentences of an
    annotation, an abbreviation with its specialization in one sentence
    (rule 3) or nearby (rule 4). *)
Example degree_rule2_check :
  extract_degree "I did my bachelor of technology in computer science" None
  = Some "B.Tech in Computer Science"
  /\ extract_degree "I hold a master in business administration" None
     = Some "MBA in Business Administration"
  /\ extract_degree "I studied B.Tech in computer science" None = None.
Proof. vm_compute. repeat split; reflexivity. Qed.

Example degree_rule3_rule4_check :
  extract_degree "I studied B.Tech in computer science"
    (Some {| doc_ents := []; doc_sents := ["I studied B.Tech in computer science"] |})
  = Some "B.Tech in Computer Science"
  /\ extract_degree "I studied B.Tech. My branch was mechanical engineering."
       (Some {| doc_ents := [];
                doc_sents := ["I studied B.Tech."; "My branch was mechanical engineering."] |})
     = Some "B.Tech in Mechanical Engineering"
  /\ extract_degree "I completed my MBA."
       (Some {| doc_ents := []; doc_sents := ["I completed my MBA."] |})
     = Some "MBA".
Proof. vm_compute. repeat split; reflexivity. Qed.

(** The orchestrator without tagger. *)
Example orchestrator_check :
  let result := extract_candidate_info None
                  "my name is Asha Rao, 4 years of experience in python, call 987-654-3210" in
  result !! "name" = Some (VStr "Asha Rao")
  /\ result !! "experience" = Some (VStr "4 years")
  /\ result !! "skills" = Some VNone
  /\ result !! "phone" = Some (VStr "987-654-3210")
  /\ result !! "graduation_year" = Some VNone
  /\ result !! "email" = Some VNone.
Proof. vm_compute. repeat split; reflexivity. Qed.

Example db_checks :
  Db.sanitize_string (Some "  Anna   University
  Chennai ") 100 = Some "Anna University Chennai" /\
  Db.sanitize_string (Some "   ") 100 = Some EmptyString /\
  Db.sanitize_string (Some EmptyString) 100 = None /\
  Db.sanitize_string (Some "abc def") 4 = Some "abc" /\
  Db.sanitize_string (Some "abc def") (-2) = Some "abc d" /\
  Db.sanitize_skills (Some "Python, Aws,,python , Aws") = Some "Aws, Python, python" /\
  Db.sanitize_skills (Some ", ,") = Some EmptyString /\
  Db.validate_email (Some "a.b@c.de") = true /\
  Db.validate_email (Some "a.b@c.de ") = false /\
  Db.validate_email (Some "A.B@C.D|
") = true /\
  Db.validate_name (Some "Jean-Luc O'Neil") = true /\
  Db.validate_name (Some "R2D2") = false /\
  Db.validate_name (Some "a") = false /\
  Db.validate_phone (Some "+91 98765 43210") = true /\
  Db.validate_year (Some 0%Z) = false.
Proof. vm_compute. repeat split. Qed.
